(** * Rag-PdfAnalyzer: news aggregation, storage and enrichment

    A shallow embedding of the article pipeline of the repository
    (src/scrapers/base_scraper.py, storage.py, rss_scraper.py, main.py and
    src/processors/categorizer.py, summarizer.py, processor.py), the
    properties its specification states about it, and further properties
    of the code.

    Conventions of the embedding:
    - Python [str] is [string]; [None] is the [None] of an [option].
    - A Python exception is the [Raise] of the [exn] type below; a
      [try ... except Exception] is [catch].
    - The clock ([datetime.now()]), the network and the AI backends are
      explicit parameters of the functions that use them.
    - [datetime] is a record of its calendar fields and its UTC offset (in
      whole minutes); [isoformat] is written out on the text, and so is
      [fromisoformat] on the texts that [isoformat] writes.
    - A parsed JSON document is a value of type [pyval]: what [json.load]
      returns and [json.dump] takes.
    - The file system is a finite map from path texts to files: two texts
      are two files (a case-sensitive file system, paths without "." or
      ".." components and without links), and the storage path is the text
      that [str(Path(storage_path))] gives. [Storage] has the calls in
      which the look at the directory raises nothing; [Scan] has the
      scans of the directory with the exceptions of [timedelta], of the
      [datetime] subtraction and of [stat()].
    - Floats are exact rationals.
    - A text is a string of characters with code points 0 to 255 (Latin-1),
      one [ascii] for each; [lower], [strip] and [split] act on them as
      Python's do on these characters. *)

From Stdlib Require Import ZArith QArith Qminmax Lia Lqa PrimFloat Ascii String List Sorting.Sorted Sorting.Permutation.
From stdpp Require Import base option list gmap strings fin_maps pretty.

Local Open Scope Z_scope.
Set Warnings "-register-all,-inexact-float".

(** ** Exceptions *)

(** The result of a Python call: a value, or a raised exception with its
    class name. *)
Inductive exn (A : Type) : Type :=
| Ok (a : A)
| Raise (cls : string).
Arguments Ok {A} a.
Arguments Raise {A} cls.

Definition exn_bind {A B} (m : exn A) (k : A → exn B) : exn B :=
  match m with
  | Ok a => k a
  | Raise e => Raise e
  end.

#[global] Instance exn_mbind : MBind exn := λ A B k m, exn_bind m k.
#[global] Instance exn_mret : MRet exn := λ A a, Ok a.

(** [try: body except Exception: handler] *)
Definition catch {A} (body : exn A) (handler : A) : A :=
  match body with
  | Ok a => a
  | Raise _ => handler
  end.

Definition of_option {A} (cls : string) (o : option A) : exn A :=
  match o with
  | Some a => Ok a
  | None => Raise cls
  end.

Fixpoint exn_mapM {A B} (f : A → exn B) (l : list A) : exn (list B) :=
  match l with
  | [] => Ok []
  | x :: l' => y ← f x; ys ← exn_mapM f l'; Ok (y :: ys)
  end.

(** ** Strings *)

Module Str.

(** [s.startswith(p)] *)
Fixpoint startswith (p s : string) : bool :=
  match p, s with
  | EmptyString, _ => true
  | String a p', String b s' => if Ascii.eqb a b then startswith p' s' else false
  | String _ _, EmptyString => false
  end.

(** [sub in s] *)
Fixpoint contains (sub s : string) : bool :=
  startswith sub s ||
  match s with
  | EmptyString => false
  | String _ s' => contains sub s'
  end.

(** [s.endswith(p)] *)
Fixpoint endswith (p s : string) : bool :=
  String.eqb p s ||
  match s with
  | EmptyString => false
  | String _ s' => endswith p s'
  end.

(** [bool(s)]: a string is truthy when it is not empty. *)
Definition truthy (s : string) : bool :=
  match s with
  | EmptyString => false
  | String _ _ => true
  end.

(** [bool(o)] for an optional string: [None] and [""] are falsy. *)
Definition truthy_opt (o : option string) : bool :=
  match o with
  | Some s => truthy s
  | None => false
  end.

(** The lower-case form of a character: the letters A to Z, and the
    Latin-1 capitals from 192 to 222 but for the sign at 215, are 32 below
    their lower-case forms. *)
Definition lower_char (c : ascii) : ascii :=
  let n := nat_of_ascii c in
  if ((Nat.leb 65 n && Nat.leb n 90)
      || (Nat.leb 192 n && Nat.leb n 214)
      || (Nat.leb 216 n && Nat.leb n 222))%bool
  then ascii_of_nat (n + 32) else c.

(** [s.lower()] *)
Fixpoint lower (s : string) : string :=
  match s with
  | EmptyString => EmptyString
  | String c s' => String (lower_char c) (lower s')
  end.

(** The characters [str.strip()] and [str.split()] take for white space:
    the space, \t, \n, \v, \f, \r, the four separators 0x1c-0x1f, the
    next-line control 0x85 and the no-break space 0xa0. *)
Definition is_space (c : ascii) : bool :=
  let n := nat_of_ascii c in
  (Nat.eqb n 32 || (Nat.leb 9 n && Nat.leb n 13) || (Nat.leb 28 n && Nat.leb n 31)
   || Nat.eqb n 133 || Nat.eqb n 160)%bool.

Fixpoint lstrip (s : string) : string :=
  match s with
  | EmptyString => EmptyString
  | String c s' => if is_space c then lstrip s' else s
  end.

Fixpoint rstrip (s : string) : string :=
  match s with
  | EmptyString => EmptyString
  | String c s' =>
      match rstrip s' with
      | EmptyString => if is_space c then EmptyString else String c EmptyString
      | r => String c r
      end
  end.

(** [s.strip()] *)
Definition strip (s : string) : string := rstrip (lstrip s).

(** [s[:n]] for [n >= 0] *)
Fixpoint take (n : nat) (s : string) : string :=
  match n, s with
  | O, _ => EmptyString
  | _, EmptyString => EmptyString
  | S n', String c s' => String c (take n' s')
  end.

(** Fixed-width decimal fields, [%0wd] for [0 <= n < 10^w]. *)
Definition digit_char (d : Z) : ascii := ascii_of_nat (48 + Z.to_nat d).

Definition digit_val (c : ascii) : option Z :=
  let n := nat_of_ascii c in
  if (Nat.leb 48 n && Nat.leb n 57)%bool then Some (Z.of_nat (n - 48)) else None.

Fixpoint fmt_digits (w : nat) (n : Z) : string :=
  match w with
  | O => EmptyString
  | S w' => String (digit_char (n / 10 ^ Z.of_nat w')) (fmt_digits w' (n mod 10 ^ Z.of_nat w'))
  end.

(** Read exactly [w] decimal digits, most significant first. *)
Fixpoint parse_digits (w : nat) (acc : Z) (s : string) : option (Z * string) :=
  match w with
  | O => Some (acc, s)
  | S w' =>
      match s with
      | String c s' =>
          match digit_val c with
          | Some d => parse_digits w' (acc * 10 + d) s'
          | None => None
          end
      | EmptyString => None
      end
  end.

(** The rest of [s] after the prefix [p], when [s] starts with [p]. *)
Fixpoint drop_prefix (p s : string) : option string :=
  match p, s with
  | EmptyString, _ => Some s
  | String a p', String b s' => if Ascii.eqb a b then drop_prefix p' s' else None
  | String _ _, EmptyString => None
  end.

(** Expect the literal character [c]. *)
Definition expect (c : ascii) (s : string) : option string :=
  match s with
  | String c' s' => if Ascii.eqb c c' then Some s' else None
  | EmptyString => None
  end.

End Str.

(** ** Timestamps: Python's [datetime] *)

Module Datetime.

(** A [datetime] value: the calendar fields, and the UTC offset in minutes
    of an aware value ([None] for a naive one). *)
Record datetime : Type := mk_datetime {
  year : Z; month : Z; day : Z;
  hour : Z; minute : Z; second : Z; microsecond : Z;
  utcoffset : option Z
}.

Definition is_leap (y : Z) : bool :=
  (y mod 4 =? 0) && (negb (y mod 100 =? 0) || (y mod 400 =? 0)).

Definition days_in_month (y m : Z) : Z :=
  if m =? 2 then (if is_leap y then 29 else 28)
  else if (m =? 4) || (m =? 6) || (m =? 9) || (m =? 11) then 30
  else 31.

Definition in_range (lo x hi : Z) : bool := (lo <=? x) && (x <=? hi).

(** The checks of the [datetime] constructor (it raises [ValueError] when
    one fails), and of [timezone] for the offset. *)
Definition valid (d : datetime) : bool :=
  in_range 1 (year d) 9999 && in_range 1 (month d) 12 &&
  in_range 1 (day d) (days_in_month (year d) (month d)) &&
  in_range 0 (hour d) 23 && in_range 0 (minute d) 59 &&
  in_range 0 (second d) 59 && in_range 0 (microsecond d) 999999 &&
  match utcoffset d with
  | None => true
  | Some off => in_range (-1439) off 1439
  end.

Definition naive (d : datetime) : bool :=
  match utcoffset d with None => true | Some _ => false end.

(** [d.isoformat()]: YYYY-MM-DDTHH:MM:SS[.ffffff][+HH:MM] *)
Definition iso_offset (o : option Z) : string :=
  match o with
  | None => ""%string
  | Some off =>
      (if off <? 0 then "-" else "+") +:+
      Str.fmt_digits 2 (Z.abs off / 60) +:+ ":" +:+ Str.fmt_digits 2 (Z.abs off mod 60)
  end.

Definition isoformat (d : datetime) : string :=
  Str.fmt_digits 4 (year d) +:+ "-" +:+ Str.fmt_digits 2 (month d) +:+ "-" +:+
  Str.fmt_digits 2 (day d) +:+ "T" +:+
  Str.fmt_digits 2 (hour d) +:+ ":" +:+ Str.fmt_digits 2 (minute d) +:+ ":" +:+
  Str.fmt_digits 2 (second d) +:+
  (if microsecond d =? 0 then "" else "." +:+ Str.fmt_digits 6 (microsecond d)) +:+
  iso_offset (utcoffset d).

(** [d.strftime("%Y%m%d_%H%M%S")] *)
Definition strftime_stamp (d : datetime) : string :=
  Str.fmt_digits 4 (year d) +:+ Str.fmt_digits 2 (month d) +:+ Str.fmt_digits 2 (day d) +:+
  "_" +:+
  Str.fmt_digits 2 (hour d) +:+ Str.fmt_digits 2 (minute d) +:+ Str.fmt_digits 2 (second d).

(** The optional fraction of a second: a dot and six digits. *)
Definition parse_fraction (s : string) : option (Z * string) :=
  match s with
  | String "." s' => Str.parse_digits 6 0 s'
  | _ => Some (0, s)
  end.

(** The optional offset, which must end the text. *)
Definition parse_offset (s : string) : option (option Z) :=
  match s with
  | EmptyString => Some None
  | String c s' =>
      sign ← (if Ascii.eqb c "+" then Some 1
              else if Ascii.eqb c "-" then Some (-1) else None);
      '(hh, s1) ← Str.parse_digits 2 0 s';
      s2 ← Str.expect ":" s1;
      '(mm, s3) ← Str.parse_digits 2 0 s2;
      match s3 with
      | EmptyString =>
          if in_range 0 mm 59 then Some (Some (sign * (hh * 60 + mm))) else None
      | _ => None
      end
  end.

(** The texts that [isoformat] writes, read back; [None] for any other
    text. *)
Definition parse_isoformat (s : string) : option datetime :=
  '(y, s) ← Str.parse_digits 4 0 s;
  s ← Str.expect "-" s;
  '(m, s) ← Str.parse_digits 2 0 s;
  s ← Str.expect "-" s;
  '(d, s) ← Str.parse_digits 2 0 s;
  s ← Str.expect "T" s;
  '(hh, s) ← Str.parse_digits 2 0 s;
  s ← Str.expect ":" s;
  '(mi, s) ← Str.parse_digits 2 0 s;
  s ← Str.expect ":" s;
  '(ss, s) ← Str.parse_digits 2 0 s;
  '(us, s) ← parse_fraction s;
  off ← parse_offset s;
  let r := mk_datetime y m d hh mi ss us off in
  if valid r then Some r else None.

(** [datetime.fromisoformat(s)]; [None] stands for the [ValueError] it
    raises. On a text of the shape that [isoformat] writes it gives the
    value written there. Which other texts it reads (a space for the T, a
    date alone, a time without seconds, ...) depends on the version of
    Python: [other_iso] is what it makes of a text that is not of that
    shape. *)
Definition fromisoformat (other_iso : string → option datetime) (s : string)
    : option datetime :=
  match parse_isoformat s with
  | Some d => Some d
  | None => other_iso s
  end.

End Datetime.


Module DatetimeOrder.
Import Datetime.

(** Naive values compare field by field. *)
Definition fields_compare (a b : datetime) : comparison :=
  match year a ?= year b with Eq =>
  match month a ?= month b with Eq =>
  match day a ?= day b with Eq =>
  match hour a ?= hour b with Eq =>
  match minute a ?= minute b with Eq =>
  match second a ?= second b with Eq => microsecond a ?= microsecond b
  | c => c end | c => c end | c => c end | c => c end | c => c end | c => c end.

Definition days_before_year (y : Z) : Z :=
  let y' := y - 1 in y' * 365 + y' / 4 - y' / 100 + y' / 400.

Definition days_before_month (y m : Z) : Z :=
  nth (Z.to_nat m) [0; 0; 31; 59; 90; 120; 151; 181; 212; 243; 273; 304; 334] 0
  + (if (2 <? m) && is_leap y then 1 else 0).

(** Proleptic Gregorian ordinal of a date, 1 for 0001-01-01. *)
Definition ymd2ord (y m d : Z) : Z := days_before_year y + days_before_month y m + d.

(** Position of an aware value on the UTC time line, in microseconds. *)
Definition utc_micros (a : datetime) (off : Z) : Z :=
  ((((ymd2ord (year a) (month a) (day a) * 24 + hour a) * 60 + minute a - off) * 60
    + second a) * 1000000) + microsecond a.

(** The ordering of two [datetime] values: naive values by their fields,
    aware values by their UTC instants; [None] is the [TypeError] raised
    between a naive and an aware value. *)
Definition compare (a b : datetime) : option comparison :=
  match utcoffset a, utcoffset b with
  | None, None => Some (fields_compare a b)
  | Some oa, Some ob => Some (utc_micros a oa ?= utc_micros b ob)
  | _, _ => None
  end.

(** [a >= b], for two values that can be compared. *)
Definition geb (a b : datetime) : bool :=
  match compare a b with
  | Some Lt => false
  | _ => true
  end.

(** Every ordering comparison within the list is defined. *)
Definition comparable (ks : list datetime) : bool :=
  forallb naive ks || forallb (λ k, negb (naive k)) ks.

Section Sort.
Context {A : Type} (key : A → datetime).

(** Insert [x], which precedes all of [l] in the input, into the sorted
    [l]: it passes the elements with a strictly greater key only. *)
Fixpoint insert_desc (x : A) (l : list A) : list A :=
  match l with
  | [] => [x]
  | y :: l' => if geb (key x) (key y) then x :: y :: l' else y :: insert_desc x l'
  end.

Fixpoint isort_desc (l : list A) : list A :=
  match l with
  | [] => []
  | x :: l' => insert_desc x (isort_desc l')
  end.

(** [l.sort(key=key, reverse=True)]: a stable sort, descending by key. The
    comparisons of a sort connect all the elements, so it raises the
    [TypeError] of [compare] as soon as naive and aware keys are mixed. *)
Definition sort_desc (l : list A) : exn (list A) :=
  if comparable (map key l) then Ok (isort_desc l) else Raise "TypeError".

End Sort.

End DatetimeOrder.

(** ** Python values and JSON documents *)

Module Py.
Import Datetime.

(** The values that occur in a batch document and in the keyword arguments
    of the [Article] constructor. A dictionary is the list of its items in
    insertion order. *)
Inductive pyval : Type :=
| PNone
| PBool (b : bool)
| PNum (n : Q)
| PStr (s : string)
| PList (l : list pyval)
| PDict (items : list (string * pyval))
| PDatetime (d : datetime).

(** [d.get(k)]: the value bound to [k]. *)
Fixpoint dict_get (k : string) (items : list (string * pyval)) : option pyval :=
  match items with
  | [] => None
  | (k', v) :: rest => if String.eqb k k' then Some v else dict_get k rest
  end.

(** [json.dump] raises [TypeError] on a value that holds a [datetime]. *)
Fixpoint json_serializable (v : pyval) : bool :=
  match v with
  | PDatetime _ => false
  | PList l => forallb json_serializable l
  | PDict items => forallb (λ kv, json_serializable (snd kv)) items
  | _ => true
  end.

(** [for x in v]: the elements a [for] loop sees. *)
Definition iterate (v : pyval) : exn (list pyval) :=
  match v with
  | PList l => Ok l
  | PDict items => Ok (map (λ kv, PStr (fst kv)) items)
  | PStr s => Ok (map (λ c, PStr (String c EmptyString)) (list_ascii_of_string s))
  | _ => Raise "TypeError"
  end.

(** [v.items()] *)
Definition items_of (v : pyval) : exn (list (string * pyval)) :=
  match v with
  | PDict items => Ok items
  | _ => Raise "AttributeError"
  end.

(** [l[:limit]] *)
Definition slice_to {A} (limit : Z) (l : list A) : list A :=
  if 0 <=? limit then take (Z.to_nat limit) l
  else take (length l - Z.to_nat (- limit)) l.

Definition of_opt_str (o : option string) : pyval :=
  match o with Some s => PStr s | None => PNone end.

Definition of_opt_datetime (o : option datetime) : pyval :=
  match o with Some d => PDatetime d | None => PNone end.

End Py.

(** ** The Article record (base_scraper.py) *)

Module Article.
Import Datetime Py.

Record Article : Type := mk_Article {
  title : string;
  url : string;
  body : string;
  summary : option string;
  category : option string;
  source : string;
  published_at : option datetime;
  scraped_at : datetime;
  author : option string;
  tags : list string
}.

(** [article.model_dump()] *)
Definition model_dump (a : Article) : list (string * pyval) :=
  [ ("title", PStr (title a));
    ("url", PStr (url a));
    ("body", PStr (body a));
    ("summary", of_opt_str (summary a));
    ("category", of_opt_str (category a));
    ("source", PStr (source a));
    ("published_at", of_opt_datetime (published_at a));
    ("scraped_at", PDatetime (scraped_at a));
    ("author", of_opt_str (author a));
    ("tags", PList (map PStr (tags a))) ]%string.

Section Validation.
(** What the validation of a [datetime] field makes of an input that is
    neither a [datetime] nor [None] (it reads a number as a Unix time, for
    one); [None] when it rejects the input. *)
Variable coerce_datetime : pyval → option datetime.

Definition validation_error {A} : exn A := Raise "ValidationError".

Definition validate_str (v : pyval) : exn string :=
  match v with
  | PStr s => Ok s
  | _ => validation_error
  end.

Definition validate_datetime (v : pyval) : exn datetime :=
  match v with
  | PDatetime d => Ok d
  | PNone => validation_error
  | _ => of_option "ValidationError" (coerce_datetime v)
  end.

(** A required field: the key must be present. *)
Definition required {A} (validate : pyval → exn A) (o : option pyval) : exn A :=
  match o with
  | Some v => validate v
  | None => validation_error
  end.

(** An [Optional[...] = None] field: absent and [None] both give [None]. *)
Definition optional {A} (validate : pyval → exn A) (o : option pyval) : exn (option A) :=
  match o with
  | None | Some PNone => Ok None
  | Some v => x ← validate v; Ok (Some x)
  end.

(** [tags: List[str] = []] *)
Definition validate_tags (o : option pyval) : exn (list string) :=
  match o with
  | None => Ok []
  | Some (PList l) => exn_mapM validate_str l
  | Some _ => validation_error
  end.

(** The constructor call of [_load_file], with the items of [data] as
    keyword arguments: keys that name no field are ignored. *)
Definition construct (data : list (string * pyval)) : exn Article :=
  t ← required validate_str (dict_get "title" data);
  u ← required validate_str (dict_get "url" data);
  b ← required validate_str (dict_get "body" data);
  sm ← optional validate_str (dict_get "summary" data);
  c ← optional validate_str (dict_get "category" data);
  src ← required validate_str (dict_get "source" data);
  p ← optional validate_datetime (dict_get "published_at" data);
  sc ← required validate_datetime (dict_get "scraped_at" data);
  au ← optional validate_str (dict_get "author" data);
  tg ← validate_tags (dict_get "tags" data);
  Ok (mk_Article t u b sm c src p sc au tg).

End Validation.

(** The values the constructor accepts: every timestamp is a valid
    [datetime]. *)
Definition well_formed (a : Article) : bool :=
  valid (scraped_at a) &&
  match published_at a with Some d => valid d | None => true end.

End Article.

(** ** Article storage (storage.py) *)

Module Storage.
Import Datetime DatetimeOrder Py Article.

(** A directory entry: its modification time, in microseconds on the time
    line of the local clock (what [datetime.fromtimestamp] makes of its
    [st_mtime], for an entry whose [stat()] returns), and the document
    [json.load] reads from it ([None] when [open] or [json.load] raises: a
    directory, an unreadable file, text that is not JSON). *)
Record file : Type := mk_file {
  mtime : Z;
  content : option pyval
}.

Definition microseconds_per_day : Z := 86400000000.

Section Storage.
(** [str(self.storage_path)] *)
Variable storage_path : string.
(** Whether [open(path, 'w')] succeeds. *)
Variable can_write : string → bool.
(** Whether [path.unlink()] succeeds. *)
Variable can_unlink : string → bool.
(** [datetime.fromisoformat] on the texts that are not of the shape that
    [isoformat] writes. *)
Variable other_iso : string → option datetime.
Variable coerce_datetime : pyval → option datetime.

(** [self.storage_path / filename], for a file name without separator;
    the file system is keyed by these texts. *)
Definition join (filename : string) : string := storage_path +:+ "/" +:+ filename.

(** [json_file.name] for a path that [self.storage_path.glob("*.json")]
    yields: an entry of the directory itself whose name ends in .json. *)
Definition batch_name (path : string) : option string :=
  name ← Str.drop_prefix (storage_path +:+ "/") path;
  if negb (Str.contains "/" name) && Str.endswith ".json" name then Some name else None.

(** [self.storage_path.glob("*.json")], in directory order. *)
Definition glob_json (fs : gmap string file) : list (string * file) :=
  filter (λ pf, is_Some (batch_name pf.1)) (map_to_list fs).

(** The dictionary of an article with every [datetime] value replaced by
    its ISO text (the inner loop of [save_articles]). *)
Definition iso_item (kv : string * pyval) : string * pyval :=
  match kv.2 with
  | PDatetime d => (kv.1, PStr (isoformat d))
  | _ => kv
  end.

Definition article_dict (a : Article) : pyval := PDict (iso_item <$> model_dump a).

(** [json.dump(doc, f)]: the document that a later [json.load] returns. *)
Definition json_dump (doc : pyval) : exn pyval :=
  if json_serializable doc then Ok doc else Raise "TypeError".

(** [save_articles(articles, source_name)]. [stamp] and [written] are the
    two readings of [datetime.now()], [mt] the modification time the file
    gets. Returns the path and the new directory state; an exception of
    [open] or [json.dump] is re-raised. *)
Definition save_articles (articles : list Article) (source_name : option string)
    (stamp written : datetime) (mt : Z) (fs : gmap string file)
    : exn (string * gmap string file) :=
  let timestamp := strftime_stamp stamp in
  let filename :=
    match source_name with
    | Some name =>
        if Str.truthy name then name +:+ "_" +:+ timestamp +:+ ".json"
        else "articles_" +:+ timestamp +:+ ".json"
    | None => "articles_" +:+ timestamp +:+ ".json"
    end in
  let filepath := join filename in
  let articles_data := article_dict <$> articles in
  if can_write filepath then
    doc ← json_dump (PDict [
             ("scraped_at", PStr (isoformat written));
             ("source", of_opt_str source_name);
             ("count", PNum (inject_Z (Z.of_nat (length articles))));
             ("articles", PList articles_data) ]%string);
    Ok (filepath, <[filepath := mk_file mt (Some doc)]> fs)
  else Raise "OSError".

(** [open(filepath)] followed by [json.load]. *)
Definition read_json (fs : gmap string file) (filepath : string) : exn pyval :=
  match fs !! filepath with
  | Some f => of_option "JSONDecodeError" (content f)
  | None => Raise "FileNotFoundError"
  end.

(** The inner loop of [_load_file]: a text under a key ending in _at
    becomes the [datetime] it denotes, or [None] when it denotes none. The
    keys of a dictionary are distinct, so the assignments of the loop
    rewrite each item in its place. *)
Definition convert_item (kv : string * pyval) : string * pyval :=
  if Str.endswith "_at" kv.1 then
    match kv.2 with
    | PStr value =>
        match fromisoformat other_iso value with
        | Some d => (kv.1, PDatetime d)
        | None => (kv.1, PNone)
        end
    | _ => kv
    end
  else kv.

Definition load_article (article_data : pyval) : exn Article :=
  items ← items_of article_data;
  construct coerce_datetime (convert_item <$> items).

(** The body of the [try] of [_load_file]. *)
Definition load_file_body (fs : gmap string file) (filepath : string) : exn (list Article) :=
  data ← read_json fs filepath;
  top ← items_of data;
  elems ← match dict_get "articles" top with
           | Some v => iterate v
           | None => Ok []
           end;
  exn_mapM load_article elems.

(** [_load_file(filepath)]: any exception gives the empty list. *)
Definition _load_file (fs : gmap string file) (filepath : string) : list Article :=
  catch (load_file_body fs filepath) [].

(** Whether the scan of [load_articles] reads the entry. *)
Definition selected (source : option string) (cutoff : Z) (pf : string * file) : bool :=
  if mtime pf.2 <? cutoff then false
  else
    match source, batch_name pf.1 with
    | Some src, Some name => negb (Str.truthy src && negb (Str.contains src name))
    | _, _ => true
    end.

(** [load_articles(filepath, source, max_age_days)] at clock reading [now]:
    the list returned by a call in which the look at the directory (the
    cutoff, [stat()], [fromtimestamp]) raises nothing. [Scan.load_articles]
    below has these exceptions too. *)
Definition load_articles (fs : gmap string file) (filepath source : option string)
    (max_age_days : Z) (now : Z) : list Article :=
  if Str.truthy_opt filepath then
    _load_file fs (default "" filepath)
  else
    let cutoff_date := now - max_age_days * microseconds_per_day in
    pf ← filter (λ pf, selected source cutoff_date pf = true) (glob_json fs);
    _load_file fs pf.1.

(** [get_latest_articles(limit, category)] *)
Definition get_latest_articles (fs : gmap string file) (limit : Z)
    (category : option string) (now : Z) : exn (list Article) :=
  let articles := load_articles fs None None 7 now in
  let articles :=
    if Str.truthy_opt category
    then filter (λ a, Article.category a = category) articles
    else articles in
  articles ← sort_desc scraped_at articles;
  Ok (slice_to limit articles).

(** One iteration of the loop of [cleanup_old_articles]. *)
Definition cleanup_step (cutoff : Z) (fs : gmap string file) (pf : string * file)
    : gmap string file :=
  if mtime pf.2 <? cutoff then
    if can_unlink pf.1 then delete pf.1 fs else fs
  else fs.

(** [cleanup_old_articles(max_age_days)] at clock reading [now]: the
    directory after a call in which the look at the directory raises
    nothing. [Scan.cleanup_old_articles] below has these exceptions too. *)
Definition cleanup_old_articles (fs : gmap string file) (max_age_days : Z) (now : Z)
    : gmap string file :=
  let cutoff_date := now - max_age_days * microseconds_per_day in
  foldl (cleanup_step cutoff_date) fs (glob_json fs).

End Storage.
End Storage.

(** ** The scans of the directory, with their exceptions (storage.py) *)

Module Scan.
Import Datetime DatetimeOrder Py Article Storage.

(** Positions on the time line of the local clock count microseconds from
    [datetime.min], 0001-01-01T00:00:00; [datetime.max] is the last
    microsecond of the year 9999, 3652059 days later. *)
Definition max_position : Z := 3652059 * microseconds_per_day - 1.

(** [timedelta(days=days)], in microseconds: [OverflowError] beyond
    999999999 days. *)
Definition timedelta_days (days : Z) : exn Z :=
  if (-999999999 <=? days) && (days <=? 999999999)
  then Ok (days * microseconds_per_day)
  else Raise "OverflowError".

(** [datetime.now() - timedelta(days=max_age_days)]: [OverflowError] when
    the difference is no [datetime]. *)
Definition cutoff_date (now max_age_days : Z) : exn Z :=
  delta ← timedelta_days max_age_days;
  let cutoff_date := now - delta in
  if (0 <=? cutoff_date) && (cutoff_date <=? max_position)
  then Ok cutoff_date
  else Raise "OverflowError".

Section Scan.
Variable storage_path : string.
Variable can_unlink : string → bool.
(** The exception that [json_file.stat()], or [datetime.fromtimestamp] of
    its [st_mtime], raises for a directory entry (a link to nothing, a time
    that is no [datetime]); [None] when both return. *)
Variable stat_error : string → option string.
Variable other_iso : string → option datetime.
Variable coerce_datetime : pyval → option datetime.

(** The loop of [load_articles]: the look at an entry is outside any [try],
    and its exception ends the call. *)
Fixpoint scan_entries (fs : gmap string file) (source : option string) (cutoff_date : Z)
    (articles : list Article) (entries : list (string * file)) : exn (list Article) :=
  match entries with
  | [] => Ok articles
  | json_file :: rest =>
      match stat_error json_file.1 with
      | Some e => Raise e
      | None =>
          if selected storage_path source cutoff_date json_file
          then scan_entries fs source cutoff_date
                 (articles ++ _load_file other_iso coerce_datetime fs json_file.1) rest
          else scan_entries fs source cutoff_date articles rest
      end
  end.

(** [load_articles(filepath, source, max_age_days)] at clock reading [now]. *)
Definition load_articles (fs : gmap string file) (filepath source : option string)
    (max_age_days : Z) (now : Z) : exn (list Article) :=
  if Str.truthy_opt filepath then
    Ok (_load_file other_iso coerce_datetime fs (default ""%string filepath))
  else
    cutoff_date ← cutoff_date now max_age_days;
    scan_entries fs source cutoff_date [] (glob_json storage_path fs).

(** The loop of [cleanup_old_articles]: the directory when it ends, and
    the exception that ended it, if any. Only [unlink()] is inside the
    [try]. *)
Fixpoint cleanup_entries (cutoff_date : Z) (fs : gmap string file)
    (entries : list (string * file)) : gmap string file * option string :=
  match entries with
  | [] => (fs, None)
  | json_file :: rest =>
      match stat_error json_file.1 with
      | Some e => (fs, Some e)
      | None => cleanup_entries cutoff_date (cleanup_step can_unlink cutoff_date fs json_file) rest
      end
  end.

(** [cleanup_old_articles(max_age_days)] at clock reading [now]. *)
Definition cleanup_old_articles (fs : gmap string file) (max_age_days : Z) (now : Z)
    : gmap string file * option string :=
  match cutoff_date now max_age_days with
  | Ok cutoff_date => cleanup_entries cutoff_date fs (glob_json storage_path fs)
  | Raise e => (fs, Some e)
  end.

End Scan.
End Scan.

(** ** The aggregator (main.py) *)

Module Aggregator.
Import Datetime DatetimeOrder Py Article Storage.

(** [article.category or 'uncategorized'] *)
Definition bucket_of (a : Article) : string :=
  match category a with
  | Some c => if Str.truthy c then c else "uncategorized"
  | None => "uncategorized"
  end.

(** One iteration of the grouping loop. *)
Definition add_article (categorized : gmap string (list Article)) (a : Article)
    : gmap string (list Article) :=
  let category := bucket_of a in
  let categorized :=
    match categorized !! category with
    | None => <[category := []]> categorized
    | Some _ => categorized
    end in
  <[category := default [] (categorized !! category) ++ [a]]> categorized.

Definition group_by_category (articles : list Article) : gmap string (list Article) :=
  foldl add_article ∅ articles.

(** The sorting loop: every bucket is sorted in place, and the first
    [TypeError] of a sort ends the call. *)
Definition sort_buckets (categorized : gmap string (list Article))
    : exn (gmap string (list Article)) :=
  if forallb (λ kl, comparable (scraped_at <$> kl.2)) (map_to_list categorized)
  then Ok (isort_desc scraped_at <$> categorized)
  else Raise "TypeError".

Section Aggregator.
Variable storage_path : string.
Variable other_iso : string → option datetime.
Variable coerce_datetime : pyval → option datetime.

(** [get_articles_by_category()] at clock reading [now]. *)
Definition get_articles_by_category (fs : gmap string file) (now : Z)
    : exn (gmap string (list Article)) :=
  let articles := load_articles storage_path other_iso coerce_datetime fs None None 7 now in
  sort_buckets (group_by_category articles).

End Aggregator.
End Aggregator.

(** ** The keyword categorizer (categorizer.py) *)

Module Categorizer.

(** The arithmetic of the scores: the literals 0, 0.1, 0.2 and 1.0 of the
    code, [+], [/] and [<]. The properties are proved over the rationals,
    which the floats of Python approximate; the binary64 floats themselves
    run the examples. *)
Class Arith (F : Type) : Type := {
  f0 : F; f0_1 : F; f0_2 : F; f1 : F;
  fadd : F → F → F;
  fdiv : F → F → F;
  flt : F → F → bool
}.

#[global] Instance rational : Arith Q := {|
  f0 := 0%Q; f0_1 := (1 # 10)%Q; f0_2 := (2 # 10)%Q; f1 := 1%Q;
  fadd := Qplus; fdiv := Qdiv;
  flt a b := negb (Qle_bool b a)
|}.

Definition binary64 : Arith float := {|
  f0 := 0%float; f0_1 := 0.1%float; f0_2 := 0.2%float; f1 := 1%float;
  fadd := PrimFloat.add; fdiv := PrimFloat.div;
  flt := PrimFloat.ltb
|}.

(** The [category_keywords] table of [_fallback_categorize]. *)
Definition category_keywords : list (string * list string) :=
  [ ("tech", ["technology"; "ai"; "software"; "computer"; "digital"; "startup"; "app"]);
    ("finance", ["money"; "bank"; "stock"; "investment"; "market"; "economy"; "business"]);
    ("health", ["health"; "medical"; "doctor"; "disease"; "treatment"; "medicine"]);
    ("politics", ["government"; "election"; "policy"; "president"; "congress"; "political"]);
    ("sports", ["sport"; "game"; "team"; "player"; "championship"; "league"]);
    ("science", ["research"; "study"; "scientific"; "discovery"; "experiment"]);
    ("entertainment", ["movie"; "music"; "celebrity"; "entertainment"; "film"; "show"])
  ]%string.

Fixpoint table_get (k : string) (table : list (string * list string)) : option (list string) :=
  match table with
  | [] => None
  | (k', v) :: rest => if String.eqb k k' then Some v else table_get k rest
  end.

(** [category_keywords.get(category.lower(), [category.lower()])] *)
Definition keywords_of (category : string) : list string :=
  default [Str.lower category] (table_get (Str.lower category) category_keywords).

(** [scores[k] = v] on a dictionary kept as the list of its items in
    insertion order: a key already present keeps its place. *)
Fixpoint dict_set {V} (k : string) (v : V) (scores : list (string * V)) : list (string * V) :=
  match scores with
  | [] => [(k, v)]
  | (k', v') :: rest =>
      if String.eqb k k' then (k, v) :: rest else (k', v') :: dict_set k v rest
  end.

(** [truthy] for an optional list: [None] and [[]] are falsy. *)
Definition or_else (categories : option (list string)) (fallback : list string) : list string :=
  match categories with
  | Some (c :: cs) => c :: cs
  | _ => fallback
  end.

Section Scores.
Context {F : Type} {arith : Arith F}.

(** [min(a, b)]: the first argument, unless the second is smaller. *)
Definition py_min (a b : F) : F := if flt b a then b else a.

(** The inner loop: from the base score 0.1, 0.2 more for each keyword
    found in the text. *)
Definition keyword_score (text_lower : string) (keywords : list string) : F :=
  foldl (λ score keyword,
           if Str.contains keyword text_lower then fadd score f0_2 else score)
        f0_1 keywords.

(** [min(score, 1.0)] *)
Definition capped_score (text_lower category : string) : F :=
  py_min (keyword_score text_lower (keywords_of category)) f1.

(** The scores before normalisation. *)
Definition capped_scores (text : string) (categories : list string) : list (string * F) :=
  let text_lower := Str.lower text in
  foldl (λ scores category, dict_set category (capped_score text_lower category) scores)
        [] categories.

(** [sum(scores.values())] *)
Definition sum_values (scores : list (string * F)) : F :=
  foldl fadd f0 (snd <$> scores).

(** [_fallback_categorize(text, categories)] *)
Definition _fallback_categorize (text : string) (categories : list string)
    : list (string * F) :=
  let scores := capped_scores text categories in
  let total := sum_values scores in
  if flt f0 total
  then (λ kv, (kv.1, fdiv kv.2 total)) <$> scores
  else scores.

(** [max(scores, key=scores.get)]: the first key with the greatest value;
    [ValueError] on an empty dictionary. *)
Fixpoint max_from (best : string * F) (rest : list (string * F)) : string :=
  match rest with
  | [] => best.1
  | kv :: rest' =>
      if flt best.2 kv.2 then max_from kv rest' else max_from best rest'
  end.

Definition max_key (scores : list (string * F)) : exn string :=
  match scores with
  | [] => Raise "ValueError"
  | kv :: rest => Ok (max_from kv rest)
  end.

(** [ArticleCategorizer.categorize_article(article_text, categories)], with
    the [categorize] method of the backend as a parameter. *)
Definition categorize_article (categorize : string → list string → list (string * F))
    (self_categories : list string)
    (article_text : string) (categories : option (list string)) : exn string :=
  let categories := or_else categories self_categories in
  let scores := categorize article_text categories in
  max_key scores.

End Scores.
End Categorizer.

(** ** The feed scraper (rss_scraper.py) *)

Module Rss.
Import Datetime Py Article.

(** [entry.content], when the attribute is there and truthy: the list of
    content items, each with its 'value' if it has one, or another value
    with its [str()]. *)
Inductive content : Type :=
| ContentList (values : list (option string))
| ContentOther (text : string).

(** A feed entry as the parser gives it; a field is [None] when the entry
    lacks the attribute (for [published_parsed] and [content], also when it
    is falsy). A tag is [None] when it lacks [term], and [Some None] when
    its [term] is [None]. *)
Record Entry : Type := mk_Entry {
  e_title : option string;
  e_link : option string;
  e_published_parsed : option (Z * Z * Z * Z * Z * Z);
  e_published : option string;
  e_author : option string;
  e_summary : option string;
  e_description : option string;
  e_content : option content;
  e_tags : option (list (option (option string)))
}.

(** [' '.join(text.split())] *)
Fixpoint collapse (pending started : bool) (s : string) : string :=
  match s with
  | EmptyString => EmptyString
  | String c s' =>
      if Str.is_space c then collapse started started s'
      else if pending then String " " (String c (collapse false true s'))
      else String c (collapse false true s')
  end.

Definition normalize_whitespace (s : string) : string := collapse false false s.

Section Scraper.
(** [self.source_name], [self.category] and
    [self.config.get('max_articles_per_source', 10)] *)
Variable source_name : string.
Variable category : string.
Variable max_articles : Z.
(** [date_parser.parse]: [None] when it raises. *)
Variable date_parse : string → option datetime.
(** [_fetch_full_content]: the text of the linked page, [None] when the
    page cannot be fetched. *)
Variable fetch_full_content : string → option string.
(** [BeautifulSoup(text, 'html.parser').get_text(separator=' ', strip=True)] *)
Variable html_text : string → string.

(** [_clean_html(text)] *)
Definition _clean_html (text : string) : string :=
  let text := if Str.contains "<" text && Str.contains ">" text then html_text text else text in
  normalize_whitespace text.

(** [datetime] built from the first six fields of [entry.published_parsed];
    the constructor raises on a field out of range. *)
Definition datetime_of_tuple (t : Z * Z * Z * Z * Z * Z) : exn datetime :=
  let '(y, m, d, hh, mi, ss) := t in
  let r := mk_datetime y m d hh mi ss 0 None in
  if valid r then Ok r else Raise "ValueError".

(** [x or y] on texts *)
Definition text_or (x : option string) (y : string) : string :=
  match x with
  | Some s => if Str.truthy s then s else y
  | None => y
  end.

(** The validation of the [tags] argument: every term must be a text. *)
Definition validate_terms (terms : list (option string)) : exn (list string) :=
  exn_mapM (of_option "ValidationError") terms.

(** [_parse_entry(entry)], with [now] the reading of [datetime.now()]. *)
Definition _parse_entry (now : datetime) (entry : Entry) : exn (option Article) :=
  let title := Str.strip (default ""%string (e_title entry)) in
  if negb (Str.truthy title) then Ok None else
  let url := Str.strip (default ""%string (e_link entry)) in
  if negb (Str.truthy url) then Ok None else
  published_at ← match e_published_parsed entry with
                  | Some t => d ← datetime_of_tuple t; Ok (Some d)
                  | None =>
                      match e_published entry with
                      | Some text => Ok (date_parse text)
                      | None => Ok None
                      end
                  end;
  let author := e_author entry in
  let summary := Str.strip (default ""%string (e_summary entry)) in
  let summary :=
    if negb (Str.truthy summary) then Str.strip (default ""%string (e_description entry))
    else summary in
  let body :=
    match e_content entry with
    | Some (ContentList (first :: _)) => default summary first
    | Some (ContentList []) => text_or (fetch_full_content url) summary
    | Some (ContentOther text) => text
    | None => text_or (fetch_full_content url) summary
    end in
  let body := _clean_html body in
  let tags :=
    match e_tags entry with
    | Some tags => omap id tags
    | None => []
    end in
  tags ← validate_terms tags;
  Ok (Some (mk_Article title url body (Some summary) (Some category) source_name
              published_at now author tags)).

(** One turn of the loop of [scrape_articles]: the article is appended; an
    exception of [_parse_entry], or of [rate_limit] after the append, is
    logged and the loop goes on. *)
Definition scrape_entry (now : datetime) (articles : list Article) (entry : Entry)
    : list Article :=
  match _parse_entry now entry with
  | Ok (Some article) => articles ++ [article]
  | Ok None => articles
  | Raise _ => articles
  end.

(** The loop, with [clock i] the reading of the clock at the entry of
    index [i]. *)
Fixpoint scrape_loop (clock : nat → datetime) (i : nat) (articles : list Article)
    (entries : list Entry) : list Article :=
  match entries with
  | [] => articles
  | entry :: rest => scrape_loop clock (S i) (scrape_entry (clock i) articles entry) rest
  end.

(** [scrape_articles()], with the result of [feedparser.parse] as [feed]:
    an exception of the parser is logged and gives no article. *)
Definition scrape_articles (feed : exn (list Entry)) (clock : nat → datetime)
    : list Article :=
  match feed with
  | Ok entries => scrape_loop clock 0 [] (slice_to max_articles entries)
  | Raise _ => []
  end.

End Scraper.
End Rss.

(** ** The article processor (processor.py) *)

Module Processor.
Import Datetime.

Definition loc : Type := positive.

(** An [Article] object in the store: [tags] is a reference to a list
    object, which a shallow copy shares with the original. *)
Record article_obj : Type := mk_article_obj {
  o_title : string;
  o_url : string;
  o_body : string;
  o_summary : option string;
  o_category : option string;
  o_source : string;
  o_published_at : option datetime;
  o_scraped_at : datetime;
  o_author : option string;
  o_tags : loc
}.

Inductive obj : Type :=
| ObjArticle (a : article_obj)
| ObjList (l : list string).

Definition with_summary (s : string) (a : article_obj) : article_obj :=
  mk_article_obj (o_title a) (o_url a) (o_body a) (Some s) (o_category a) (o_source a)
    (o_published_at a) (o_scraped_at a) (o_author a) (o_tags a).

Definition with_category (c : string) (a : article_obj) : article_obj :=
  mk_article_obj (o_title a) (o_url a) (o_body a) (o_summary a) (Some c) (o_source a)
    (o_published_at a) (o_scraped_at a) (o_author a) (o_tags a).

(** Reading the attributes of the object at [l]. *)
Definition read (h : gmap loc obj) (l : loc) : exn article_obj :=
  match h !! l with
  | Some (ObjArticle a) => Ok a
  | _ => Raise "AttributeError"
  end.

(** [obj.field = v] on the object at [l]. *)
Definition update (f : article_obj → article_obj) (l : loc) (h : gmap loc obj)
    : gmap loc obj :=
  alter (λ o, match o with ObjArticle a => ObjArticle (f a) | ObjList _ => o end) l h.

(** [article.model_copy()]: a new object with the same field values. *)
Definition model_copy (h : gmap loc obj) (l : loc) : exn (gmap loc obj * loc) :=
  a ← read h l;
  let l' := fresh (dom h) in
  Ok (<[l' := ObjArticle a]> h, l').

Section Processor.
(** [self.summarizer] and [self.categorizer] with their
    [summarize_article] and [categorize_article] methods; [None] for an
    attribute that is [None]. *)
Variable summarizer : option (string → Z → exn string).
Variable categorizer : option (string → exn string).

(** The summarization step of the [try] block: the store after it, and
    whether it raised. *)
Definition summarization (h : gmap loc obj) (article processed : loc)
    (summarize : bool) (max_summary_length : Z) : gmap loc obj * bool :=
  match summarize, summarizer with
  | true, Some summarize_article =>
      match (a ← read h article; summarize_article (o_body a) max_summary_length) with
      | Ok summary => (update (with_summary summary) processed h, false)
      | Raise _ => (h, true)
      end
  | _, _ => (h, false)
  end.

(** The categorization step. *)
Definition categorization (h : gmap loc obj) (article processed : loc) (categorize : bool)
    : gmap loc obj :=
  match categorize, categorizer with
  | true, Some categorize_article =>
      match (a ← read h article;
             categorize_article (o_title a +:+ ". " +:+ Str.take 1000 (o_body a))) with
      | Ok category => update (with_category category) processed h
      | Raise _ => h
      end
  | _, _ => h
  end.

(** [process_article(article, summarize, categorize, max_summary_length)]:
    the store after the call and the object returned. An exception inside
    the [try] block ends the block and is logged. *)
Definition process_article (h : gmap loc obj) (article : loc)
    (summarize categorize : bool) (max_summary_length : Z) : exn (gmap loc obj * loc) :=
  '(h, processed_article) ← model_copy h article;
  let '(h, raised) := summarization h article processed_article summarize max_summary_length in
  let h := if raised then h else categorization h article processed_article categorize in
  Ok (h, processed_article).

End Processor.
End Processor.

(** ** URLs (base_scraper.py) *)

Module Url.

(** [s.lstrip('/')] and [s.rstrip('/')] *)
Fixpoint lstrip_slash (s : string) : string :=
  match s with
  | String "/" s' => lstrip_slash s'
  | _ => s
  end.

Fixpoint rstrip_slash (s : string) : string :=
  match s with
  | EmptyString => EmptyString
  | String c s' =>
      match rstrip_slash s' with
      | EmptyString => if Ascii.eqb c "/" then EmptyString else String c EmptyString
      | r => String c r
      end
  end.

(** [url.startswith(('http://', 'https://'))] *)
Definition has_scheme (url : string) : bool :=
  Str.startswith "http://" url || Str.startswith "https://" url.

(** [clean_url(url, base_url)] *)
Definition clean_url (url : string) (base_url : option string) : string :=
  if Str.startswith "//" url then "https:" +:+ url
  else if Str.startswith "/" url && Str.truthy_opt base_url
  then rstrip_slash (default ""%string base_url) +:+ url
  else if negb (has_scheme url) && Str.truthy_opt base_url
  then rstrip_slash (default ""%string base_url) +:+ "/" +:+ lstrip_slash url
  else url.

End Url.

(** ** The fallback summarizer (summarizer.py) *)

Module Summarizer.

(** [text.split('. ')], with the sentence read so far in [current]. *)
Fixpoint split_from (current : string) (text : string) : list string :=
  match text with
  | EmptyString => [current]
  | String "." (String " " rest) => current :: split_from EmptyString rest
  | String c rest => split_from (current +:+ String c EmptyString) rest
  end.

Definition split_sentences (text : string) : list string := split_from EmptyString text.

(** The loop of [_fallback_summarize]: sentences are added while the
    summary with the next sentence stays under [max_length]; the first one
    that does not fit ends the loop. *)
Fixpoint add_sentences (max_length : Z) (summary : string) (sentences : list string)
    : string :=
  match sentences with
  | [] => summary
  | sentence :: rest =>
      if Z.of_nat (String.length (summary +:+ sentence)) <? max_length
      then add_sentences max_length (summary +:+ sentence +:+ ". ") rest
      else summary
  end.

(** [_fallback_summarize(text, max_length)] *)
Definition _fallback_summarize (text : string) (max_length : Z) : string :=
  Str.strip (add_sentences max_length EmptyString (split_sentences text)).

End Summarizer.

(** ** Statistics of the store (storage.py) *)

Module StorageStats.
Import Datetime DatetimeOrder Py Article Storage.

(** [d[k] = d.get(k, 0) + 1] *)
Definition count_one (d : gmap string nat) (k : string) : gmap string nat :=
  <[k := (default 0 (d !! k) + 1)%nat]> d.

(** One iteration of the counting loop of [get_stats]. *)
Definition count_article (counts : gmap string nat * gmap string nat) (article : Article)
    : gmap string nat * gmap string nat :=
  let sources := count_one counts.1 (source article) in
  let categories :=
    if Str.truthy_opt (category article)
    then count_one counts.2 (default ""%string (category article))
    else counts.2 in
  (sources, categories).

(** [min(dates)], from the first element on: a later date replaces the
    best one when it is strictly less; a comparison between a naive and an
    aware value raises. *)
Fixpoint min_date_from (best : datetime) (rest : list datetime) : exn datetime :=
  match rest with
  | [] => Ok best
  | d :: rest' =>
      match compare d best with
      | Some Lt => min_date_from d rest'
      | Some _ => min_date_from best rest'
      | None => Raise "TypeError"
      end
  end.

(** [max(dates)] *)
Fixpoint max_date_from (best : datetime) (rest : list datetime) : exn datetime :=
  match rest with
  | [] => Ok best
  | d :: rest' =>
      match compare d best with
      | Some Gt => max_date_from d rest'
      | Some _ => max_date_from best rest'
      | None => Raise "TypeError"
      end
  end.

(** The dictionary that [get_stats] returns; [date_range] is [None] for
    the empty dictionary. *)
Record stats : Type := mk_stats {
  total_articles : nat;
  sources : gmap string nat;
  categories : gmap string nat;
  date_range : option (string * string)
}.

Section StorageStats.
Variable storage_path : string.
Variable other_iso : string → option datetime.
Variable coerce_datetime : pyval → option datetime.

(** [get_stats()] at clock reading [now]. Every [datetime] is truthy, so
    [dates] holds the [scraped_at] of every article. *)
Definition get_stats (fs : gmap string file) (now : Z) : exn stats :=
  let articles := load_articles storage_path other_iso coerce_datetime fs None None 7 now in
  match articles with
  | [] => Ok (mk_stats 0 ∅ ∅ None)
  | _ :: _ =>
      let counts := foldl count_article (∅, ∅) articles in
      let dates := scraped_at <$> articles in
      range ← match dates with
              | [] => Ok None
              | d :: ds =>
                  earliest ← min_date_from d ds;
                  latest ← max_date_from d ds;
                  Ok (Some (isoformat earliest, isoformat latest))
              end;
      Ok (mk_stats (length articles) counts.1 counts.2 range)
  end.

End StorageStats.
End StorageStats.

(** ** Scraping all the sources (main.py) *)

Module News.
Import Datetime Py Article Storage.

(** A scraper as [scrape_all_sources] sees it: its name, and what
    [with scraper: return scraper.scrape_articles()] gives, a list of
    articles or an exception. *)
Record scraper : Type := mk_scraper {
  source_name : string;
  run : exn (list Article)
}.

(** [_scrape_source(scraper)]: any exception gives the empty list. *)
Definition _scrape_source (s : scraper) : list Article := catch (run s) [].

(** The state of the loop: the articles collected, the number of calls of
    [save_articles] so far, and the storage directory. *)
Record state : Type := mk_state {
  all_articles : list Article;
  saves : nat;
  files : gmap string file
}.

Section News.
Variable storage_path : string.
Variable can_write : string → bool.
(** What the [n]-th call of [save_articles] reads: its two readings of
    [datetime.now()], and the modification time its file gets. *)
Variable clock : nat → datetime * datetime * Z.
(** The order in which [as_completed] yields the futures of the scrapers. *)
Variable as_completed : list scraper → list scraper.

(** The body of the loop, the same in the two branches: the articles of
    the source are collected first, then saved under the name of the
    source when there are any; an exception of the save is logged. *)
Definition scrape_step (st : state) (s : scraper) : state :=
  let articles := _scrape_source s in
  let all_articles := all_articles st ++ articles in
  match articles with
  | [] => mk_state all_articles (saves st) (files st)
  | _ :: _ =>
      let '(stamp, written, mt) := clock (saves st) in
      match save_articles storage_path can_write articles (Some (source_name s))
              stamp written mt (files st) with
      | Ok (_, fs) => mk_state all_articles (S (saves st)) fs
      | Raise _ => mk_state all_articles (S (saves st)) (files st)
      end
  end.

(** The loop over the scrapers in the given order, and the save of all the
    articles together, whose exception is not caught. *)
Definition scrape_in_order (order : list scraper) (fs : gmap string file)
    : exn (list Article * gmap string file) :=
  let st := foldl scrape_step (mk_state [] 0 fs) order in
  match all_articles st with
  | [] => Ok (all_articles st, files st)
  | _ :: _ =>
      let '(stamp, written, mt) := clock (saves st) in
      '(_, fs) ← save_articles storage_path can_write (all_articles st)
                   (Some "all_sources"%string) stamp written mt (files st);
      Ok (all_articles st, fs)
  end.

(** [scrape_all_sources(parallel)] over the scrapers that
    [_create_scrapers] made: the articles returned and the storage
    directory after the call. *)
Definition scrape_all_sources (scrapers : list scraper) (parallel : bool)
    (fs : gmap string file) : exn (list Article * gmap string file) :=
  if parallel && (1 <? length scrapers)%nat
  then scrape_in_order (as_completed scrapers) fs
  else scrape_in_order scrapers fs.

End News.
End News.

(** ** Processing a list of articles (processor.py) *)

Module ProcessorBatch.
Import Datetime Processor.

Section ProcessorBatch.
Variable summarizer : option (string → Z → exn string).
Variable categorizer : option (string → exn string).

(** One iteration of the loop of [process_articles]: the article processed
    is appended, or the article itself when processing it raises. *)
Definition process_step (summarize categorize : bool) (max_summary_length : Z)
    (st : gmap loc obj * list loc) (article : loc) : gmap loc obj * list loc :=
  match process_article summarizer categorizer st.1 article summarize categorize
          max_summary_length with
  | Ok (h, processed_article) => (h, st.2 ++ [processed_article])
  | Raise _ => (st.1, st.2 ++ [article])
  end.

(** [process_articles(articles, summarize, categorize, max_summary_length)]:
    the store after the call and the elements of the list returned. *)
Definition process_articles (h : gmap loc obj) (articles : list loc)
    (summarize categorize : bool) (max_summary_length : Z) : gmap loc obj * list loc :=
  foldl (process_step summarize categorize max_summary_length) (h, []) articles.

End ProcessorBatch.
End ProcessorBatch.

(** ** Statistics of processed articles (processor.py) *)

Module ProcessingStats.
Import Article StorageStats.

(** The counters of the loop of [get_processing_stats], and the list
    [summary_lengths]. *)
Record counters : Type := mk_counters {
  c_with_summaries : nat;
  c_with_categories : nat;
  c_categories : gmap string nat;
  c_sources : gmap string nat;
  summary_lengths : list nat
}.

(** One iteration of the loop. *)
Definition count_step (st : counters) (article : Article) : counters :=
  let '(with_summaries, lengths) :=
    if Str.truthy_opt (summary article)
    then (S (c_with_summaries st),
          summary_lengths st ++ [String.length (default ""%string (summary article))])
    else (c_with_summaries st, summary_lengths st) in
  let '(with_categories, categories) :=
    if Str.truthy_opt (category article)
    then (S (c_with_categories st),
          count_one (c_categories st) (default ""%string (category article)))
    else (c_with_categories st, c_categories st) in
  mk_counters with_summaries with_categories categories
    (count_one (c_sources st) (source article)) lengths.

(** The dictionary that [get_processing_stats] returns. *)
Record processing_stats : Type := mk_processing_stats {
  total_articles : nat;
  with_summaries : nat;
  with_categories : nat;
  categories : gmap string nat;
  avg_summary_length : Q;
  sources : gmap string nat
}.

(** [get_processing_stats(articles)] *)
Definition get_processing_stats (articles : list Article) : processing_stats :=
  let st := foldl count_step (mk_counters 0 0 ∅ ∅ []) articles in
  let avg :=
    match summary_lengths st with
    | [] => 0%Q
    | _ :: _ =>
        (inject_Z (Z.of_nat (sum_list (summary_lengths st)))
         / inject_Z (Z.of_nat (length (summary_lengths st))))%Q
    end in
  mk_processing_stats (length articles) (c_with_summaries st) (c_with_categories st)
    (c_categories st) avg (c_sources st).

End ProcessingStats.

(** ** The OpenAI categorizer (categorizer.py) *)

Module OpenAI.
Import Categorizer.

(** The line feed of the prompt. *)
Definition nl : string := String (ascii_of_nat 10) EmptyString.

(** [sep.join(parts)] *)
Fixpoint join_with (sep : string) (parts : list string) : string :=
  match parts with
  | [] => EmptyString
  | [part] => part
  | part :: rest => part +:+ sep +:+ join_with sep rest
  end.

(** The prompt of [categorize]. *)
Definition prompt (text : string) (categories : list string) : string :=
  "Classify the following article into ONE of these categories: "
  +:+ join_with ", " categories +:+ nl +:+ nl
  +:+ "Article: " +:+ Str.take 2000 text +:+ nl +:+ nl
  +:+ "Instructions:" +:+ nl
  +:+ "1. Choose the MOST appropriate category from the list above" +:+ nl
  +:+ "2. Return only the category name, nothing else" +:+ nl
  +:+ "3. If unsure, choose the closest match" +:+ nl +:+ nl
  +:+ "Category:".

(** [cat.lower() in predicted_category or predicted_category in cat.lower()] *)
Definition matches (predicted_category cat : string) : bool :=
  Str.contains (Str.lower cat) predicted_category
  || Str.contains predicted_category (Str.lower cat).

(** The loop that looks for [best_match]: the first candidate that
    matches, [None] when none does. *)
Fixpoint find_match (predicted_category : string) (categories : list string)
    : option string :=
  match categories with
  | [] => None
  | cat :: rest =>
      if matches predicted_category cat then Some cat
      else find_match predicted_category rest
  end.

Section OpenAI.
Context {F : Type} {arith : Arith F}.
(** The literals 0.5 and 0.9. *)
Variable f0_5 f0_9 : F.
(** [self.client]: [None] without an API key; else the chat completion,
    from the prompt to [response.choices[0].message.content], or to the
    exception that the request or one of these attributes raises. *)
Variable client : option (string → exn string).

(** The [try] block of [categorize]. *)
Definition categorize_body (create : string → exn string) (text : string)
    (categories : list string) : exn (list (string * F)) :=
  content ← create (prompt text categories);
  let predicted_category := Str.lower (Str.strip content) in
  let scores := foldl (λ scores cat, dict_set cat f0_1 scores) [] categories in
  let best_match := find_match predicted_category categories in
  if Str.truthy_opt best_match
  then Ok (dict_set (default ""%string best_match) f0_9 scores)
  else
    first ← of_option "IndexError" (head categories);
    Ok (dict_set first f0_5 scores).

(** [OpenAICategorizer.categorize(text, categories)] *)
Definition categorize (text : string) (categories : list string) : list (string * F) :=
  match client with
  | None => _fallback_categorize text categories
  | Some create =>
      catch (categorize_body create text categories) (_fallback_categorize text categories)
  end.

End OpenAI.
End OpenAI.

(** ** The OpenAI summarizer (summarizer.py) *)

Module OpenAISummarizer.
Import Summarizer.

(** The prompt of [summarize]; [pretty] writes an integer in decimal, as
    [str] does. *)
Definition prompt (text : string) (max_length : Z) : string :=
  "Please provide a concise summary of the following article in about "
  +:+ pretty max_length +:+ " characters. " +:+ OpenAI.nl
  +:+ "            Focus on the key points and main takeaways:" +:+ OpenAI.nl +:+ OpenAI.nl
  +:+ "            " +:+ Str.take 4000 text
  +:+ "  # Limit input to stay within token limits" +:+ OpenAI.nl
  +:+ "            " +:+ OpenAI.nl
  +:+ "            Summary:".

Section OpenAISummarizer.
(** [self.client]: [None] without an API key; else the chat completion,
    from the prompt and [max_tokens] to
    [response.choices[0].message.content], or to the exception that the
    request or one of these attributes raises. *)
Variable client : option (string → Z → exn string).

(** [OpenAISummarizer.summarize(text, max_length)] *)
Definition summarize (text : string) (max_length : Z) : string :=
  match client with
  | None => _fallback_summarize text max_length
  | Some create =>
      catch (content ← create (prompt text max_length) (max_length / 3);
             Ok (Str.strip content))
            (_fallback_summarize text max_length)
  end.

End OpenAISummarizer.
End OpenAISummarizer.

(** * The vocabulary of the properties *)

Section Vocabulary.
Import Datetime DatetimeOrder Py Article Storage Aggregator Categorizer Rss Processor.

(** The name [save_articles] gives the file. *)
Definition batch_filename (source_name : option string) (stamp : datetime) : string :=
  (if Str.truthy_opt source_name then default ""%string source_name else "articles"%string)
  +:+ "_" +:+ strftime_stamp stamp +:+ ".json".

(** The path names a file of the storage directory itself whose name ends
    in .json: an entry that [glob("*.json")] yields. *)
Definition batch_entry (storage_path : string) (path : string) : bool :=
  match Str.drop_prefix (storage_path +:+ "/") path with
  | Some name => negb (Str.contains "/" name) && Str.endswith ".json" name
  | None => false
  end.





(** The files that a run removes: entries of the storage directory named
    *.json, older than the cutoff, whose [unlink] succeeds. *)
Definition removes (storage_path : string) (can_unlink : string → bool)
    (cutoff : Z) (path : string) (f : file) : bool :=
  bool_decide (is_Some (batch_name storage_path path))
  && (mtime f <? cutoff) && can_unlink path.

(** [a >= b] holds: the comparison is defined and does not answer "less". *)
Definition ge_dt (a b : datetime) : Prop :=
  compare a b = Some Eq ∨ compare a b = Some Gt.

(** Newest first: each element is at least as recent as the next one. *)
Definition descending {A : Type} (key : A → datetime) : list A → Prop :=
  Sorted (λ x y, ge_dt (key x) (key y)).

(** The articles of all the buckets together. *)
Definition all_of (m : gmap string (list Article)) : list Article :=
  kl ← map_to_list m; kl.2.

(** The articles that belong in bucket [k], in the order of the input. *)
Definition members (k : string) (articles : list Article) : list Article :=
  filter (λ a, bucket_of a = k) articles.

(** The number of keywords of the list that occur in the text. *)
Definition matching (text_lower : string) (keywords : list string) : nat :=
  length (filter (λ keyword, Str.contains keyword text_lower = true) keywords).

(** A count as a rational. *)
Definition of_nat (n : nat) : Q := inject_Z (Z.of_nat n).

(** The candidates in the order of their first occurrence: the keys of the
    score dictionary, in insertion order. *)
Fixpoint first_occurrences (l : list string) : list string :=
  match l with
  | [] => []
  | x :: l' => x :: filter (λ y, y ≠ x) (first_occurrences l')
  end.

(** The score of a candidate in the result of the heuristic. *)
Definition final_score (text : string) (categories : list string) (c : string) : Q :=
  (capped_score (Str.lower text) c / sum_values (capped_scores text categories))%Q.

(** An entry without a title or without a link: the attribute is absent, or
    blank once stripped. *)
Definition malformed (entry : Entry) : Prop :=
  Str.strip (default ""%string (e_title entry)) = ""%string ∨
  Str.strip (default ""%string (e_link entry)) = ""%string.

(** [article] is the article that [_parse_entry] makes of [entry]. *)
Definition article_of (source_name category : string)
    (date_parse : string → option datetime) (fetch_full_content : string → option string)
    (html_text : string → string) (entry : Entry) (article : Article) : Prop :=
  ∃ now, _parse_entry source_name category date_parse fetch_full_content html_text
           now entry = Ok (Some article).

(** Two article objects with the same fields, [summary] and [category]
    apart. *)
Definition same_scraped_fields (a a' : article_obj) : Prop :=
  o_title a' = o_title a ∧ o_url a' = o_url a ∧ o_body a' = o_body a ∧
  o_source a' = o_source a ∧ o_published_at a' = o_published_at a ∧
  o_scraped_at a' = o_scraped_at a ∧ o_author a' = o_author a ∧ o_tags a' = o_tags a.

(** The store [h'] differs from [h] at most by the object at [p], which is
    a copy of [a] but for its [summary] and [category]. *)
Definition enriched_copy (h : gmap loc obj) (p : loc) (a : article_obj)
    (h' : gmap loc obj) : Prop :=
  (∀ l, l ≠ p → h' !! l = h !! l) ∧
  ∃ a', h' !! p = Some (ObjArticle a') ∧ same_scraped_fields a a'.

End Vocabulary.

(** ** Vocabulary of the further properties *)

(** The first sentence of a text: what precedes the first ". ". *)
Definition first_sentence (text : string) : string :=
  hd ""%string (Summarizer.split_sentences text).

(** A text of white space only. *)
Fixpoint all_space (s : string) : bool :=
  match s with
  | EmptyString => true
  | String c s' => Str.is_space c && all_space s'
  end.

(** An entry that [_parse_entry] can make an article of: it has a title and
    a link that are not blank, its date, if it has one, is a date of the
    calendar, and none of its tags has [None] for a term. *)
Definition parsable (entry : Rss.Entry) : Prop :=
  Str.strip (default ""%string (Rss.e_title entry)) ≠ ""%string ∧
  Str.strip (default ""%string (Rss.e_link entry)) ≠ ""%string ∧
  match Rss.e_published_parsed entry with
  | Some (y, m, d, hh, mi, ss) =>
      Datetime.valid (Datetime.mk_datetime y m d hh mi ss 0 None) = true
  | None => True
  end ∧
  match Rss.e_tags entry with
  | Some tags => Forall (λ t, t ≠ Some None) tags
  | None => True
  end.

(** The articles among which [get_latest_articles] chooses. *)
Definition candidates (category : option string) (articles : list Article.Article)
    : list Article.Article :=
  if Str.truthy_opt category
  then filter (λ a, Article.category a = category) articles
  else articles.

(** The sum of the counts of a dictionary of counts. *)
Definition total_count (d : gmap string nat) : nat :=
  map_fold (λ _ n acc, (n + acc)%nat) 0%nat d.

(** The number of elements of the list that satisfy [P]. *)
Definition count_of {A : Type} (P : A → Prop) `{∀ x, Decision (P x)} (l : list A) : nat :=
  length (filter P l).

(** The count of a key in a dictionary of counts, 0 for a key it lacks. *)
Definition count_in (d : gmap string nat) (k : string) : nat := default 0%nat (d !! k).



(** The lengths of the non-empty summaries of the articles. *)
Definition summary_sizes (articles : list Article.Article) : list nat :=
  (λ a, String.length (default ""%string (Article.summary a)))
  <$> filter (λ a, Str.truthy_opt (Article.summary a) = true) articles.

(** [p] is in [h'] a copy of the article at [l] in [h], which [h] does not
    hold: an object with the fields of the article, [summary] and
    [category] apart. *)
Definition fresh_copy (h h' : gmap Processor.loc Processor.obj) (l p : Processor.loc)
    : Prop :=
  h !! p = None ∧
  ∃ a a', h !! l = Some (Processor.ObjArticle a) ∧
          h' !! p = Some (Processor.ObjArticle a') ∧
          same_scraped_fields a a'.

(** The candidate that the OpenAI categorizer takes for the answer of the
    model: the first candidate that matches the answer, when it is not the
    empty text, and the first candidate otherwise. *)
Definition answered (content : string) (categories : list string) : string :=
  match OpenAI.find_match (Str.lower (Str.strip content)) categories with
  | Some cat => if Str.truthy cat then cat else hd ""%string categories
  | None => hd ""%string categories
  end.

(** Scores that are 0.1 for every candidate but [k]. *)
Definition raised_score (k : string) (v : Q) (c : string) : Q :=
  if decide (c = k) then v else (1 # 10)%Q.

(** The words of the text are separated by single spaces: when [after_space]
    holds, the text follows a space or starts a text, and must go on with a
    word. *)
Fixpoint spaced (after_space : bool) (s : string) : bool :=
  match s with
  | EmptyString => negb after_space
  | String c s' =>
      if Str.is_space c
      then Ascii.eqb c " " && negb after_space && spaced true s'
      else spaced false s'
  end.

(** A text without white space at its ends, whose only white space is
    single spaces between words. *)
Definition single_spaced (s : string) : bool :=
  match s with
  | EmptyString => true
  | String _ _ => spaced true s
  end.

(** * Sample data *)

Definition sample_time : Datetime.datetime :=
  Datetime.mk_datetime 2024 2 29 23 59 58 250000 None.

Definition sample_article : Article.Article :=
  Article.mk_Article "Rates held" "https://example.org/rates" "The bank held rates."
    (Some "Rates unchanged."%string) (Some "finance"%string) "Example Feed"
    (Some (Datetime.mk_datetime 2024 2 29 8 30 0 0 (Some 120))) sample_time
    None ["money"%string; "bank"%string].

(** A second article, scraped a day after [sample_article]. *)
Definition later_article : Article.Article :=
  Article.mk_Article "New chip" "https://example.org/chip" "A startup shows a chip."
    None (Some "tech"%string) "Example Feed" None
    (Datetime.mk_datetime 2024 3 1 9 0 0 0 None) None [].

(** The same article with an aware [scraped_at]. *)
Definition aware_article : Article.Article :=
  Article.mk_Article "New chip" "https://example.org/chip" "A startup shows a chip."
    None (Some "tech"%string) "Example Feed" None
    (Datetime.mk_datetime 2024 3 1 9 0 0 0 (Some 0)) None [].

(** An article whose category is the empty text. *)
Definition blank_category_article : Article.Article :=
  Article.mk_Article "Untitled" "https://example.org/u" "Text." None (Some ""%string)
    "Example Feed" None sample_time None [].

(** A batch document with the given article records. *)
Definition batch_doc (records : list Py.pyval) : Py.pyval :=
  Py.PDict [ ("scraped_at", Py.PStr "2024-03-01T00:00:00");
             ("source", Py.PNone);
             ("count", Py.PNum (inject_Z (Z.of_nat (length records))));
             ("articles", Py.PList records) ]%string.

(** The record of [sample_article] with other texts under its two
    timestamp keys. *)
Definition sample_record (published scraped : Py.pyval) : list (string * Py.pyval) :=
  [ ("title", Py.PStr "Rates held");
    ("url", Py.PStr "https://example.org/rates");
    ("body", Py.PStr "The bank held rates.");
    ("summary", Py.PStr "Rates unchanged.");
    ("category", Py.PStr "finance");
    ("source", Py.PStr "Example Feed");
    ("published_at", published);
    ("scraped_at", scraped);
    ("author", Py.PNone);
    ("tags", Py.PList [Py.PStr "money"; Py.PStr "bank"]) ]%string.

Definition one_file (path : string) (doc : Py.pyval) : gmap string Storage.file :=
  {[ path := Storage.mk_file 0 (Some doc) ]}.

Definition two_articles_fs : gmap string Storage.file :=
  one_file "data/articles/feed.json"
    (batch_doc [Storage.article_dict sample_article; Storage.article_dict later_article]).

(** A feed entry with the given title and link, and nothing else. *)
(** A directory with a good batch, a file that is not JSON, a batch whose
    second record lacks its title, a batch older than the window and a
    file that is no batch. *)
Definition mixed_directory : gmap string Storage.file :=
  <["data/articles/a.json"%string :=
      Storage.mk_file 0 (Some (batch_doc [Storage.article_dict sample_article]))]>
  (<["data/articles/b.json"%string := Storage.mk_file 0 None]>
  (<["data/articles/c.json"%string :=
      Storage.mk_file 0 (Some (batch_doc [Storage.article_dict later_article;
                                          Py.PDict [("url", Py.PStr "https://example.org/x")]%string]))]>
  (<["data/articles/d.json"%string :=
      Storage.mk_file (-8 * Storage.microseconds_per_day)
        (Some (batch_doc [Storage.article_dict later_article]))]>
  (<["data/articles/notes.txt"%string :=
      Storage.mk_file 0 (Some (batch_doc [Storage.article_dict later_article]))]> ∅)))).

Definition plain_entry (title link : option string) : Rss.Entry :=
  Rss.mk_Entry title link None None None (Some "A summary."%string) None None None.

Definition good_entry_1 : Rss.Entry :=
  plain_entry (Some " First "%string) (Some "https://example.org/1"%string).
Definition good_entry_2 : Rss.Entry :=
  plain_entry (Some "Second"%string) (Some "https://example.org/2"%string).
Definition no_link_entry : Rss.Entry := plain_entry (Some "No link"%string) None.
(** An entry whose date has second 61: the [datetime] constructor raises. *)
Definition bad_date_entry : Rss.Entry :=
  Rss.mk_Entry (Some "Leap"%string) (Some "https://example.org/3"%string)
    (Some (2024, 6, 30, 23, 59, 61)) None None None None None None.

Definition sample_scrape (entries : list Rss.Entry) : list Article.Article :=
  Rss.scrape_articles "Example Feed" "finance" 10 (λ _, None) (λ _, None) (λ s, s)
    (Ok entries) (λ _, sample_time).

(** A store with one article and its list of tags. *)
Definition sample_obj : Processor.article_obj :=
  Processor.mk_article_obj "Rates held" "https://example.org/rates"
    "The bank held rates. Markets were calm." None None "Example Feed" None sample_time
    None 1%positive.

Definition sample_store : gmap Processor.loc Processor.obj :=
  <[2%positive := Processor.ObjArticle sample_obj]>
    {[ 1%positive := Processor.ObjList ["money"%string; "bank"%string] ]}.

(** Backends for the examples: the first twenty characters as summary, the
    keyword heuristic over two candidates as categorizer. *)
Definition sample_summarizer : option (string → Z → exn string) :=
  Some (λ body _, Ok (Str.take 20 body)).

Definition sample_categorizer : option (string → exn string) :=
  Some (λ text, Categorizer.categorize_article Categorizer._fallback_categorize
                  ["tech"; "finance"]%string text None).

(** An entry with embedded content. *)
Definition content_entry : Rss.Entry :=
  Rss.mk_Entry (Some "Full"%string) (Some "https://example.org/full"%string) None None None
    (Some "A summary."%string) None
    (Some (Rss.ContentList [Some "<p>The  whole text.</p>"%string])) None.

(** The document that [save_articles] writes for a batch saved under
    [name] at [sample_time]. *)
Definition saved_batch (name : string) (articles : list Article.Article) : Py.pyval :=
  Py.PDict [ ("scraped_at", Py.PStr "2024-02-29T23:59:58.250000");
             ("source", Py.PStr name);
             ("count", Py.PNum (inject_Z (Z.of_nat (length articles))));
             ("articles", Py.PList (Storage.article_dict <$> articles)) ]%string.

(** The statistics of the store [two_articles_fs]. *)
Definition sample_stats : StorageStats.stats :=
  StorageStats.mk_stats 2 {[ "Example Feed"%string := 2%nat ]}
    (<["tech"%string := 1%nat]> {[ "finance"%string := 1%nat ]})
    (Some ("2024-02-29T23:59:58.250000", "2024-03-01T09:00:00")%string).

(** A store with a naive and an aware timestamp. *)
Definition mixed_kinds_fs : gmap string Storage.file :=
  one_file "data/articles/feed.json"
    (batch_doc [Storage.article_dict sample_article; Storage.article_dict aware_article]).

(** Three scrapers: one yields an article, one raises, one yields another
    article. *)
Definition sample_scrapers : list News.scraper :=
  [ News.mk_scraper "feed" (Ok [sample_article]);
    News.mk_scraper "down" (Raise "ConnectionError");
    News.mk_scraper "wire" (Ok [later_article]) ]%string.

Definition sample_clock (n : nat) : Datetime.datetime * Datetime.datetime * Z :=
  (sample_time, sample_time, 0).


(** The position of 2024-03-01T00:00:00 on the time line of the clock, in
    microseconds from [datetime.min]. *)
Definition sample_now : Z := 738945 * Storage.microseconds_per_day.

(** A directory at [sample_now]: a good batch, a file that is not JSON, a
    batch whose second record lacks its title, and a batch ten days old. *)
Definition dated_directory : gmap string Storage.file :=
  <["data/articles/a.json"%string :=
      Storage.mk_file sample_now (Some (batch_doc [Storage.article_dict sample_article]))]>
  (<["data/articles/b.json"%string := Storage.mk_file sample_now None]>
  (<["data/articles/c.json"%string :=
      Storage.mk_file sample_now
        (Some (batch_doc [Storage.article_dict later_article;
                          Py.PDict [("url", Py.PStr "https://example.org/x")]%string]))]>
  (<["data/articles/old.json"%string :=
      Storage.mk_file (sample_now - 10 * Storage.microseconds_per_day)
        (Some (batch_doc [Storage.article_dict later_article]))]> ∅))).

(** The entry b.json is a link to nothing: its [stat()] raises. *)
Definition dangling_b (path : string) : option string :=
  if String.eqb path "data/articles/b.json" then Some "FileNotFoundError"%string else None.

(** Texts with Latin-1 characters beyond ASCII: the words ECONOMIE and
    economie with an acute accent on the first letter (code points 201 and
    233), and the no-break space (160). *)
Definition upper_economie : string := String (ascii_of_nat 201) "CONOMIE".
Definition economie : string := String (ascii_of_nat 233) "conomie".
Definition no_break_space : string := String (ascii_of_nat 160) "".

(** An entry whose title is a no-break space. *)
Definition blank_title_entry : Rss.Entry :=
  plain_entry (Some no_break_space) (Some "https://example.org/4"%string).

(** * Properties *)

(** [lower] and [strip] beyond ASCII. *)
Example lower_latin1 :
  Str.lower ("L'" +:+ upper_economie +:+ " en 2024") = ("l'" +:+ economie +:+ " en 2024")%string
  ∧ Str.lower (String (ascii_of_nat 215) (String (ascii_of_nat 223) ""))
    = String (ascii_of_nat 215) (String (ascii_of_nat 223) "").
Proof. split; reflexivity. Qed.

Example strip_no_break_space :
  Str.strip (no_break_space +:+ " Title" +:+ no_break_space) = "Title"%string
  ∧ Str.strip no_break_space = ""%string.
Proof. split; reflexivity. Qed.


Example isoformat_naive :
  Datetime.isoformat (Datetime.mk_datetime 2024 3 9 7 5 0 0 None) = "2024-03-09T07:05:00".
Proof. reflexivity. Qed.

Example isoformat_aware :
  Datetime.isoformat (Datetime.mk_datetime 2024 3 9 7 5 0 1500 (Some (-330)))
  = "2024-03-09T07:05:00.001500-05:30".
Proof. reflexivity. Qed.

Example fromisoformat_aware other_iso :
  Datetime.fromisoformat other_iso "2024-03-09T07:05:00.001500-05:30"
  = Some (Datetime.mk_datetime 2024 3 9 7 5 0 1500 (Some (-330))).
Proof. reflexivity. Qed.

(** A text of another shape is left to the library. *)
Example fromisoformat_other_shape other_iso :
  Datetime.fromisoformat other_iso "2024-03-01 09:00:00" = other_iso "2024-03-01 09:00:00"%string
  ∧ Datetime.fromisoformat other_iso "yesterday" = other_iso "yesterday"%string.
Proof. split; reflexivity. Qed.

Example parse_isoformat_bad_day : Datetime.parse_isoformat "2023-02-29T00:00:00" = None.
Proof. reflexivity. Qed.

(** ** The ISO-8601 text of a timestamp *)

Section IsoCodec.
Import Datetime.

Lemma digit_val_char d : 0 <= d < 10 → Str.digit_val (Str.digit_char d) = Some d.
Proof.
  intros Hd.
  assert (Hc : d = 0 ∨ d = 1 ∨ d = 2 ∨ d = 3 ∨ d = 4 ∨ d = 5 ∨ d = 6 ∨ d = 7 ∨ d = 8 ∨ d = 9)
    by lia.
  repeat (destruct Hc as [-> | Hc]; [reflexivity |]). by subst.
Qed.

Lemma parse_fmt_digits w : ∀ n acc rest,
  0 <= n < 10 ^ Z.of_nat w →
  Str.parse_digits w acc (Str.fmt_digits w n +:+ rest) = Some (acc * 10 ^ Z.of_nat w + n, rest).
Proof.
  induction w as [| w IH]; intros n acc rest Hn.
  - simpl in *. f_equal. f_equal. lia.
  - rewrite Nat2Z.inj_succ, Z.pow_succ_r in Hn by lia.
    assert (Hp : 0 < 10 ^ Z.of_nat w) by (apply Z.pow_pos_nonneg; lia).
    change (Str.parse_digits (S w) acc (Str.fmt_digits (S w) n +:+ rest))
      with (match Str.digit_val (Str.digit_char (n / 10 ^ Z.of_nat w)) with
            | Some d => Str.parse_digits w (acc * 10 + d)
                          (Str.fmt_digits w (n mod 10 ^ Z.of_nat w) +:+ rest)
            | None => None
            end).
    rewrite digit_val_char.
    + rewrite IH by (apply Z.mod_pos_bound; lia).
      f_equal. f_equal.
      rewrite Nat2Z.inj_succ, Z.pow_succ_r by lia.
      pose proof (Z.div_mod n (10 ^ Z.of_nat w)). lia.
    + split; [apply Z.div_pos; lia |].
      apply Z.div_lt_upper_bound; lia.
Qed.

Lemma append_cons c (s t : string) : String c s +:+ t = String c (s +:+ t).
Proof. reflexivity. Qed.

Lemma append_empty_l (t : string) : "" +:+ t = t.
Proof. reflexivity. Qed.

Lemma append_empty_r (s : string) : s +:+ "" = s.
Proof. induction s as [| c s IH]; [done | by rewrite append_cons, IH]. Qed.

Ltac step_text :=
  rewrite ?append_cons, ?append_empty_l;
  cbn [mbind option_bind Str.expect Ascii.eqb Bool.eqb].

Lemma parse_fmt2 n rest : 0 <= n <= 99 →
  Str.parse_digits 2 0 (Str.fmt_digits 2 n +:+ rest) = Some (n, rest).
Proof. intros. rewrite parse_fmt_digits by (simpl; lia). f_equal. Qed.

Lemma parse_fmt4 n rest : 0 <= n <= 9999 →
  Str.parse_digits 4 0 (Str.fmt_digits 4 n +:+ rest) = Some (n, rest).
Proof. intros. rewrite parse_fmt_digits by (simpl; lia). f_equal. Qed.

Lemma parse_fmt6 n rest : 0 <= n <= 999999 →
  Str.parse_digits 6 0 (Str.fmt_digits 6 n +:+ rest) = Some (n, rest).
Proof. intros. rewrite parse_fmt_digits by (simpl; lia). f_equal. Qed.

Lemma in_range_spec lo x hi : in_range lo x hi = true ↔ lo <= x <= hi.
Proof. unfold in_range. rewrite andb_true_iff, !Z.leb_le. tauto. Qed.

Lemma parse_iso_offset o :
  match o with Some off => in_range (-1439) off 1439 = true | None => True end →
  parse_offset (iso_offset o) = Some o.
Proof.
  destruct o as [off |]; [| reflexivity].
  intros Hr%in_range_spec. unfold iso_offset.
  assert (Hh : 0 <= Z.abs off / 60 <= 99).
  { split; [apply Z.div_pos; lia |]. apply Z.div_le_upper_bound; lia. }
  assert (Hm : 0 <= Z.abs off mod 60 < 60) by (apply Z.mod_pos_bound; lia).
  pose proof (Z.div_mod (Z.abs off) 60).
  destruct (off <? 0) eqn:Hs;
    [apply Z.ltb_lt in Hs | apply Z.ltb_ge in Hs];
    step_text; cbn [parse_offset Ascii.eqb Bool.eqb mbind option_bind];
    rewrite parse_fmt2 by lia; step_text;
    rewrite <- (append_empty_r (Str.fmt_digits 2 (Z.abs off mod 60)));
    rewrite parse_fmt2 by lia; cbn [mbind option_bind];
    (replace (in_range 0 (Z.abs off mod 60) 59) with true
      by (symmetry; apply in_range_spec; lia));
    do 2 f_equal; lia.
Qed.

Lemma parse_fraction_offset o : parse_fraction (iso_offset o) = Some (0, iso_offset o).
Proof.
  destruct o as [off |]; [| reflexivity]. unfold iso_offset.
  by destruct (off <? 0); step_text.
Qed.

Lemma valid_fields d : valid d = true →
  1 <= year d <= 9999 ∧ 1 <= month d <= 12 ∧ 1 <= day d <= 31 ∧
  0 <= hour d <= 23 ∧ 0 <= minute d <= 59 ∧ 0 <= second d <= 59 ∧
  0 <= microsecond d <= 999999 ∧
  match utcoffset d with Some off => in_range (-1439) off 1439 = true | None => True end.
Proof.
  unfold valid. rewrite !andb_true_iff, !in_range_spec.
  intros [[[[[[[? ?] Hd] ?] ?] ?] ?] Ho].
  assert (days_in_month (year d) (month d) <= 31).
  { unfold days_in_month. repeat case_match; lia. }
  repeat split; try lia. destruct (utcoffset d); [done | exact I].
Qed.

Lemma parse_isoformat_isoformat d : valid d = true → parse_isoformat (isoformat d) = Some d.
Proof.
  intros Hv. pose proof (valid_fields d Hv) as (Hy & Hm & Hd & Hh & Hmi & Hs & Hus & Ho).
  unfold parse_isoformat, isoformat.
  rewrite parse_fmt4 by lia. step_text.
  do 4 (rewrite parse_fmt2 by lia; step_text).
  rewrite parse_fmt2 by lia. cbn [mbind option_bind].
  destruct (microsecond d =? 0) eqn:Hz.
  - apply Z.eqb_eq in Hz. rewrite append_empty_l.
    rewrite parse_fraction_offset. cbn [mbind option_bind].
    rewrite parse_iso_offset by done. cbn [mbind option_bind].
    replace (mk_datetime _ _ _ _ _ _ _ _) with d by (destruct d; simpl in *; by subst).
    by rewrite Hv.
  - rewrite !append_cons, ?append_empty_l. cbn [parse_fraction].
    rewrite parse_fmt6 by lia. cbn [mbind option_bind].
    rewrite parse_iso_offset by done. cbn [mbind option_bind].
    replace (mk_datetime _ _ _ _ _ _ _ _) with d by (by destruct d).
    by rewrite Hv.
Qed.

(** [fromisoformat] inverts [isoformat] on every value the [datetime]
    constructor accepts, whatever else it reads. *)
Lemma fromisoformat_isoformat other_iso d :
  valid d = true → fromisoformat other_iso (isoformat d) = Some d.
Proof. intros Hv. unfold fromisoformat. by rewrite parse_isoformat_isoformat. Qed.

End IsoCodec.


(** ** Saving and loading a batch (storage.py) *)

Section SaveLoad.
Import Datetime Py Article Storage.
Variable storage_path : string.
Variable can_write : string → bool.
Variable other_iso : string → option datetime.
Variable coerce_datetime : pyval → option datetime.

Lemma validate_tags_dump (tg : list string) :
  exn_mapM validate_str (map PStr tg) = Ok tg.
Proof. induction tg as [| t tg IH]; [done |]. simpl. by rewrite IH. Qed.

Lemma optional_str_dump (o : option string) :
  optional validate_str (Some (of_opt_str o)) = Ok o.
Proof. by destruct o. Qed.

Lemma convert_item_timestamp k d :
  Str.endswith "_at" k = true → valid d = true →
  convert_item other_iso (k, PStr (isoformat d)) = (k, PDatetime d).
Proof.
  intros Hk Hd. unfold convert_item. cbn [fst snd].
  by rewrite Hk, fromisoformat_isoformat.
Qed.

Lemma convert_item_other k v : Str.endswith "_at" k = false → convert_item other_iso (k, v) = (k, v).
Proof. intros Hk. unfold convert_item. cbn [fst snd]. by rewrite Hk. Qed.

Lemma convert_item_none k : convert_item other_iso (k, PNone) = (k, PNone).
Proof. unfold convert_item. cbn [fst snd]. by destruct (Str.endswith "_at" k). Qed.

Lemma iso_item_str k o : iso_item (k, of_opt_str o) = (k, of_opt_str o).
Proof. by destruct o. Qed.

Lemma iso_item_text k s : iso_item (k, PStr s) = (k, PStr s).
Proof. reflexivity. Qed.

Lemma iso_item_list k l : iso_item (k, PList l) = (k, PList l).
Proof. reflexivity. Qed.

(** Reading back the dictionary that [save_articles] writes for an article
    gives the article. *)
Lemma load_article_dict (a : Article) :
  well_formed a = true → load_article other_iso coerce_datetime (article_dict a) = Ok a.
Proof.
  unfold well_formed. intros [Hs Hp]%andb_true_iff.
  destruct a as [t u b sm c src p sc au tg]; simpl in Hs, Hp.
  unfold load_article, article_dict, model_dump.
  cbn [items_of mbind exn_mbind exn_bind title Article.url body summary category source
       published_at scraped_at author tags].
  rewrite !fmap_cons, !iso_item_str, !iso_item_text, !iso_item_list.
  change (iso_item ("scraped_at"%string, PDatetime sc))
    with ("scraped_at"%string, PStr (isoformat sc)).
  rewrite (convert_item_timestamp "scraped_at") by done.
  rewrite !(convert_item_other _ (PStr _)), !(convert_item_other _ (of_opt_str _)),
    !(convert_item_other _ (PList _)) by done.
  assert (Hpa : convert_item other_iso (iso_item ("published_at"%string, of_opt_datetime p))
                = ("published_at"%string, of_opt_datetime p)).
  { destruct p as [d |]; [| apply convert_item_none].
    by apply (convert_item_timestamp "published_at"). }
  rewrite Hpa. unfold construct.
  cbn [dict_get String.eqb Ascii.eqb Bool.eqb required validate_str
       mbind exn_mbind exn_bind].
  rewrite !optional_str_dump. cbn [mbind exn_mbind exn_bind].
  assert (Hopt : optional (validate_datetime coerce_datetime) (Some (of_opt_datetime p))
                 = Ok p) by (by destruct p).
  rewrite Hopt.
  cbn [mbind exn_mbind exn_bind validate_datetime validate_tags].
  by rewrite validate_tags_dump.
Qed.

Lemma load_article_dicts (articles : list Article) :
  Forall (λ a, well_formed a = true) articles →
  exn_mapM (load_article other_iso coerce_datetime) (article_dict <$> articles) = Ok articles.
Proof.
  induction 1 as [| a l Ha _ IH]; [done |].
  rewrite fmap_cons. simpl. rewrite load_article_dict by done. simpl. by rewrite IH.
Qed.

Lemma truthy_join (filename : string) : Str.truthy (join storage_path filename) = true.
Proof. unfold join. by destruct storage_path. Qed.

Lemma article_dict_serializable (a : Article) : json_serializable (article_dict a) = true.
Proof.
  destruct a as [t u b sm c src p sc au tg].
  assert (Htg : forallb json_serializable (map PStr tg) = true) by (by induction tg).
  destruct sm, c, p, au; cbn; by rewrite Htg.
Qed.

(** [save_articles] writes the batch whenever the file can be opened. *)
Lemma save_articles_writes articles source_name stamp written mt fs :
  can_write (join storage_path (batch_filename source_name stamp)) = true →
  ∃ doc, save_articles storage_path can_write articles source_name stamp written mt fs
         = Ok (join storage_path (batch_filename source_name stamp),
               <[join storage_path (batch_filename source_name stamp) := mk_file mt (Some doc)]> fs).
Proof.
  intros Hw. unfold save_articles.
  assert (Hname : match source_name with
                  | Some name =>
                      if Str.truthy name then name +:+ "_" +:+ strftime_stamp stamp +:+ ".json"
                      else "articles_" +:+ strftime_stamp stamp +:+ ".json"
                  | None => "articles_" +:+ strftime_stamp stamp +:+ ".json"
                  end = batch_filename source_name stamp).
  { unfold batch_filename. destruct source_name as [[| c n] |]; reflexivity. }
  rewrite Hname, Hw. unfold json_dump.
  assert (Hs : forallb json_serializable (article_dict <$> articles) = true).
  { induction articles as [| a l IH]; [done |].
    rewrite fmap_cons. cbn [forallb]. by rewrite article_dict_serializable, IH. }
  cbn [json_serializable forallb snd]. rewrite Hs.
  destruct source_name; cbn; eauto.
Qed.

(** C1. A list of articles saved by [save_articles] and loaded back by
    [load_articles] from the path that the save returned is the saved list:
    same length, same order, and every field of every article equal, the
    two timestamps included, which make the trip through their ISO text. *)
Theorem save_load_roundtrip articles source_name stamp written mt fs path fs'
    source max_age_days now :
  Forall (λ a, well_formed a = true) articles →
  save_articles storage_path can_write articles source_name stamp written mt fs
    = Ok (path, fs') →
  load_articles storage_path other_iso coerce_datetime fs' (Some path) source max_age_days now
    = articles.
Proof.
  intros Hwf Hsave. unfold save_articles in Hsave.
  destruct (can_write _); [| done].
  unfold json_dump in Hsave. destruct (json_serializable _); [| done].
  cbn [mbind exn_mbind exn_bind] in Hsave. injection Hsave as <- <-.
  unfold load_articles. cbn [Str.truthy_opt default]. rewrite truthy_join.
  unfold _load_file, load_file_body, read_json.
  rewrite lookup_insert_eq.
  cbn [content of_option mbind exn_mbind exn_bind items_of dict_get String.eqb
       Ascii.eqb Bool.eqb iterate].
  by rewrite load_article_dicts.
Qed.

End SaveLoad.

Lemma save_load_roundtrip_witness :
  Storage.load_articles "data/articles" (λ _, None) (λ _, None)
    (<["data/articles/feed_20240229_235958.json"%string :=
         Storage.mk_file 0 (Some (Py.PDict [
           ("scraped_at", Py.PStr "2024-02-29T23:59:58.250000");
           ("source", Py.PStr "feed");
           ("count", Py.PNum (inject_Z 1));
           ("articles", Py.PList [Storage.article_dict sample_article]) ]%string))]> ∅)
    (Some "data/articles/feed_20240229_235958.json"%string) None 7 0
  = [sample_article].
Proof.
  apply (save_load_roundtrip "data/articles" (λ _, true) (λ _, None) (λ _, None)
           [sample_article] (Some "feed"%string) sample_time sample_time 0 ∅).
  - repeat constructor.
  - reflexivity.
Defined.

(** ** Scanning the storage directory (storage.py) *)

Section DirectoryScan.
Import Datetime Py Article Storage.
Variable storage_path : string.
Variable stat_error : string → option string.
Variable other_iso : string → option datetime.
Variable coerce_datetime : pyval → option datetime.

Lemma batch_entry_name path :
  batch_entry storage_path path = true ↔ is_Some (batch_name storage_path path).
Proof.
  unfold batch_entry, batch_name.
  destruct (Str.drop_prefix _ path) as [name |]; cbn [mbind option_bind].
  - destruct (negb _ && _).
    + split; [by eauto | done].
    + split; [done | by intros [? ?]].
  - split; [done | by intros [? ?]].
Qed.

Lemma cutoff_date_ok now max_age_days :
  -999999999 <= max_age_days <= 999999999 →
  0 <= now - max_age_days * microseconds_per_day <= Scan.max_position →
  Scan.cutoff_date now max_age_days = Ok (now - max_age_days * microseconds_per_day).
Proof.
  intros Hd Hc. unfold Scan.cutoff_date, Scan.timedelta_days.
  rewrite (proj2 (Z.leb_le _ _) (proj1 Hd)), (proj2 (Z.leb_le _ _) (proj2 Hd)).
  cbn [andb mbind exn_mbind exn_bind].
  by rewrite (proj2 (Z.leb_le _ _) (proj1 Hc)), (proj2 (Z.leb_le _ _) (proj2 Hc)).
Qed.

Lemma cutoff_date_raise now max_age_days :
  ¬ (-999999999 <= max_age_days <= 999999999
     ∧ 0 <= now - max_age_days * microseconds_per_day <= Scan.max_position) →
  Scan.cutoff_date now max_age_days = Raise "OverflowError".
Proof.
  intros Hn. unfold Scan.cutoff_date, Scan.timedelta_days.
  destruct (-999999999 <=? max_age_days) eqn:H1, (max_age_days <=? 999999999) eqn:H2;
    cbn [andb mbind exn_mbind exn_bind]; try done.
  destruct (0 <=? _) eqn:H3, (_ <=? Scan.max_position) eqn:H4; cbn [andb]; try done.
  exfalso. apply Hn. apply Z.leb_le in H1, H2, H3, H4. lia.
Qed.

Lemma cutoff_date_returns now max_age_days cutoff :
  Scan.cutoff_date now max_age_days = Ok cutoff →
  cutoff = now - max_age_days * microseconds_per_day.
Proof.
  unfold Scan.cutoff_date, Scan.timedelta_days.
  destruct (_ && _); [| done]. cbn [mbind exn_mbind exn_bind].
  destruct (_ && _); [| done]. by intros [= <-].
Qed.


(** An entry whose look raises ends the loop, whatever precedes it can be
    examined. *)
Lemma scan_entries_raise (fs : gmap string file) source cutoff
    (before after : list (string * file)) pf e :
  ∀ articles,
  Forall (λ pf, stat_error pf.1 = None) before →
  stat_error pf.1 = Some e →
  Scan.scan_entries storage_path stat_error other_iso coerce_datetime fs source cutoff
    articles (before ++ pf :: after)
  = Raise e.
Proof.
  induction before as [| pf0 before IH]; intros articles Hstat Hpf.
  - cbn. by rewrite Hpf.
  - apply Forall_cons in Hstat as [Hpf0 Hstat]. cbn. rewrite Hpf0.
    destruct (selected _ _ _ _); by apply IH.
Qed.

Lemma elem_of_glob_json (fs : gmap string file) pf :
  pf ∈ glob_json storage_path fs ↔
  is_Some (batch_name storage_path pf.1) ∧ fs !! pf.1 = Some pf.2.
Proof. unfold glob_json. by rewrite list_elem_of_filter, elem_of_map_to_list'. Qed.

Lemma glob_json_stat (fs : gmap string file) :
  (∀ path, is_Some (fs !! path) → batch_entry storage_path path = true →
           stat_error path = None) →
  Forall (λ pf, stat_error pf.1 = None) (glob_json storage_path fs).
Proof.
  intros Hstat. apply Forall_forall. intros pf [Hb Hf]%elem_of_glob_json.
  apply Hstat; [by eauto | by apply batch_entry_name].
Qed.

(** A call that returns gives the list of [Storage.load_articles]. *)
Lemma scan_load_articles_returns (fs : gmap string file) filepath source max_age_days now
    articles :
  Scan.load_articles storage_path stat_error other_iso coerce_datetime fs filepath source
    max_age_days now = Ok articles →
  articles
  = Storage.load_articles storage_path other_iso coerce_datetime fs filepath source
      max_age_days now.
Proof.
  unfold Scan.load_articles, Storage.load_articles.
  destruct (Str.truthy_opt filepath); [by intros [= <-] |].
  destruct (Scan.cutoff_date now max_age_days) as [cutoff |] eqn:Hc; [| done].
  cbn [mbind exn_mbind exn_bind].
  assert (Hcut : cutoff = now - max_age_days * microseconds_per_day).
  { revert Hc. unfold Scan.cutoff_date, Scan.timedelta_days.
    destruct (_ && _); [| done]. cbn [mbind exn_mbind exn_bind].
    destruct (_ && _); [| done]. by intros [= <-]. }
  subst cutoff.
  assert (Hgen : ∀ entries acc,
    Scan.scan_entries storage_path stat_error other_iso coerce_datetime fs source
      (now - max_age_days * microseconds_per_day) acc entries = Ok articles →
    articles = acc ++
      (pf ← filter (λ pf, selected storage_path source
                            (now - max_age_days * microseconds_per_day) pf = true) entries;
       _load_file other_iso coerce_datetime fs pf.1)).
  { clear. induction entries as [| pf entries IH]; intros acc.
    - cbn. rewrite app_nil_r. by intros [= <-].
    - cbn [Scan.scan_entries]. destruct (stat_error pf.1); [done |].
      rewrite filter_cons. destruct (selected _ _ _ pf) eqn:Hsel.
      + rewrite decide_True by done. intros H%IH. by rewrite bind_cons, app_assoc.
      + rewrite decide_False by done. apply IH. }
  intros H. by apply Hgen in H.
Qed.

Lemma exn_mapM_raise {A B} (f : A → exn B) (l : list A) x e :
  x ∈ l → f x = Raise e → ∃ e', exn_mapM f l = Raise e'.
Proof.
  intros Hin Hx. induction Hin as [x l | x y l _ IH].
  - simpl. rewrite Hx. eauto.
  - simpl. destruct (f y) as [b | e0]; [| by eauto].
    destruct (IH Hx) as [e' ->]. simpl. eauto.
Qed.

Lemma dict_get_convert k items :
  dict_get k (convert_item other_iso <$> items) = (λ v, (convert_item other_iso (k, v)).2) <$> dict_get k items.
Proof.
  induction items as [| [k' v] items IH]; [done |].
  rewrite fmap_cons.
  assert (Hk : (convert_item other_iso (k', v)).1 = k').
  { unfold convert_item. cbn [fst snd]. repeat case_match; done. }
  destruct (convert_item other_iso (k', v)) as [k'' v'] eqn:Hc. simpl in Hk. subst k''.
  cbn [dict_get]. destruct (String.eqb k k') eqn:Heq; [| done].
  apply String.eqb_eq in Heq. subst k'. simpl. by rewrite Hc.
Qed.







End DirectoryScan.



Example load_articles_mixed_directory :
  Storage.load_articles "data/articles" (λ _, None) (λ _, None) mixed_directory None None 7 0
  = [sample_article].
Proof. vm_compute. reflexivity. Qed.

(** ** Timestamps that cannot be read back (storage.py) *)

Section UnreadableTimestamp.
Import Datetime Py Article Storage.
Variable other_iso : string → option datetime.
Variable coerce_datetime : pyval → option datetime.

(** An article whose [scraped_at] text denotes no timestamp does not pass
    the validation of the required field. *)
Lemma load_article_bad_scraped_at items value :
  dict_get "scraped_at" items = Some (PStr value) →
  fromisoformat other_iso value = None →
  ∃ e, load_article other_iso coerce_datetime (PDict items) = Raise e.
Proof.
  intros Hget Hbad. unfold load_article. cbn [items_of mbind exn_mbind exn_bind].
  unfold construct.
  rewrite (dict_get_convert other_iso "scraped_at"), Hget. cbn [fmap option_fmap option_map].
  assert (Hc : convert_item other_iso ("scraped_at"%string, PStr value) = ("scraped_at"%string, PNone)).
  { unfold convert_item. cbn [fst snd]. rewrite Hbad. reflexivity. }
  rewrite Hc. cbn [snd].
  change (required (validate_datetime coerce_datetime) (Some PNone))
    with (@Raise datetime "ValidationError").
  repeat match goal with
  | |- ∃ e, (Raise ?x ≫= _) = Raise e => by exists x
  | |- ∃ e, (?m ≫= _) = Raise e => destruct m; cbn [mbind exn_mbind exn_bind]; [| by eauto]
  end.
  eauto.
Qed.

(** A text under [published_at] that denotes no timestamp becomes [None],
    which the optional field accepts. *)
Lemma convert_item_unreadable k value :
  Str.endswith "_at" k = true → fromisoformat other_iso value = None →
  convert_item other_iso (k, PStr value) = (k, PNone).
Proof. intros Hk Hbad. unfold convert_item. cbn [fst snd]. by rewrite Hk, Hbad. Qed.

(** C10, as the code has it. When an article record of a batch file has a
    [scraped_at] text that is not an ISO timestamp, [_load_file] puts [None]
    in its place, the validation of the required field raises, and the
    handler of the file gives the empty list: every other article of the
    file is lost with it. *)
Theorem load_file_unreadable_scraped_at (fs : gmap string file) filepath mt top elems
    items value :
  fs !! filepath = Some (mk_file mt (Some (PDict top))) →
  dict_get "articles" top = Some (PList elems) →
  PDict items ∈ elems →
  dict_get "scraped_at" items = Some (PStr value) →
  fromisoformat other_iso value = None →
  dict_get "scraped_at" (convert_item other_iso <$> items) = Some PNone ∧
  (∃ e, load_file_body other_iso coerce_datetime fs filepath = Raise e) ∧
  _load_file other_iso coerce_datetime fs filepath = [].
Proof.
  intros Hfile Harts Hin Hget Hbad.
  assert (Hnone : dict_get "scraped_at" (convert_item other_iso <$> items) = Some PNone).
  { rewrite dict_get_convert, Hget. cbn [fmap option_fmap option_map].
    by rewrite (convert_item_unreadable "scraped_at"). }
  assert (Hraise : ∃ e, load_file_body other_iso coerce_datetime fs filepath = Raise e).
  { unfold load_file_body, read_json. rewrite Hfile.
    cbn [content of_option mbind exn_mbind exn_bind items_of]. rewrite Harts.
    cbn [iterate mbind exn_mbind exn_bind].
    destruct (load_article_bad_scraped_at items value Hget Hbad) as [e He].
    by apply (exn_mapM_raise _ _ (PDict items) e). }
  split_and!; [done | done |].
  destruct Hraise as [e He]. unfold _load_file. by rewrite He.
Qed.

End UnreadableTimestamp.

(** A file with a good record and one whose [scraped_at] is no timestamp
    gives nothing at all. *)
Lemma load_file_unreadable_scraped_at_witness :
  Py.dict_get "scraped_at"
    (Storage.convert_item (λ _, None) <$> sample_record Py.PNone (Py.PStr "yesterday")) = Some Py.PNone ∧
  (∃ e, Storage.load_file_body (λ _, None) (λ _, None)
          (one_file "data/articles/feed.json"
             (batch_doc [Storage.article_dict sample_article;
                         Py.PDict (sample_record Py.PNone (Py.PStr "yesterday"))]))
          "data/articles/feed.json" = Raise e) ∧
  Storage._load_file (λ _, None) (λ _, None)
    (one_file "data/articles/feed.json"
       (batch_doc [Storage.article_dict sample_article;
                   Py.PDict (sample_record Py.PNone (Py.PStr "yesterday"))]))
    "data/articles/feed.json" = [].
Proof.
  apply (load_file_unreadable_scraped_at (λ _, None) (λ _, None) _ _ 0
           (match batch_doc [Storage.article_dict sample_article;
                             Py.PDict (sample_record Py.PNone (Py.PStr "yesterday"))]
            with Py.PDict top => top | _ => [] end)
           [Storage.article_dict sample_article;
            Py.PDict (sample_record Py.PNone (Py.PStr "yesterday"))]
           (sample_record Py.PNone (Py.PStr "yesterday")) "yesterday").
  - reflexivity.
  - reflexivity.
  - apply list_elem_of_In. simpl. tauto.
  - reflexivity.
  - reflexivity.
Defined.

(** The claim C10 fails for the other timestamp key: a [published_at] text
    that is no timestamp becomes [None], the optional field accepts it, and
    the file keeps all its articles. *)
Lemma load_file_unreadable_published_at_kept :
  Py.dict_get "published_at" (sample_record (Py.PStr "soon") (Py.PStr "2024-02-29T23:59:58.250000"))
    = Some (Py.PStr "soon") ∧
  Str.endswith "_at" "published_at" = true ∧
  Datetime.fromisoformat (λ _, None) "soon" = None ∧
  Storage._load_file (λ _, None) (λ _, None)
    (one_file "data/articles/feed.json"
       (batch_doc [Py.PDict (sample_record (Py.PStr "soon")
                               (Py.PStr "2024-02-29T23:59:58.250000"))]))
    "data/articles/feed.json"
  = [ Article.mk_Article "Rates held" "https://example.org/rates" "The bank held rates."
        (Some "Rates unchanged."%string) (Some "finance"%string) "Example Feed"
        None sample_time None ["money"%string; "bank"%string] ] ∧
  Storage._load_file (λ _, None) (λ _, None)
    (one_file "data/articles/feed.json"
       (batch_doc [Py.PDict (sample_record (Py.PStr "soon")
                               (Py.PStr "2024-02-29T23:59:58.250000"))]))
    "data/articles/feed.json" ≠ [].
Proof. split_and!; [reflexivity .. | by vm_compute]. Qed.

(** ** Removing old batch files (storage.py) *)

Section Cleanup.
Import Storage.
Variable storage_path : string.
Variable can_unlink : string → bool.

Lemma cleanup_loop_lookup cutoff (l : list (string * file)) :
  ∀ (fs : gmap string file) path,
  foldl (cleanup_step can_unlink cutoff) fs l !! path
  = if existsb (λ pf, bool_decide (pf.1 = path) && (mtime pf.2 <? cutoff) && can_unlink pf.1) l
    then None else fs !! path.
Proof.
  induction l as [| pf l IH]; intros fs path; [done |].
  cbn [foldl existsb]. rewrite IH.
  destruct (existsb _ l); [by rewrite orb_true_r |]. rewrite orb_false_r.
  unfold cleanup_step.
  destruct (mtime pf.2 <? cutoff); [| by rewrite andb_false_r].
  destruct (can_unlink pf.1); [| by rewrite andb_false_r].
  rewrite !andb_true_r. case_bool_decide as Hp.
  - subst path. apply lookup_delete_eq.
  - by apply lookup_delete_ne.
Qed.

Lemma cleanup_lookup (fs : gmap string file) max_age_days now path :
  cleanup_old_articles storage_path can_unlink fs max_age_days now !! path
  = match fs !! path with
    | Some f =>
        if removes storage_path can_unlink (now - max_age_days * microseconds_per_day) path f
        then None else Some f
    | None => None
    end.
Proof.
  unfold cleanup_old_articles. rewrite cleanup_loop_lookup.
  set (cutoff := now - max_age_days * microseconds_per_day).
  destruct (existsb _ _) eqn:Hex.
  - apply existsb_exists in Hex as ([p f] & Hin & Hc).
    apply list_elem_of_In, elem_of_glob_json in Hin as [Hb Hf]. simpl in *.
    apply andb_true_iff in Hc as [[Hp%bool_decide_eq_true Ho]%andb_true_iff Hu].
    subst p. rewrite Hf. unfold removes. by rewrite bool_decide_eq_true_2, Ho, Hu.
  - destruct (fs !! path) as [f |] eqn:Hf; [| done].
    destruct (removes storage_path can_unlink cutoff path f) eqn:Hr; [| done].
    exfalso. unfold removes in Hr.
    apply andb_true_iff in Hr as [[Hb%bool_decide_eq_true Ho]%andb_true_iff Hu].
    assert (Hin : (path, f) ∈ glob_json storage_path fs) by (by apply elem_of_glob_json).
    apply not_true_iff_false in Hex. apply Hex, existsb_exists.
    exists (path, f). split; [by apply list_elem_of_In |].
    simpl. by rewrite bool_decide_eq_true_2, Ho, Hu.
Qed.

Lemma cleanup_twice (fs : gmap string file) max_age_days now :
  cleanup_old_articles storage_path can_unlink
    (cleanup_old_articles storage_path can_unlink fs max_age_days now) max_age_days now
  = cleanup_old_articles storage_path can_unlink fs max_age_days now.
Proof.
  apply map_eq. intros path. rewrite !cleanup_lookup.
  destruct (fs !! path) as [f |]; [| done].
  destruct (removes storage_path can_unlink _ path f) eqn:Hr; [done | by rewrite Hr].
Qed.

Variable stat_error : string → option string.

(** When every entry can be examined, the loop of the run is the loop of
    [Storage.cleanup_old_articles], and nothing is raised. *)
Lemma cleanup_entries_ok cutoff (entries : list (string * file)) :
  ∀ fs : gmap string file,
  Forall (λ pf, stat_error pf.1 = None) entries →
  Scan.cleanup_entries can_unlink stat_error cutoff fs entries
  = (foldl (cleanup_step can_unlink cutoff) fs entries, None).
Proof.
  induction entries as [| pf entries IH]; intros fs Hstat; [done |].
  apply Forall_cons in Hstat as [Hpf Hstat]. cbn [Scan.cleanup_entries foldl].
  rewrite Hpf. by apply IH.
Qed.

(** An entry whose look raises ends the run: what precedes it has been
    dealt with, what follows it is left as it is. *)
Lemma cleanup_entries_raise cutoff (before after : list (string * file)) pf e :
  ∀ fs : gmap string file,
  Forall (λ pf, stat_error pf.1 = None) before →
  stat_error pf.1 = Some e →
  Scan.cleanup_entries can_unlink stat_error cutoff fs (before ++ pf :: after)
  = (foldl (cleanup_step can_unlink cutoff) fs before, Some e).
Proof.
  induction before as [| pf0 before IH]; intros fs Hstat Hpf.
  - cbn. by rewrite Hpf.
  - apply Forall_cons in Hstat as [Hpf0 Hstat]. cbn. rewrite Hpf0. by apply IH.
Qed.

Lemma scan_cleanup_returns (fs : gmap string file) max_age_days now :
  -999999999 <= max_age_days <= 999999999 →
  0 <= now - max_age_days * microseconds_per_day <= Scan.max_position →
  (∀ path, is_Some (fs !! path) → batch_entry storage_path path = true →
           stat_error path = None) →
  Scan.cleanup_old_articles storage_path can_unlink stat_error fs max_age_days now
  = (cleanup_old_articles storage_path can_unlink fs max_age_days now, None).
Proof.
  intros Hd Hc Hstat. unfold Scan.cleanup_old_articles. rewrite cutoff_date_ok by done.
  rewrite cleanup_entries_ok; [done |]. by apply glob_json_stat.
Qed.

(** A run that returns leaves the directory of
    [Storage.cleanup_old_articles]. *)
Lemma scan_cleanup_result (fs fs' : gmap string file) max_age_days now :
  Scan.cleanup_old_articles storage_path can_unlink stat_error fs max_age_days now
  = (fs', None) →
  fs' = cleanup_old_articles storage_path can_unlink fs max_age_days now.
Proof.
  unfold Scan.cleanup_old_articles, cleanup_old_articles.
  destruct (Scan.cutoff_date now max_age_days) as [cutoff |] eqn:Hc; [| done].
  apply cutoff_date_returns in Hc as ->.
  generalize (glob_json storage_path fs). intros entries. revert fs.
  induction entries as [| pf entries IH]; intros fs.
  - cbn. by intros [= <-].
  - cbn [Scan.cleanup_entries foldl]. destruct (stat_error pf.1); [done |]. apply IH.
Qed.

(** When the cutoff is no [datetime] the run raises before it looks at the
    directory, and removes nothing. *)
Lemma scan_cleanup_overflow (fs : gmap string file) max_age_days now :
  ¬ (-999999999 <= max_age_days <= 999999999
     ∧ 0 <= now - max_age_days * microseconds_per_day <= Scan.max_position) →
  Scan.cleanup_old_articles storage_path can_unlink stat_error fs max_age_days now
  = (fs, Some "OverflowError"%string).
Proof.
  intros Hn. unfold Scan.cleanup_old_articles. by rewrite cutoff_date_raise.
Qed.

(** C9, as the code has it. Let the limit D be a number of days that
    [timedelta] takes and now - D a [datetime], and let every batch entry of
    the directory be one that [stat()] can examine. Then
    [cleanup_old_articles] returns without an exception; it has removed
    exactly the batch files that are strictly older than the cutoff and
    whose [unlink] succeeds, and has left every other file as it was (an old
    file whose removal fails stays, the failure is logged); and a second run
    at the same clock reading returns too and changes nothing. *)
Theorem cleanup_removes_old_files (fs : gmap string file) (max_age_days now : Z) :
  -999999999 <= max_age_days <= 999999999 →
  0 <= now - max_age_days * microseconds_per_day <= Scan.max_position →
  (∀ path, is_Some (fs !! path) → batch_entry storage_path path = true →
           stat_error path = None) →
  ∃ fs' : gmap string file,
    Scan.cleanup_old_articles storage_path can_unlink stat_error fs max_age_days now
    = (fs', None) ∧
    (∀ path,
       fs' !! path
       = match fs !! path with
         | Some f =>
             if batch_entry storage_path path
                && (mtime f <? now - max_age_days * microseconds_per_day)
                && can_unlink path
             then None else Some f
         | None => None
         end) ∧
    Scan.cleanup_old_articles storage_path can_unlink stat_error fs' max_age_days now
    = (fs', None).
Proof.
  intros Hd Hc Hstat.
  exists (cleanup_old_articles storage_path can_unlink fs max_age_days now).
  split_and!.
  - by apply scan_cleanup_returns.
  - intros path. rewrite cleanup_lookup. destruct (fs !! path) as [f |]; [| done].
    unfold removes. destruct (batch_entry storage_path path) eqn:Hb.
    + by rewrite bool_decide_eq_true_2 by (by apply batch_entry_name).
    + rewrite bool_decide_eq_false_2; [done |].
      intros Hn%batch_entry_name. congruence.
  - rewrite scan_cleanup_returns; [by rewrite cleanup_twice | done | done |].
    intros path [f Hf] Hb. apply Hstat; [| done].
    rewrite cleanup_lookup in Hf. destruct (fs !! path); [by eauto | done].
Qed.

(** When every removal succeeds, the files removed are exactly the old
    batch files. *)
Corollary cleanup_all_unlinkable (fs : gmap string file) (max_age_days now : Z) path f :
  (∀ p, can_unlink p = true) →
  fs !! path = Some f →
  cleanup_old_articles storage_path can_unlink fs max_age_days now !! path = None
  ↔ is_Some (batch_name storage_path path)
    ∧ mtime f < now - max_age_days * microseconds_per_day.
Proof.
  intros Hu Hf. rewrite cleanup_lookup, Hf. unfold removes. rewrite Hu, andb_true_r.
  case_bool_decide as Hb; cbn [andb].
  - destruct (mtime f <? _) eqn:Ho; [apply Z.ltb_lt in Ho | apply Z.ltb_ge in Ho].
    + done.
    + split; [done | lia].
  - split; [done | tauto].
Qed.

End Cleanup.

Lemma cleanup_removes_old_files_witness :
  ∃ fs' : gmap string Storage.file,
    Scan.cleanup_old_articles "data/articles" (λ _, true) (λ _, None) dated_directory
      7 sample_now = (fs', None) ∧
    (∀ path,
       fs' !! path
       = match dated_directory !! path with
         | Some f =>
             if batch_entry "data/articles" path
                && (Storage.mtime f <? sample_now - 7 * Storage.microseconds_per_day)
                && true
             then None else Some f
         | None => None
         end) ∧
    Scan.cleanup_old_articles "data/articles" (λ _, true) (λ _, None) fs' 7 sample_now
    = (fs', None).
Proof.
  apply (cleanup_removes_old_files "data/articles" (λ _, true) (λ _, None)
           dated_directory 7 sample_now).
  - lia.
  - vm_compute. split; discriminate.
  - reflexivity.
Defined.

(** The run of the witness removes old.json and nothing else. *)
Example cleanup_dated_directory :
  let run := Scan.cleanup_old_articles "data/articles" (λ _, true) (λ _, None)
               dated_directory 7 sample_now in
  run.2 = None ∧
  (map_to_list run.1).*1
  ≡ₚ ["data/articles/a.json"; "data/articles/b.json"; "data/articles/c.json"]%string.
Proof.
  cbv zeta. split; [by vm_compute |].
  match goal with
  | |- ?l ≡ₚ _ => let l' := eval vm_compute in l in change l with l'
  end.
  by solve_Permutation.
Qed.

(** The claim C9 fails in four ways. The directory holds a batch file
    old.json ten days old and the limit is seven days.
    - When [unlink] raises (old.json is a directory, or the directory is
      read-only) the entry is still there after the run.
    - For D = -3000000 the cutoff now - D lies beyond [datetime.max]: the
      run raises and removes nothing, although old.json is older than
      now - D.
    - When [stat()] raises for an entry (b.json is a link to nothing) the
      run raises.
    - A second run three days later removes a.json, which the first run
      has left: two runs in succession read the clock twice. *)
Lemma cleanup_not_as_claimed :
  let old := "data/articles/old.json"%string in
  let later := sample_now + 3 * Storage.microseconds_per_day in
  let once := (Scan.cleanup_old_articles "data/articles" (λ _, true) (λ _, None)
                 dated_directory 2 sample_now).1 in
  batch_entry "data/articles" old = true ∧
  (∃ f, dated_directory !! old = Some f
        ∧ Storage.mtime f < sample_now - 7 * Storage.microseconds_per_day
        ∧ Storage.mtime f < sample_now - -3000000 * Storage.microseconds_per_day
        ∧ (Scan.cleanup_old_articles "data/articles" (λ _, false) (λ _, None)
             dated_directory 7 sample_now).1 !! old = Some f) ∧
  Scan.cleanup_old_articles "data/articles" (λ _, true) (λ _, None) dated_directory
    (-3000000) sample_now
  = (dated_directory, Some "OverflowError"%string) ∧
  (Scan.cleanup_old_articles "data/articles" (λ _, true) dangling_b dated_directory
     7 sample_now).2 = Some "FileNotFoundError"%string ∧
  is_Some (once !! "data/articles/a.json"%string) ∧
  (Scan.cleanup_old_articles "data/articles" (λ _, true) (λ _, None) once 2 later).1
    !! "data/articles/a.json"%string = None.
Proof.
  cbv zeta. split_and!.
  - reflexivity.
  - eexists. split_and!; [by vm_compute | by vm_compute | by vm_compute | by vm_compute].
  - apply scan_cleanup_overflow. vm_compute. intros [_ [_ Hc]]. by apply Hc.
  - by vm_compute.
  - eexists. by vm_compute.
  - by vm_compute.
Qed.

(** ** Sorting by timestamp, newest first *)

Section DescendingOrder.
Import Datetime DatetimeOrder.

Lemma fields_compare_antisym a b : fields_compare b a = CompOpp (fields_compare a b).
Proof.
  unfold fields_compare.
  rewrite (Z.compare_antisym (year a)), (Z.compare_antisym (month a)),
    (Z.compare_antisym (day a)), (Z.compare_antisym (hour a)),
    (Z.compare_antisym (minute a)), (Z.compare_antisym (second a)),
    (Z.compare_antisym (microsecond a)).
  repeat (destruct (_ ?= _); cbn [CompOpp]; try reflexivity).
Qed.

Lemma compare_antisym a b c : compare a b = Some c → compare b a = Some (CompOpp c).
Proof.
  unfold compare. destruct (utcoffset a), (utcoffset b); intros [= <-]; f_equal.
  - apply Z.compare_antisym.
  - apply fields_compare_antisym.
Qed.

Lemma compare_same_kind a b : naive a = naive b → is_Some (compare a b).
Proof. unfold naive, compare. destruct (utcoffset a), (utcoffset b); by eauto. Qed.

Lemma geb_true a b : naive a = naive b → geb a b = true → ge_dt a b.
Proof.
  intros [c Hc]%compare_same_kind. unfold geb, ge_dt. rewrite Hc.
  destruct c; auto. discriminate.
Qed.

Lemma geb_false a b : naive a = naive b → geb a b = false → ge_dt b a.
Proof.
  intros [c Hc]%compare_same_kind. unfold geb, ge_dt. rewrite Hc.
  destruct c; try discriminate. intros _. right. by apply compare_antisym in Hc.
Qed.

Lemma comparable_same_kind ks :
  comparable ks = true → ∀ a b, a ∈ ks → b ∈ ks → naive a = naive b.
Proof.
  unfold comparable. intros [H | H]%orb_true_iff a b Ha Hb;
    rewrite forallb_forall in H;
    pose proof (H a (proj1 (list_elem_of_In _ _) Ha)) as Ha';
    pose proof (H b (proj1 (list_elem_of_In _ _) Hb)) as Hb'.
  - congruence.
  - destruct (naive a), (naive b); done.
Qed.

Lemma comparable_sublist ks ks' :
  (∀ k, k ∈ ks' → k ∈ ks) → comparable ks = true → comparable ks' = true.
Proof.
  unfold comparable. intros Hsub [H | H]%orb_true_iff; apply orb_true_iff; [left | right];
    rewrite forallb_forall in *; intros k Hk%list_elem_of_In%Hsub%list_elem_of_In; auto.
Qed.

Context {A : Type} (key : A → datetime).

Lemma insert_desc_perm x l : insert_desc key x l ≡ₚ x :: l.
Proof.
  induction l as [| y l IH]; [done |]. simpl.
  destruct (geb _ _); [done |]. rewrite IH. apply perm_swap.
Qed.

Lemma isort_desc_perm l : isort_desc key l ≡ₚ l.
Proof.
  induction l as [| x l IH]; [done |]. simpl.
  by rewrite insert_desc_perm, IH.
Qed.

Lemma insert_desc_descending x l :
  (∀ y, y ∈ l → naive (key x) = naive (key y)) →
  descending key l → descending key (insert_desc key x l).
Proof.
  intros Hk Hs. induction Hs as [| y l Hs IH Hhd]; [by repeat constructor |].
  simpl. destruct (geb (key x) (key y)) eqn:Hge.
  - constructor; [by constructor |]. constructor.
    apply geb_true; [| done]. apply Hk. left.
  - assert (Hyx : ge_dt (key y) (key x)).
    { apply geb_false; [| done]. apply Hk. left. }
    constructor.
    + apply IH. intros z Hz. apply Hk. by right.
    + destruct Hhd as [| z l' Hyz]; simpl.
      * by constructor.
      * destruct (geb (key x) (key z)); by constructor.
Qed.

Lemma isort_desc_descending l :
  comparable (key <$> l) = true → descending key (isort_desc key l).
Proof.
  intros Hc.
  assert (Hk : ∀ x y, x ∈ l → y ∈ l → naive (key x) = naive (key y)).
  { intros x y Hx Hy. apply (comparable_same_kind _ Hc); by apply list_elem_of_fmap_2. }
  clear Hc. induction l as [| x l IH]; [constructor |].
  simpl. apply insert_desc_descending.
  - intros y Hy%(elem_of_Permutation_proper _ _ _ (isort_desc_perm l)).
    apply Hk; [left | by right].
  - apply IH. intros y z Hy Hz. apply Hk; by right.
Qed.

Lemma descending_take n l : descending key l → descending key (take n l).
Proof.
  intros Hs. revert n. induction Hs as [| x l Hs IH Hhd]; intros [| n]; simpl;
    try by constructor.
  constructor; [apply IH |].
  destruct Hhd; destruct n; simpl; by constructor.
Qed.

(** [sort_desc] returns when the keys can be compared, and raises when they
    cannot. *)
Lemma sort_desc_ok l :
  comparable (key <$> l) = true → sort_desc key l = Ok (isort_desc key l).
Proof. unfold sort_desc. unfold fmap, list_fmap. fold (map key l). by intros ->. Qed.

End DescendingOrder.

(** ** The latest articles (storage.py) *)

Section Latest.
Import Datetime DatetimeOrder Py Article Storage.
Variable storage_path : string.
Variable other_iso : string → option datetime.
Variable coerce_datetime : pyval → option datetime.

Lemma length_slice_to {A} (limit : Z) (l : list A) :
  0 <= limit → Z.of_nat (length (slice_to limit l)) <= limit.
Proof.
  intros Hl. unfold slice_to. rewrite (proj2 (Z.leb_le 0 limit) Hl).
  rewrite length_take. lia.
Qed.

(** C3, as the code has it. For a limit [N >= 0] and stored articles whose
    [scraped_at] values can be compared with one another (all naive, as the
    scrapers set them, or all aware), [get_latest_articles] returns at most
    [N] of the stored articles, newest first, and when a non-empty category
    is given every one of them has exactly that category. *)
Theorem get_latest_articles_sorted_limited (fs : gmap string file) (limit : Z)
    (category : option string) (now : Z) :
  0 <= limit →
  comparable (scraped_at <$> load_articles storage_path other_iso coerce_datetime fs None None 7 now)
    = true →
  ∃ l, get_latest_articles storage_path other_iso coerce_datetime fs limit category now = Ok l ∧
       Z.of_nat (length l) <= limit ∧
       descending scraped_at l ∧
       (∀ a, a ∈ l → a ∈ load_articles storage_path other_iso coerce_datetime fs None None 7 now) ∧
       (∀ c, category = Some c → c ≠ ""%string →
             ∀ a, a ∈ l → Article.category a = Some c).
Proof.
  intros Hlimit Hcmp. unfold get_latest_articles.
  set (loaded := load_articles storage_path other_iso coerce_datetime fs None None 7 now) in *.
  set (chosen := if Str.truthy_opt category
                 then filter (λ a, Article.category a = category) loaded else loaded).
  assert (Hsub : ∀ a, a ∈ chosen → a ∈ loaded).
  { intros a. unfold chosen. destruct (Str.truthy_opt category); [| done].
    by intros [_ ?]%list_elem_of_filter. }
  assert (Hcat : ∀ c, category = Some c → c ≠ ""%string →
                 ∀ a, a ∈ chosen → Article.category a = Some c).
  { intros c -> Hc a. unfold chosen. cbn [Str.truthy_opt].
    destruct c; [done |]. cbn [Str.truthy]. by intros [? _]%list_elem_of_filter. }
  assert (Hcmp' : comparable (scraped_at <$> chosen) = true).
  { eapply comparable_sublist; [| exact Hcmp].
    intros k (a & -> & Ha)%list_elem_of_fmap. apply list_elem_of_fmap_2. auto. }
  rewrite (sort_desc_ok scraped_at chosen Hcmp'). cbn [mbind exn_mbind exn_bind].
  eexists. split; [reflexivity |].
  assert (Hin : ∀ a, a ∈ slice_to limit (isort_desc scraped_at chosen) → a ∈ chosen).
  { intros a. unfold slice_to. rewrite (proj2 (Z.leb_le 0 limit) Hlimit).
    intros Ha%(subseteq_take (Z.to_nat limit)).
    by apply (elem_of_Permutation_proper _ _ _ (isort_desc_perm scraped_at chosen)). }
  split_and!.
  - by apply length_slice_to.
  - unfold slice_to. rewrite (proj2 (Z.leb_le 0 limit) Hlimit).
    apply descending_take. by apply isort_desc_descending.
  - auto.
  - intros c Hc Hne a Ha. eapply Hcat; eauto.
Qed.

End Latest.

Example get_latest_two :
  Storage.get_latest_articles "data/articles" (λ _, None) (λ _, None) two_articles_fs 5 None 0
  = Ok [later_article; sample_article].
Proof. reflexivity. Qed.

Example get_latest_tech :
  Storage.get_latest_articles "data/articles" (λ _, None) (λ _, None) two_articles_fs 5
    (Some "tech"%string) 0
  = Ok [later_article].
Proof. reflexivity. Qed.

Lemma get_latest_articles_sorted_limited_witness :
  ∃ l, Storage.get_latest_articles "data/articles" (λ _, None) (λ _, None) two_articles_fs 1
         (Some "finance"%string) 0 = Ok l ∧
       Z.of_nat (length l) <= 1 ∧
       descending Article.scraped_at l ∧
       (∀ a, a ∈ l →
             a ∈ Storage.load_articles "data/articles" (λ _, None) (λ _, None) two_articles_fs
                   None None 7 0) ∧
       (∀ c, Some "finance"%string = Some c → c ≠ ""%string →
             ∀ a, a ∈ l → Article.category a = Some c).
Proof.
  apply (get_latest_articles_sorted_limited "data/articles" (λ _, None) (λ _, None)
           two_articles_fs 1 (Some "finance"%string) 0).
  - lia.
  - reflexivity.
Defined.

(** The claim C3 fails in two places. For the empty category, [if
    category:] takes it for no category at all, and the articles of every
    category are returned. With a naive and an aware [scraped_at] in the
    store, the sort raises and nothing is returned. *)
Lemma get_latest_articles_not_as_claimed :
  (Storage.get_latest_articles "data/articles" (λ _, None) (λ _, None) two_articles_fs 5
     (Some ""%string) 0
   = Ok [later_article; sample_article] ∧
   Article.category later_article ≠ Some ""%string) ∧
  Storage.get_latest_articles "data/articles" (λ _, None) (λ _, None)
    (one_file "data/articles/feed.json"
       (batch_doc [Storage.article_dict sample_article; Storage.article_dict aware_article]))
    5 None 0
  = Raise "TypeError".
Proof. split; [split; [reflexivity | discriminate] | reflexivity]. Qed.

(** ** Articles by category (main.py) *)

Section Categorized.
Import Datetime DatetimeOrder Py Article Storage Aggregator.

Lemma add_article_eq m a :
  add_article m a = <[bucket_of a := default [] (m !! bucket_of a) ++ [a]]> m.
Proof.
  unfold add_article. destruct (m !! bucket_of a) as [l |] eqn:Hl.
  - by rewrite Hl.
  - by rewrite lookup_insert_eq, insert_insert_eq.
Qed.

Lemma add_article_lookup m a k :
  add_article m a !! k
  = if decide (bucket_of a = k) then Some (default [] (m !! k) ++ [a]) else m !! k.
Proof.
  rewrite add_article_eq, lookup_insert. by destruct (decide (bucket_of a = k)) as [<- |].
Qed.

Lemma group_loop_lookup (articles : list Article) :
  ∀ (m : gmap string (list Article)) k,
  foldl add_article m articles !! k
  = match members k articles with
    | [] => m !! k
    | l => Some (default [] (m !! k) ++ l)
    end.
Proof.
  induction articles as [| a l IH]; intros m k; [done |].
  cbn [foldl]. rewrite IH, add_article_lookup. unfold members. rewrite filter_cons.
  destruct (decide (bucket_of a = k)) as [Hk | Hk].
  - cbn [default]. destruct (filter _ l); [done |]. unfold id. by rewrite <- app_assoc.
  - done.
Qed.

Lemma group_lookup articles k :
  group_by_category articles !! k
  = match members k articles with [] => None | l => Some l end.
Proof. unfold group_by_category. rewrite group_loop_lookup, lookup_empty. done. Qed.

Lemma all_of_insert_new (m : gmap string (list Article)) k l :
  m !! k = None → all_of (<[k := l]> m) ≡ₚ l ++ all_of m.
Proof. intros Hk. unfold all_of. by rewrite (map_to_list_insert m k l Hk), bind_cons. Qed.

Lemma all_of_lookup (m : gmap string (list Article)) k l :
  m !! k = Some l → all_of m ≡ₚ l ++ all_of (delete k m).
Proof.
  intros Hk. unfold all_of. by rewrite <- (map_to_list_delete m k l Hk), bind_cons.
Qed.

Lemma all_of_add m a : all_of (add_article m a) ≡ₚ all_of m ++ [a].
Proof.
  rewrite add_article_eq. destruct (m !! bucket_of a) as [l |] eqn:Hl; cbn [default].
  - rewrite <- insert_delete_eq, all_of_insert_new by apply lookup_delete_eq.
    rewrite (all_of_lookup m _ l Hl), <- !app_assoc.
    apply Permutation_app_head, Permutation_app_comm.
  - rewrite all_of_insert_new by done. apply Permutation_app_comm.
Qed.

Lemma all_of_group_loop articles :
  ∀ m, all_of (foldl add_article m articles) ≡ₚ all_of m ++ articles.
Proof.
  induction articles as [| a l IH]; intros m; cbn [foldl].
  - by rewrite app_nil_r.
  - by rewrite IH, all_of_add, <- app_assoc.
Qed.

Lemma all_of_group articles : all_of (group_by_category articles) ≡ₚ articles.
Proof.
  unfold group_by_category. rewrite all_of_group_loop.
  unfold all_of. by rewrite map_to_list_empty.
Qed.

Lemma all_of_sorted (m : gmap string (list Article)) :
  all_of (isort_desc scraped_at <$> m) ≡ₚ all_of m.
Proof.
  unfold all_of. rewrite map_to_list_fmap.
  induction (map_to_list m) as [| [k l] kls IH]; [done |].
  rewrite fmap_cons, !bind_cons, IH. cbn. by rewrite isort_desc_perm.
Qed.

(** The bucket of an article: its category, or the fixed bucket when the
    category is missing or empty. *)
Lemma bucket_of_spec a :
  match category a with
  | Some c => if decide (c = ""%string) then bucket_of a = "uncategorized"%string
              else bucket_of a = c
  | None => bucket_of a = "uncategorized"%string
  end.
Proof. unfold bucket_of. destruct (category a) as [[| ch c] |]; done. Qed.

End Categorized.

Section CategorizedQuery.
Import Datetime DatetimeOrder Py Article Storage Aggregator.
Variable storage_path : string.
Variable other_iso : string → option datetime.
Variable coerce_datetime : pyval → option datetime.

Lemma sort_buckets_ok articles :
  comparable (scraped_at <$> articles) = true →
  sort_buckets (group_by_category articles)
  = Ok (isort_desc scraped_at <$> group_by_category articles).
Proof.
  intros Hcmp. unfold sort_buckets.
  replace (forallb _ _) with true; [done |].
  symmetry. apply forallb_forall. intros [k l] Hin%list_elem_of_In%elem_of_map_to_list.
  rewrite group_lookup in Hin. cbn [snd].
  eapply comparable_sublist; [| exact Hcmp].
  intros d (a & -> & Ha)%list_elem_of_fmap. apply list_elem_of_fmap_2.
  assert (Hl : l = members k articles) by (destruct (members k articles); congruence).
  subst l. by apply list_elem_of_filter in Ha as [_ ?].
Qed.

(** C4, as the code has it. For loaded articles whose [scraped_at] values
    can be compared with one another, [get_articles_by_category] returns
    buckets such that every article is in the bucket named by its category
    (the fixed bucket "uncategorized" when the category is missing or
    empty) and in no other, the buckets together hold the loaded articles
    with nothing lost and nothing repeated, and every bucket is sorted
    newest first. *)
Theorem get_articles_by_category_partition (fs : gmap string file) (now : Z) :
  comparable (scraped_at <$> load_articles storage_path other_iso coerce_datetime fs None None 7 now)
    = true →
  ∃ m, get_articles_by_category storage_path other_iso coerce_datetime fs now = Ok m ∧
    (∀ a, a ∈ load_articles storage_path other_iso coerce_datetime fs None None 7 now →
          (∃ l, m !! bucket_of a = Some l ∧ a ∈ l) ∧
          match category a with
          | Some c => if decide (c = ""%string) then bucket_of a = "uncategorized"%string
                      else bucket_of a = c
          | None => bucket_of a = "uncategorized"%string
          end) ∧
    (∀ k l a, m !! k = Some l → a ∈ l → bucket_of a = k) ∧
    all_of m ≡ₚ load_articles storage_path other_iso coerce_datetime fs None None 7 now ∧
    (∀ k l, m !! k = Some l → descending scraped_at l).
Proof.
  intros Hcmp. unfold get_articles_by_category.
  set (articles := load_articles storage_path other_iso coerce_datetime fs None None 7 now) in *.
  rewrite sort_buckets_ok by done. eexists. split; [reflexivity |].
  assert (Hlook : ∀ k l, (isort_desc scraped_at <$> group_by_category articles) !! k = Some l →
                  members k articles ≠ [] ∧ l = isort_desc scraped_at (members k articles)).
  { intros k l. rewrite lookup_fmap, group_lookup.
    destruct (members k articles); [done |]. by intros [= <-]. }
  split_and!.
  - intros a Ha. split; [| apply bucket_of_spec].
    assert (Hm : a ∈ members (bucket_of a) articles) by (by apply list_elem_of_filter).
    exists (isort_desc scraped_at (members (bucket_of a) articles)). split.
    + rewrite lookup_fmap, group_lookup.
      destruct (members (bucket_of a) articles); [by apply elem_of_nil in Hm | done].
    + by rewrite isort_desc_perm.
  - intros k l a [_ ->]%Hlook Ha. rewrite isort_desc_perm in Ha.
    by apply list_elem_of_filter in Ha as [? _].
  - by rewrite all_of_sorted, all_of_group.
  - intros k l [_ ->]%Hlook. apply isort_desc_descending.
    eapply comparable_sublist; [| exact Hcmp].
    intros d (a & -> & Ha)%list_elem_of_fmap. apply list_elem_of_fmap_2.
    by apply list_elem_of_filter in Ha as [_ ?].
Qed.

End CategorizedQuery.

Lemma get_articles_by_category_partition_witness :
  ∃ m, Aggregator.get_articles_by_category "data/articles" (λ _, None) (λ _, None) two_articles_fs 0
       = Ok m ∧
    (∀ a, a ∈ Storage.load_articles "data/articles" (λ _, None) (λ _, None) two_articles_fs None None 7 0 →
          (∃ l, m !! Aggregator.bucket_of a = Some l ∧ a ∈ l) ∧
          match Article.category a with
          | Some c => if decide (c = ""%string)
                      then Aggregator.bucket_of a = "uncategorized"%string
                      else Aggregator.bucket_of a = c
          | None => Aggregator.bucket_of a = "uncategorized"%string
          end) ∧
    (∀ k l a, m !! k = Some l → a ∈ l → Aggregator.bucket_of a = k) ∧
    all_of m ≡ₚ Storage.load_articles "data/articles" (λ _, None) (λ _, None) two_articles_fs None None 7 0 ∧
    (∀ k l, m !! k = Some l → descending Article.scraped_at l).
Proof.
  apply (get_articles_by_category_partition "data/articles" (λ _, None) (λ _, None) two_articles_fs 0).
  reflexivity.
Defined.

(** The claim C4 fails in two places. An article whose category is the
    empty text is not in a bucket keyed by its category, it is in
    "uncategorized". With a naive and an aware [scraped_at] in one bucket,
    the sort raises and no bucket is returned. *)
Lemma get_articles_by_category_not_as_claimed :
  (∃ m, Aggregator.get_articles_by_category "data/articles" (λ _, None) (λ _, None)
          (one_file "data/articles/feed.json"
             (batch_doc [Storage.article_dict blank_category_article])) 0 = Ok m ∧
        Article.category blank_category_article = Some ""%string ∧
        m !! ""%string = None ∧
        m !! "uncategorized"%string = Some [blank_category_article]) ∧
  Aggregator.get_articles_by_category "data/articles" (λ _, None) (λ _, None)
    (one_file "data/articles/feed.json"
       (batch_doc [Storage.article_dict later_article; Storage.article_dict aware_article])) 0
  = Raise "TypeError".
Proof.
  split; [| by vm_compute].
  eexists. split_and!; [reflexivity | reflexivity | by vm_compute | by vm_compute].
Qed.

(** ** The keyword heuristic (categorizer.py) *)

Section KeywordScores.
Import Categorizer.
Local Open Scope Q_scope.

Lemma of_nat_S n : of_nat (S n) == 1 + of_nat n.
Proof.
  unfold of_nat. rewrite Nat2Z.inj_succ, <- Z.add_1_l, inject_Z_plus. reflexivity.
Qed.

Lemma of_nat_nonneg n : 0 <= of_nat n.
Proof.
  unfold of_nat. change 0 with (inject_Z 0). rewrite <- Zle_Qle. lia.
Qed.

(** Over the rationals [min(a, b)] is the minimum. *)
Lemma py_min_Qmin (a b : Q) : py_min a b = Qmin a b.
Proof.
  unfold py_min, Qmin, GenericMinMax.gmin. cbn [flt rational].
  destruct (Qle_bool a b) eqn:Hle; cbn [negb].
  - apply Qle_bool_iff in Hle. rewrite Qle_alt in Hle. by destruct (a ?= b).
  - destruct (a ?= b) eqn:Hc; [| | done]; exfalso;
      apply not_true_iff_false in Hle; apply Hle, Qle_bool_iff; rewrite Qle_alt;
      by rewrite Hc.
Qed.

Lemma keyword_loop_closed text_lower keywords : ∀ init,
  foldl (λ score keyword,
           if Str.contains keyword text_lower then score + (2 # 10) else score)
        init keywords
  == init + (2 # 10) * of_nat (matching text_lower keywords).
Proof.
  induction keywords as [| kw kws IH]; intros init.
  - change (matching text_lower []) with 0%nat. change (of_nat 0) with 0. cbn [foldl]. ring.
  - cbn [foldl]. rewrite IH. unfold matching. rewrite filter_cons.
    destruct (Str.contains kw text_lower) eqn:Hc.
    + rewrite decide_True by done. cbn [length]. rewrite of_nat_S. ring.
    + rewrite decide_False by done. reflexivity.
Qed.

Lemma keyword_score_closed text_lower keywords :
  keyword_score text_lower keywords
  == (1 # 10) + (2 # 10) * of_nat (matching text_lower keywords).
Proof. apply keyword_loop_closed. Qed.

Lemma capped_score_closed text_lower category :
  capped_score text_lower category
  == Qmin ((1 # 10) + (2 # 10) * of_nat (matching text_lower (keywords_of category))) 1.
Proof.
  unfold capped_score. rewrite py_min_Qmin. apply Q.min_compat; [| reflexivity].
  apply keyword_score_closed.
Qed.

Lemma capped_score_bounds text_lower category :
  1 # 10 <= capped_score text_lower category <= 1.
Proof.
  rewrite capped_score_closed. split.
  - apply Q.min_glb; [| lra].
    pose proof (of_nat_nonneg (matching text_lower (keywords_of category))) as Hn. lra.
  - apply Q.le_min_r.
Qed.

End KeywordScores.

Section ScoreDictionary.
Import Categorizer.

Lemma elem_of_first_occurrences c l : c ∈ first_occurrences l ↔ c ∈ l.
Proof.
  induction l as [| x l IH]; [done |]. cbn [first_occurrences].
  rewrite !elem_of_cons, list_elem_of_filter, IH.
  destruct (decide (c = x)); tauto.
Qed.

Context (f : string → Q).
Let item (c : string) : string * Q := (c, f c).

Lemma dict_set_present c keys :
  c ∈ keys → dict_set c (f c) (item <$> keys) = item <$> keys.
Proof.
  induction keys as [| k keys IH]; intros Hin; [by apply elem_of_nil in Hin |].
  rewrite fmap_cons. cbn [dict_set item]. destruct (String.eqb c k) eqn:Hk.
  - apply String.eqb_eq in Hk. by subst.
  - apply String.eqb_neq in Hk. apply elem_of_cons in Hin as [? | Hin]; [done |].
    fold (item k). by rewrite IH.
Qed.

Lemma dict_set_absent c keys :
  c ∉ keys → dict_set c (f c) (item <$> keys) = item <$> (keys ++ [c]).
Proof.
  induction keys as [| k keys IH]; intros Hin; [done |].
  rewrite fmap_cons. cbn [dict_set item]. apply not_elem_of_cons in Hin as [Hk Hin].
  apply String.eqb_neq in Hk. rewrite Hk. fold (item k). by rewrite IH.
Qed.

Lemma score_loop_items (l : list string) : ∀ keys,
  foldl (λ scores category, dict_set category (f category) scores) (item <$> keys) l
  = item <$> (keys ++ filter (λ y, y ∉ keys) (first_occurrences l)).
Proof.
  induction l as [| c l IH]; intros keys.
  - cbn. by rewrite app_nil_r.
  - cbn [foldl first_occurrences]. rewrite filter_cons.
    destruct (decide (c ∈ keys)) as [Hin | Hin].
    + rewrite dict_set_present by done. rewrite IH.
      rewrite decide_False by (by intros ?). do 2 f_equal.
      rewrite list_filter_filter. apply list_filter_iff. intros y. split; [| tauto].
      intros Hy. split; [done | by intros ->].
    + rewrite dict_set_absent by done. rewrite IH.
      rewrite decide_True by done. rewrite <- app_assoc. do 2 f_equal. cbn [app]. f_equal.
      rewrite list_filter_filter. apply list_filter_iff. intros y.
      rewrite not_elem_of_app, list_elem_of_singleton. tauto.
Qed.

End ScoreDictionary.

Section Normalisation.
Import Categorizer.
Local Open Scope Q_scope.

Lemma capped_scores_items text categories :
  capped_scores text categories
  = (λ c, (c, capped_score (Str.lower text) c)) <$> first_occurrences categories.
Proof.
  unfold capped_scores.
  pose proof (score_loop_items (capped_score (Str.lower text)) categories []) as Hloop.
  cbn [fmap list_fmap app] in Hloop. cbv zeta. rewrite Hloop. clear Hloop.
  f_equal. induction (first_occurrences categories) as [| c l IH]; [done |].
  rewrite filter_cons, decide_True by apply not_elem_of_nil. by rewrite IH.
Qed.

Lemma sum_loop (l : list Q) : ∀ a, foldl Qplus a l == a + foldl Qplus 0 l.
Proof.
  induction l as [| v l IH]; intros a; cbn [foldl].
  - ring.
  - rewrite (IH (a + v)), (IH (0 + v)). ring.
Qed.

Lemma sum_positive (l : list Q) :
  l ≠ [] → Forall (λ v, 0 < v) l → 0 < foldl Qplus 0 l.
Proof.
  intros Hne Hpos. destruct Hpos as [| v l Hv Hl]; [done |]. clear Hne.
  cbn [foldl]. rewrite sum_loop.
  assert (0 <= foldl Qplus 0 l); [| lra].
  induction Hl as [| w l Hw _ IH]; cbn [foldl]; [lra |]. rewrite sum_loop. lra.
Qed.

Lemma sum_divided (l : list Q) (t : Q) :
  foldl Qplus 0 ((λ v, v / t) <$> l) == foldl Qplus 0 l / t.
Proof.
  induction l as [| v l IH].
  - cbn. unfold Qdiv. ring.
  - rewrite fmap_cons. cbn [foldl]. rewrite sum_loop, IH, (sum_loop l (0 + v)).
    unfold Qdiv. ring.
Qed.

Lemma capped_total_positive text categories :
  categories ≠ [] → 0 < sum_values (capped_scores text categories).
Proof.
  intros Hne. unfold sum_values. rewrite capped_scores_items, <- list_fmap_compose.
  apply sum_positive.
  - destruct categories; [done |]. done.
  - apply Forall_fmap, Forall_forall. intros c _. cbn.
    pose proof (capped_score_bounds (Str.lower text) c) as [Hlo _].
    lra.
Qed.

(** The result of the heuristic: every candidate, in the order of first
    occurrence, with its capped score divided by the total. *)
Lemma fallback_items text categories :
  categories ≠ [] →
  _fallback_categorize text categories
  = (λ c, (c, capped_score (Str.lower text) c / sum_values (capped_scores text categories)))
    <$> first_occurrences categories.
Proof.
  intros Hne. unfold _fallback_categorize.
  pose proof (capped_total_positive text categories Hne) as Hpos.
  cbn [flt f0 fdiv rational].
  destruct (Qle_bool _ 0) eqn:Hle.
  - apply Qle_bool_iff in Hle. lra.
  - cbn [negb]. rewrite capped_scores_items at 1. by rewrite <- list_fmap_compose.
Qed.

(** C6. For a non-empty list of candidates, the scores that
    [_fallback_categorize] returns are all non-negative and sum to 1
    (exactly, over the rationals that model the floats). *)
Theorem fallback_scores_sum_to_one text categories :
  categories ≠ [] →
  sum_values (_fallback_categorize text categories) == 1 ∧
  Forall (λ kv, 0 <= kv.2) (_fallback_categorize text categories).
Proof.
  intros Hne. pose proof (capped_total_positive text categories Hne) as Hpos.
  split.
  - unfold sum_values at 1. rewrite (fallback_items text categories Hne).
    rewrite <- list_fmap_compose.
    change (snd ∘ _) with
      ((λ v, v / sum_values (capped_scores text categories))
       ∘ (snd ∘ (λ c, (c, capped_score (Str.lower text) c)))).
    rewrite list_fmap_compose, sum_divided, list_fmap_compose, <- capped_scores_items.
    change (foldl Qplus 0 (capped_scores text categories).*2)
      with (sum_values (capped_scores text categories)).
    field. lra.
  - rewrite (fallback_items text categories Hne).
    apply Forall_fmap, Forall_forall. intros c _. cbn.
    pose proof (capped_score_bounds (Str.lower text) c) as [Hlo _].
    apply Qle_shift_div_l; [done | lra].
Qed.

End Normalisation.

Lemma fallback_scores_sum_to_one_witness :
  (Categorizer.sum_values
     (Categorizer._fallback_categorize "The BANK raised money for an AI startup"
        ["tech"; "finance"; "health"]%string) == 1)%Q ∧
  Forall (λ kv, (0 <= kv.2)%Q)
    (Categorizer._fallback_categorize "The BANK raised money for an AI startup"
       ["tech"; "finance"; "health"]%string).
Proof.
  apply (fallback_scores_sum_to_one "The BANK raised money for an AI startup"
           ["tech"; "finance"; "health"]%string).
  discriminate.
Defined.

Section Choice.
Import Categorizer.
Local Open Scope Q_scope.

Lemma filter_split {A} (P : A → Prop) `{∀ x, Decision (P x)} (l : list A) : ∀ pre b post,
  filter P l = pre ++ b :: post →
  ∃ l1 l2, l = l1 ++ b :: l2 ∧ filter P l1 = pre ∧ filter P l2 = post ∧ P b.
Proof.
  induction l as [| y l IH]; intros pre b post Heq.
  - by destruct pre.
  - rewrite filter_cons in Heq. destruct (decide (P y)) as [Hy | Hy].
    + destruct pre as [| a pre]; simplify_eq/=.
      * exists [], l. by rewrite app_nil_l.
      * destruct (IH _ _ _ H1) as (l1 & l2 & -> & <- & <- & Hb).
        exists (a :: l1), l2. rewrite filter_cons, decide_True by done. done.
    + destruct (IH _ _ _ Heq) as (l1 & l2 & -> & <- & <- & Hb).
      exists (y :: l1), l2. rewrite filter_cons, decide_False by done. done.
Qed.

(** A split of the keys at [b] gives a split of the candidate list at the
    first occurrence of [b]. *)
Lemma first_occurrences_split (l : list string) : ∀ pre b post,
  first_occurrences l = pre ++ b :: post →
  ∃ pre' post', l = pre' ++ b :: post' ∧ (b ∉ pre') ∧
    (∀ c, c ∈ pre' → c ∈ pre) ∧ (∀ c, c ∈ post' → c ∈ pre ∨ c = b ∨ c ∈ post).
Proof.
  induction l as [| x l IH]; intros pre b post Heq.
  - by destruct pre.
  - cbn [first_occurrences] in Heq. destruct pre as [| a pre]; simplify_eq/=.
    + exists [], l. split_and!; [done | apply not_elem_of_nil | intros c []%elem_of_nil |].
      intros c Hc. destruct (decide (c = b)) as [| Hne]; [by auto |].
      right; right. apply list_elem_of_filter.
      split; [done | by apply elem_of_first_occurrences].
    + apply filter_split in H0 as (l1 & l2 & Hl & <- & <- & Hb).
      destruct (IH _ _ _ Hl) as (p' & q' & -> & Hnotin & Hp & Hq).
      exists (a :: p'), q'. split_and!; [done | | |].
      * apply not_elem_of_cons. done.
      * intros c [-> | Hc]%elem_of_cons; [left |].
        destruct (decide (c = a)) as [-> | Hne]; [left |].
        right. apply list_elem_of_filter. auto.
      * intros c Hc. destruct (decide (c = a)) as [-> | Hne]; [left; left |].
        destruct (Hq c Hc) as [? | [? | ?]]; [left; right | by auto | right; right];
          apply list_elem_of_filter; auto.
Qed.

Context (f : string → Q).

Lemma max_from_split (ks : list string) : ∀ b p s,
  (∀ c, c ∈ p → f c < f b) → (∀ c, c ∈ s → f c <= f b) →
  ∃ pre post,
    p ++ b :: s ++ ks = pre ++ max_from (b, f b) ((λ c, (c, f c)) <$> ks) :: post ∧
    (∀ c, c ∈ pre → f c < f (max_from (b, f b) ((λ c, (c, f c)) <$> ks))) ∧
    (∀ c, c ∈ post → f c <= f (max_from (b, f b) ((λ c, (c, f c)) <$> ks))).
Proof.
  induction ks as [| k ks IH]; intros b p s Hp Hs.
  - exists p, s. by rewrite app_nil_r.
  - rewrite fmap_cons. cbn [max_from snd flt rational].
    destruct (Qle_bool (f k) (f b)) eqn:Hle; cbn [negb].
    + apply Qle_bool_iff in Hle.
      destruct (IH b p (s ++ [k])) as (pre & post & Heq & Hpre & Hpost); [done | |].
      * intros c [Hc | ->%list_elem_of_singleton]%elem_of_app; auto.
      * exists pre, post. split; [| done]. rewrite <- Heq, <- app_assoc. done.
    + assert (Hlt : f b < f k).
      { apply Qnot_le_lt. intros Hle'%Qle_bool_iff. congruence. }
      destruct (IH k (p ++ b :: s) []) as (pre & post & Heq & Hpre & Hpost).
      * intros c [Hc | [-> | Hc]%elem_of_cons]%elem_of_app; [| done |].
        -- specialize (Hp c Hc). lra.
        -- specialize (Hs c Hc). lra.
      * intros c []%elem_of_nil.
      * exists pre, post. split; [| done]. rewrite <- Heq, <- app_assoc. done.
Qed.

(** [max_key] on a dictionary whose values are given by [f]: the chosen key
    splits the candidates at its first occurrence, with strictly smaller
    scores before and no greater score after. *)
Lemma max_key_first_greatest (categories : list string) :
  categories ≠ [] →
  ∃ best pre post,
    max_key ((λ c, (c, f c)) <$> first_occurrences categories) = Ok best ∧
    categories = pre ++ best :: post ∧ (best ∉ pre) ∧
    (∀ c, c ∈ pre → f c < f best) ∧ (∀ c, c ∈ post → f c <= f best).
Proof.
  intros Hne. destruct categories as [| c0 cs]; [done |].
  cbn [first_occurrences]. rewrite fmap_cons. cbn [max_key].
  set (ks := filter (λ y, y ≠ c0) (first_occurrences cs)).
  destruct (max_from_split ks c0 [] []) as (pre & post & Heq & Hpre & Hpost);
    [intros c []%elem_of_nil | intros c []%elem_of_nil |].
  set (best := max_from (c0, f c0) ((λ c, (c, f c)) <$> ks)) in *.
  cbn [app] in Heq.
  destruct (first_occurrences_split (c0 :: cs) pre best post) as (p' & q' & Hcs & Hnotin & Hp & Hq);
    [done |].
  exists best, p', q'. split_and!; [done | done | done | by auto |].
  intros c Hc. destruct (Hq c Hc) as [Hc' | [-> | Hc']]; [| lra | by auto].
  specialize (Hpre c Hc'). lra.
Qed.

End Choice.

Section Heuristic.
Import Categorizer.
Local Open Scope Q_scope.

(** C5. For a non-empty list of candidates the heuristic gives every
    candidate, before normalisation, 0.1 plus 0.2 for each keyword of its
    keyword set that occurs in the lower-cased text, capped at 1; it then
    divides every score by their total, so that they sum to 1; and
    [categorize_article] picks a candidate of greatest score, the first
    listed among those of greatest score. *)
Theorem fallback_categorization (text : string) (categories self_categories : list string) :
  categories ≠ [] →
  capped_scores text categories
    = (λ c, (c, capped_score (Str.lower text) c)) <$> first_occurrences categories ∧
  (∀ c, capped_score (Str.lower text) c
        == Qmin ((1 # 10) + (2 # 10) * of_nat (matching (Str.lower text) (keywords_of c))) 1) ∧
  _fallback_categorize text categories
    = (λ c, (c, final_score text categories c)) <$> first_occurrences categories ∧
  sum_values (_fallback_categorize text categories) == 1 ∧
  ∃ best pre post,
    categorize_article _fallback_categorize self_categories text (Some categories) = Ok best ∧
    categories = pre ++ best :: post ∧ (best ∉ pre) ∧
    (∀ c, c ∈ pre → final_score text categories c < final_score text categories best) ∧
    (∀ c, c ∈ post → final_score text categories c <= final_score text categories best).
Proof.
  intros Hne. split_and!.
  - apply capped_scores_items.
  - apply capped_score_closed.
  - by apply fallback_items.
  - by apply fallback_scores_sum_to_one.
  - unfold categorize_article.
    assert (Hor : or_else (Some categories) self_categories = categories)
      by (by destruct categories).
    rewrite Hor, (fallback_items text categories Hne).
    apply (max_key_first_greatest (final_score text categories) categories Hne).
Qed.

End Heuristic.

Lemma fallback_categorization_witness :
  let text := "The BANK raised money for an AI startup"%string in
  let categories := ["health"; "tech"; "finance"; "tech"]%string in
  Categorizer.capped_scores text categories
    = (λ c, (c, Categorizer.capped_score (Str.lower text) c)) <$> first_occurrences categories ∧
  (∀ c, (Categorizer.capped_score (Str.lower text) c
        == Qmin ((1 # 10) + (2 # 10)
                 * of_nat (matching (Str.lower text) (Categorizer.keywords_of c))) 1)%Q) ∧
  Categorizer._fallback_categorize text categories
    = (λ c, (c, final_score text categories c)) <$> first_occurrences categories ∧
  (Categorizer.sum_values (Categorizer._fallback_categorize text categories) == 1)%Q ∧
  ∃ best pre post,
    Categorizer.categorize_article Categorizer._fallback_categorize [] text (Some categories)
      = Ok best ∧
    categories = pre ++ best :: post ∧ (best ∉ pre) ∧
    (∀ c, c ∈ pre → (final_score text categories c < final_score text categories best)%Q) ∧
    (∀ c, c ∈ post → (final_score text categories c <= final_score text categories best)%Q).
Proof.
  apply (fallback_categorization "The BANK raised money for an AI startup"
           ["health"; "tech"; "finance"; "tech"]%string []).
  discriminate.
Defined.

(** On a tie the first listed candidate wins; a keyword counts once however
    often it occurs. *)
Example categorize_tie :
  Categorizer.categorize_article Categorizer._fallback_categorize []
    "The BANK raised money for an AI startup"
    (Some ["health"; "tech"; "finance"; "tech"]%string)
  = Ok "tech"%string.
Proof. vm_compute. reflexivity. Qed.

Example keyword_counts_once :
  Categorizer.capped_scores "money money money" ["finance"%string]
  = Categorizer.capped_scores "money" ["finance"%string].
Proof. vm_compute. reflexivity. Qed.

(** A candidate without a keyword set is its own keyword, lower-cased; the
    text is lower-cased too, accented capitals included. *)
Example categorize_accented_capital :
  Categorizer._fallback_categorize ("L'" +:+ upper_economie +:+ " ralentit")
    ["sport"%string; economie]
  = [("sport"%string, (1 # 10) / ((1 # 10) + ((1 # 10) + (2 # 10))));
     (economie, ((1 # 10) + (2 # 10)) / ((1 # 10) + ((1 # 10) + (2 # 10))))]%Q
  ∧ Categorizer.categorize_article Categorizer._fallback_categorize []
      ("L'" +:+ upper_economie +:+ " ralentit") (Some ["sport"%string; economie])
    = Ok economie.
Proof. split; vm_compute; reflexivity. Qed.

(** The scores of an example before normalisation. *)
Example fallback_scores_example :
  Categorizer.capped_scores "The BANK raised money for an AI startup" ["tech"; "finance"; "health"]%string
  = [("tech"%string, (1#10) + (2#10) + (2#10))%Q; ("finance"%string, (1#10) + (2#10) + (2#10))%Q;
     ("health"%string, 1#10)].
Proof. vm_compute. reflexivity. Qed.

(** ** Scraping a feed (rss_scraper.py) *)

Section FeedScraper.
Import Datetime Py Article Rss.
Variable source_name : string.
Variable category : string.
Variable max_articles : Z.
Variable date_parse : string → option datetime.
Variable fetch_full_content : string → option string.
Variable html_text : string → string.

Local Abbreviation parse_entry := (_parse_entry source_name category date_parse fetch_full_content html_text).
Local Abbreviation scrape_from := (scrape_loop source_name category date_parse fetch_full_content html_text).

Lemma parse_entry_malformed now entry : malformed entry → parse_entry now entry = Ok None.
Proof.
  unfold _parse_entry. intros [-> | Hl]; [done |].
  destruct (Str.truthy (Str.strip (default ""%string (e_title entry)))); [| done].
  by rewrite Hl.
Qed.

Lemma truthy_false s : Str.truthy s = false → s = ""%string.
Proof. by destruct s. Qed.

(** The article of an entry carries its title and link, and the source and
    category of the scraper. *)
Lemma article_of_fields entry article :
  article_of source_name category date_parse fetch_full_content html_text entry article →
  title article = Str.strip (default ""%string (e_title entry)) ∧
  title article ≠ ""%string ∧
  url article = Str.strip (default ""%string (e_link entry)) ∧
  url article ≠ ""%string ∧
  source article = source_name ∧ Article.category article = Some category.
Proof.
  intros [now Hp]. unfold _parse_entry in Hp.
  destruct (Str.truthy (Str.strip (default ""%string (e_title entry)))) eqn:Ht; [| done].
  destruct (Str.truthy (Str.strip (default ""%string (e_link entry)))) eqn:Hu; [| done].
  cbn [negb] in Hp.
  match type of Hp with (?m ≫= _) = _ => destruct m as [p |]; [| done] end.
  cbn [mbind exn_mbind exn_bind] in Hp.
  match type of Hp with (?m ≫= _) = _ => destruct m as [tg |]; [| done] end.
  cbn [mbind exn_mbind exn_bind] in Hp. injection Hp as <-. cbn.
  split_and!; try done.
  - intros Heq. by rewrite Heq in Ht.
  - intros Heq. by rewrite Heq in Hu.
Qed.

Lemma validate_terms_ok (tags : list (option (option string))) :
  Forall (λ t, t ≠ Some None) tags → ∃ terms, validate_terms (omap id tags) = Ok terms.
Proof.
  unfold validate_terms. induction 1 as [| t tags Ht _ [terms IH]]; [by exists [] |].
  destruct t as [[term |] |]; cbn; [| done | by eauto].
  rewrite IH. cbn. eauto.
Qed.

(** An entry with a title and a link, a date that the calendar has and no
    tag without a term is one that [_parse_entry] makes an article of. *)
Lemma parse_entry_valid now entry :
  Str.strip (default ""%string (e_title entry)) ≠ ""%string →
  Str.strip (default ""%string (e_link entry)) ≠ ""%string →
  match e_published_parsed entry with
  | Some (y, m, d, hh, mi, ss) => valid (mk_datetime y m d hh mi ss 0 None) = true
  | None => True
  end →
  match e_tags entry with
  | Some tags => Forall (λ t, t ≠ Some None) tags
  | None => True
  end →
  ∃ a, parse_entry now entry = Ok (Some a).
Proof.
  intros Ht Hu Hd Htags. unfold _parse_entry.
  destruct (Str.truthy (Str.strip (default ""%string (e_title entry)))) eqn:Et;
    [| by apply truthy_false in Et].
  destruct (Str.truthy (Str.strip (default ""%string (e_link entry)))) eqn:Eu;
    [| by apply truthy_false in Eu].
  cbn [negb].
  assert (Hp : ∃ p, match e_published_parsed entry with
                    | Some t => d ← datetime_of_tuple t; Ok (Some d)
                    | None =>
                        match e_published entry with
                        | Some text => Ok (date_parse text)
                        | None => Ok None
                        end
                    end = Ok p).
  { destruct (e_published_parsed entry) as [[[[[[y m] d] hh] mi] ss] |].
    - unfold datetime_of_tuple. rewrite Hd. cbn. eauto.
    - destruct (e_published entry); eauto. }
  destruct Hp as [p ->]. cbn [mbind exn_mbind exn_bind].
  assert (Hv : ∃ terms, validate_terms match e_tags entry with
                                       | Some tags => omap id tags
                                       | None => []
                                       end = Ok terms).
  { destruct (e_tags entry); [by apply validate_terms_ok | by exists []]. }
  destruct Hv as [terms ->]. cbn. eauto.
Qed.

Lemma scrape_loop_acc clock entries : ∀ i articles,
  scrape_from clock i articles entries = articles ++ scrape_from clock i [] entries.
Proof.
  induction entries as [| e l IH]; intros i articles; cbn [scrape_loop].
  - by rewrite app_nil_r.
  - rewrite (IH (S i) (scrape_entry _ _ _ _ _ _ articles e)),
      (IH (S i) (scrape_entry _ _ _ _ _ _ [] e)).
    unfold scrape_entry. destruct (parse_entry (clock i) e) as [[a |] |];
      cbn [app]; by rewrite <- ?app_assoc.
Qed.

(** Whatever the first entries do, the later ones are processed. *)
Lemma scrape_loop_app clock l1 l2 : ∀ i,
  scrape_from clock i [] (l1 ++ l2)
  = scrape_from clock i [] l1 ++ scrape_from clock (i + length l1) [] l2.
Proof.
  induction l1 as [| e l1 IH]; intros i.
  - cbn. by rewrite Nat.add_0_r.
  - cbn [app scrape_loop length]. rewrite scrape_loop_acc, IH.
    rewrite (scrape_loop_acc clock l1 (S i) (scrape_entry _ _ _ _ _ _ [] e)).
    rewrite <- app_assoc. do 3 f_equal. lia.
Qed.

(** An entry that is skipped, or whose parsing raises, adds nothing. *)
Lemma scrape_loop_skip clock i entry rest :
  (parse_entry (clock i) entry = Ok None ∨ ∃ e, parse_entry (clock i) entry = Raise e) →
  scrape_from clock i [] (entry :: rest) = scrape_from clock (S i) [] rest.
Proof. cbn [scrape_loop]. unfold scrape_entry. by intros [-> | [e ->]]. Qed.

Lemma scrape_loop_valid clock entries : ∀ i,
  (∀ j entry, entries !! j = Some entry →
     ∃ a, parse_entry (clock (i + j)%nat) entry = Ok (Some a)) →
  Forall2 (article_of source_name category date_parse fetch_full_content html_text) entries (scrape_from clock i [] entries).
Proof.
  induction entries as [| e l IH]; intros i Hall; [constructor |].
  cbn [scrape_loop]. rewrite scrape_loop_acc.
  destruct (Hall 0%nat e eq_refl) as [a Ha]. rewrite Nat.add_0_r in Ha.
  unfold scrape_entry. rewrite Ha. cbn [app]. constructor; [by exists (clock i) |].
  apply IH. intros j entry Hj. destruct (Hall (S j) entry Hj) as [a' Ha'].
  exists a'. by replace (S i + j)%nat with (i + S j)%nat by lia.
Qed.

(** C7. When one of the first [max_articles] entries of a feed has no title
    or no link and the others are entries that [_parse_entry] makes an
    article of, [scrape_articles] returns the articles of the others, in
    order: one for each of the N-1 entries, none for the malformed one. *)
Theorem scrape_articles_skips_malformed (entries before after : list Entry) (bad : Entry)
    (clock : nat → datetime) :
  slice_to max_articles entries = before ++ bad :: after →
  malformed bad →
  (∀ j entry, before !! j = Some entry →
     ∃ a, parse_entry (clock j) entry = Ok (Some a)) →
  (∀ j entry, after !! j = Some entry →
     ∃ a, parse_entry (clock (S (length before + j))) entry = Ok (Some a)) →
  ∃ articles_before articles_after,
    scrape_articles source_name category max_articles date_parse fetch_full_content
      html_text (Ok entries) clock = articles_before ++ articles_after ∧
    Forall2 (article_of source_name category date_parse fetch_full_content html_text) before articles_before ∧
    Forall2 (article_of source_name category date_parse fetch_full_content html_text) after articles_after ∧
    S (length (articles_before ++ articles_after))
    = length (slice_to max_articles entries).
Proof.
  intros Hsplit Hbad Hbefore Hafter. unfold scrape_articles. rewrite Hsplit.
  rewrite scrape_loop_app. cbn [Nat.add].
  rewrite scrape_loop_skip by (left; by apply parse_entry_malformed).
  assert (H1 : Forall2 (article_of source_name category date_parse fetch_full_content html_text) before (scrape_from clock 0%nat [] before))
    by (by apply scrape_loop_valid).
  assert (H2 : Forall2 (article_of source_name category date_parse fetch_full_content html_text) after (scrape_from clock (S (length before)) [] after)).
  { apply scrape_loop_valid. intros j entry Hj. by apply Hafter. }
  eexists _, _. split_and!; [reflexivity | done | done |].
  rewrite !length_app. cbn [length].
  apply Forall2_length in H1, H2. lia.
Qed.

End FeedScraper.

Lemma scrape_articles_skips_malformed_witness :
  ∃ articles_before articles_after,
    sample_scrape [good_entry_1; no_link_entry; good_entry_2]
      = articles_before ++ articles_after ∧
    Forall2 (article_of "Example Feed" "finance" (λ _, None) (λ _, None) (λ s, s))
      [good_entry_1] articles_before ∧
    Forall2 (article_of "Example Feed" "finance" (λ _, None) (λ _, None) (λ s, s))
      [good_entry_2] articles_after ∧
    S (length (articles_before ++ articles_after))
    = length (Py.slice_to 10 [good_entry_1; no_link_entry; good_entry_2]).
Proof.
  apply (scrape_articles_skips_malformed "Example Feed" "finance" 10 (λ _, None) (λ _, None)
           (λ s, s) [good_entry_1; no_link_entry; good_entry_2]
           [good_entry_1] [good_entry_2] no_link_entry (λ _, sample_time)).
  - reflexivity.
  - right. reflexivity.
  - intros [| j] entry Hj; [| done]. injection Hj as <-. eexists. reflexivity.
  - intros [| j] entry Hj; [| done]. injection Hj as <-. eexists. reflexivity.
Defined.

(** Five entries, one without a link: four articles. *)
Example scrape_five_entries :
  length (sample_scrape [good_entry_1; good_entry_2; no_link_entry; good_entry_1; good_entry_2])
  = 4%nat.
Proof. reflexivity. Qed.

(** An entry whose parsing raises is skipped like a malformed one. *)
Example scrape_raising_entry :
  Article.title <$> sample_scrape [good_entry_1; bad_date_entry; good_entry_2]
  = ["First"%string; "Second"%string].
Proof. reflexivity. Qed.

(** A title that is a no-break space is blank once stripped: no article. *)
Example scrape_blank_title_entry :
  Article.title <$> sample_scrape [good_entry_1; blank_title_entry; good_entry_2]
  = ["First"%string; "Second"%string].
Proof. reflexivity. Qed.

(** ** Processing an article (processor.py) *)

Section ProcessArticle.
Import Datetime Processor.
Variable summarizer : option (string → Z → exn string).
Variable categorizer : option (string → exn string).

Lemma enriched_copy_update h p a h' f :
  (∀ x, same_scraped_fields x (f x)) →
  enriched_copy h p a h' → enriched_copy h p a (update f p h').
Proof.
  intros Hf [Hframe (a' & Hp & Ha')]. split.
  - intros l Hl. unfold update. rewrite lookup_alter_ne by done. by apply Hframe.
  - exists (f a'). unfold update. rewrite lookup_alter_eq, Hp. split; [done |].
    destruct (Hf a') as (?&?&?&?&?&?&?&?), Ha' as (?&?&?&?&?&?&?&?).
    unfold same_scraped_fields. split_and!; congruence.
Qed.

Lemma enriched_copy_summarization h p a h' article summarize max_summary_length :
  enriched_copy h p a h' →
  enriched_copy h p a
    (summarization summarizer h' article p summarize max_summary_length).1.
Proof.
  intros Hc. unfold summarization. destruct summarize, summarizer as [summ |]; try done.
  destruct (_ ≫= _) as [s |]; [| done]. cbn [fst].
  apply enriched_copy_update; [| done]. by intros [].
Qed.

Lemma enriched_copy_categorization h p a h' article categorize :
  enriched_copy h p a h' →
  enriched_copy h p a (categorization categorizer h' article p categorize).
Proof.
  intros Hc. unfold categorization. destruct categorize, categorizer as [cat |]; try done.
  destruct (_ ≫= _) as [c |]; [| done].
  apply enriched_copy_update; [| done]. by intros [].
Qed.

(** C2. [process_article] leaves the article it is given as it was: the
    call returns a new object, every object of the store before the call
    (the article and its list of tags among them) is unchanged after it,
    and the object returned has the fields of the article, [summary] and
    [category] apart. *)
Theorem process_article_preserves_original (h : gmap loc obj) (article : loc)
    (a : article_obj) (summarize categorize : bool) (max_summary_length : Z) :
  h !! article = Some (ObjArticle a) →
  ∃ h' processed a',
    process_article summarizer categorizer h article summarize categorize
      max_summary_length = Ok (h', processed) ∧
    h !! processed = None ∧
    (∀ l, is_Some (h !! l) → h' !! l = h !! l) ∧
    h' !! article = Some (ObjArticle a) ∧
    h' !! processed = Some (ObjArticle a') ∧
    o_title a' = o_title a ∧ o_url a' = o_url a ∧ o_body a' = o_body a ∧
    o_source a' = o_source a ∧ o_published_at a' = o_published_at a ∧
    o_scraped_at a' = o_scraped_at a ∧ o_author a' = o_author a ∧
    o_tags a' = o_tags a.
Proof.
  intros Ha. unfold process_article, model_copy, read. rewrite Ha.
  cbn [mbind exn_mbind exn_bind].
  set (p := fresh (dom h)).
  assert (Hfresh : h !! p = None) by (apply not_elem_of_dom, is_fresh).
  assert (H0 : enriched_copy h p a (<[p := ObjArticle a]> h)).
  { split; [intros l Hl; by rewrite lookup_insert_ne |].
    exists a. rewrite lookup_insert_eq. by repeat split. }
  pose proof (enriched_copy_summarization h p a _ article summarize max_summary_length H0)
    as H1.
  destruct (summarization _ _ _ _ _ _) as [h1 raised]. cbn [fst] in H1.
  assert (H2 : enriched_copy h p a
                 (if raised then h1 else categorization categorizer h1 article p categorize)).
  { destruct raised; [done |]. by apply enriched_copy_categorization. }
  destruct H2 as [Hframe (a' & Hp & Hsame)].
  assert (Hold : ∀ l, is_Some (h !! l) → l ≠ p).
  { intros l [o Ho] ->. congruence. }
  eexists _, p, a'. split; [reflexivity |]. split; [done |]. split.
  { intros l Hl. apply Hframe. by apply Hold. }
  split. { rewrite Hframe by (apply Hold; eauto). done. }
  split; [done |]. exact Hsame.
Qed.

End ProcessArticle.

Lemma process_article_preserves_original_witness :
  ∃ h' processed a',
    Processor.process_article sample_summarizer sample_categorizer sample_store 2%positive
      true true 200 = Ok (h', processed) ∧
    sample_store !! processed = None ∧
    (∀ l, is_Some (sample_store !! l) → h' !! l = sample_store !! l) ∧
    h' !! 2%positive = Some (Processor.ObjArticle sample_obj) ∧
    h' !! processed = Some (Processor.ObjArticle a') ∧
    Processor.o_title a' = Processor.o_title sample_obj ∧
    Processor.o_url a' = Processor.o_url sample_obj ∧
    Processor.o_body a' = Processor.o_body sample_obj ∧
    Processor.o_source a' = Processor.o_source sample_obj ∧
    Processor.o_published_at a' = Processor.o_published_at sample_obj ∧
    Processor.o_scraped_at a' = Processor.o_scraped_at sample_obj ∧
    Processor.o_author a' = Processor.o_author sample_obj ∧
    Processor.o_tags a' = Processor.o_tags sample_obj.
Proof.
  apply (process_article_preserves_original sample_summarizer sample_categorizer
           sample_store 2%positive sample_obj true true 200).
  reflexivity.
Defined.

(** The copy gets the summary and the category; the original keeps none. *)
Example process_article_example :
  match Processor.process_article sample_summarizer sample_categorizer sample_store
          2%positive true true 200 with
  | Ok (h', processed) =>
      (Processor.read h' processed ≫= λ a, Ok (Processor.o_summary a, Processor.o_category a),
       Processor.read h' 2%positive ≫= λ a, Ok (Processor.o_summary a, Processor.o_category a))
  | Raise e => (Raise e, Raise e)
  end
  = (Ok (Some "The bank held rates."%string, Some "finance"%string), Ok (None, None)).
Proof. vm_compute. reflexivity. Qed.

(** When the summarizer raises, the block ends: no category is set. *)
Example process_article_summarizer_raises :
  match Processor.process_article (Some (λ _ _, Raise "RuntimeError")) sample_categorizer
          sample_store 2%positive true true 200 with
  | Ok (h', processed) =>
      Processor.read h' processed ≫= λ a, Ok (Processor.o_summary a, Processor.o_category a)
  | Raise e => Raise e
  end
  = Ok (None, None).
Proof. vm_compute. reflexivity. Qed.

(** ** The heuristic on binary64 floats

    The same definitions at the floats of Python: the scores of the example
    are the roundings of 5/11, 5/11 and 1/11, the first of two equal scores
    still wins, and over seven candidates the sum is 1 up to rounding. *)

Example fallback_binary64 :
  @Categorizer._fallback_categorize float Categorizer.binary64
    "The BANK raised money for an AI startup" ["tech"; "finance"; "health"]%string
  = [("tech"%string, 0.45454545454545453%float);
     ("finance"%string, 0.45454545454545453%float);
     ("health"%string, 0.090909090909090912%float)].
Proof. vm_compute. reflexivity. Qed.

Example categorize_binary64_tie :
  @Categorizer.categorize_article float Categorizer.binary64
    (@Categorizer._fallback_categorize float Categorizer.binary64) []
    "The BANK raised money for an AI startup"
    (Some ["health"; "tech"; "finance"; "tech"]%string)
  = Ok "tech"%string.
Proof. vm_compute. reflexivity. Qed.

Example fallback_binary64_sum :
  @Categorizer.sum_values float Categorizer.binary64
    (@Categorizer._fallback_categorize float Categorizer.binary64
       "The BANK raised money for an AI startup"
       ["tech"; "finance"; "health"; "sports"; "science"; "politics"; "business"]%string)
  = 0.99999999999999978%float.
Proof. vm_compute. reflexivity. Qed.

(** * Further properties of the code *)

Example clean_url_forms :
  Url.clean_url "//cdn.example.org/a" (Some "https://example.org/"%string)
    = "https://cdn.example.org/a"%string ∧
  Url.clean_url "/news/1" (Some "https://example.org/"%string)
    = "https://example.org/news/1"%string ∧
  Url.clean_url "news/1" (Some "https://example.org//"%string)
    = "https://example.org/news/1"%string ∧
  Url.clean_url "news/1" None = "news/1"%string.
Proof. by vm_compute. Qed.

Example fallback_summarize_examples :
  Summarizer._fallback_summarize "One. Two. Three" 8 = "One."%string ∧
  Summarizer._fallback_summarize "One. Two. Three" 9 = "One. Two."%string ∧
  Summarizer._fallback_summarize "One. Two. Three" 100 = "One. Two. Three."%string ∧
  Summarizer._fallback_summarize "A long first sentence. Two" 10 = ""%string ∧
  Summarizer.split_sentences "" = [""%string].
Proof. by vm_compute. Qed.

(** ** Cleaning a URL (base_scraper.py) *)

Section CleanUrl.
Import Url.

Lemma startswith_app p a x : Str.startswith p a = true → Str.startswith p (a +:+ x) = true.
Proof.
  revert a. induction p as [| c p IH]; intros a Ha; [done |].
  destruct a as [| d a]; [done |]. rewrite append_cons. cbn [Str.startswith] in *.
  destruct (Ascii.eqb c d); [by apply IH | done].
Qed.

Lemma has_scheme_app a x : has_scheme a = true → has_scheme (a +:+ x) = true.
Proof.
  unfold has_scheme. intros [H | H]%orb_true_iff; apply orb_true_iff; [left | right];
    by apply startswith_app.
Qed.

Lemma has_scheme_head s : has_scheme s = true → ∃ t, s = String "h" t.
Proof.
  unfold has_scheme. destruct s as [| c t]; [done |]. cbn [Str.startswith].
  destruct (Ascii.eqb "h" c) eqn:Hc; [| done].
  apply Ascii.eqb_eq in Hc. subst c. eauto.
Qed.

(** A URL with a scheme is left as it is. *)
Lemma clean_url_absolute url base : has_scheme url = true → clean_url url base = url.
Proof.
  intros Hs. destruct (has_scheme_head url Hs) as [t ->].
  unfold clean_url. by rewrite Hs.
Qed.

(** X1. Cleaning a URL twice against a base is cleaning it once, for a base
    that still starts with http:// or https:// once its trailing slashes
    are removed. *)
Theorem clean_url_idempotent (url base : string) :
  has_scheme (rstrip_slash base) = true →
  clean_url (clean_url url (Some base)) (Some base) = clean_url url (Some base).
Proof.
  intros Hb. unfold clean_url at 2 3.
  destruct (Str.startswith "//" url) eqn:H2.
  - apply clean_url_absolute.
    unfold has_scheme. apply orb_true_iff. right.
    rewrite !append_cons, append_empty_l. exact H2.
  - destruct (Str.startswith "/" url && Str.truthy_opt (Some base)) eqn:H1.
    + apply clean_url_absolute. by apply has_scheme_app.
    + destruct (negb (has_scheme url) && Str.truthy_opt (Some base)) eqn:H3.
      * apply clean_url_absolute. by apply has_scheme_app.
      * unfold clean_url. by rewrite H2, H1, H3.
Qed.

Lemma clean_url_idempotent_witness :
  clean_url (clean_url "/news/1" (Some "https://example.org/"%string))
    (Some "https://example.org/"%string)
  = clean_url "/news/1" (Some "https://example.org/"%string).
Proof. apply (clean_url_idempotent "/news/1" "https://example.org/"). reflexivity. Defined.

(** Without the condition on the base a second cleaning goes on. *)
Example clean_url_bare_scheme :
  clean_url "a" (Some "http://"%string) = "http:/a"%string ∧
  clean_url "http:/a" (Some "http://"%string) = "http:/http:/a"%string.
Proof. by vm_compute. Qed.

Lemma lstrip_slash_id p : Str.startswith "/" p = false → lstrip_slash p = p.
Proof.
  destruct p as [| c p]; [done |]. cbn [Str.startswith]. intros Hc.
  destruct (Ascii.eqb "/" c) eqn:E; [done |]. apply Ascii.eqb_neq in E.
  cbn [lstrip_slash]. destruct c as [[] [] [] [] [] [] [] []]; try done.
Qed.

(** X2. Against a base, a path written from the root of the site and the
    same path written without the leading slash give the same URL. *)
Theorem clean_url_leading_slash (path base : string) :
  Str.truthy base = true →
  Str.startswith "/" path = false →
  has_scheme path = false →
  clean_url ("/" +:+ path) (Some base) = clean_url path (Some base).
Proof.
  intros Hb Hp Hs. unfold clean_url. cbn [Str.truthy_opt default]. rewrite Hb, Hs.
  assert (H2 : Str.startswith "//" ("/" +:+ path) = false).
  { change (Str.startswith "//" ("/" +:+ path)) with (Str.startswith "/" path). exact Hp. }
  assert (H2' : Str.startswith "//" path = false).
  { destruct path as [| c p]; [done |]. cbn [Str.startswith] in *.
    by destruct (Ascii.eqb "/" c). }
  rewrite H2, H2', Hp.
  change (Str.startswith "/" ("/" +:+ path)) with true.
  cbn [andb negb]. by rewrite lstrip_slash_id.
Qed.

Lemma clean_url_leading_slash_witness :
  clean_url ("/" +:+ "news/1") (Some "https://example.org/"%string)
  = clean_url "news/1" (Some "https://example.org/"%string).
Proof.
  apply (clean_url_leading_slash "news/1" "https://example.org/"); reflexivity.
Defined.

End CleanUrl.

(** ** The fallback summary (summarizer.py) *)

Section FallbackSummary.
Import Summarizer.

Lemma length_append (a b : string) :
  String.length (a +:+ b) = (String.length a + String.length b)%nat.
Proof. induction a as [| c a IH]; [done |]. rewrite append_cons. simpl. by rewrite IH. Qed.

Lemma append_assoc (a b c : string) : (a +:+ b) +:+ c = a +:+ (b +:+ c).
Proof. induction a as [| d a IH]; [done |]. by rewrite !append_cons, IH. Qed.

Lemma rstrip_length s : (String.length (Str.rstrip s) ≤ String.length s)%nat.
Proof.
  induction s as [| c s IH]; [done |]. cbn [Str.rstrip].
  destruct (Str.rstrip s) as [| d r].
  - destruct (Str.is_space c); simpl; lia.
  - simpl in *. lia.
Qed.

Lemma lstrip_length s : (String.length (Str.lstrip s) ≤ String.length s)%nat.
Proof.
  induction s as [| c s IH]; [done |]. cbn [Str.lstrip].
  destruct (Str.is_space c); simpl; lia.
Qed.

Lemma rstrip_space s : Str.rstrip (s +:+ " ") = Str.rstrip s.
Proof.
  induction s as [| c s IH]; [done |]. rewrite append_cons. cbn [Str.rstrip]. by rewrite IH.
Qed.

Lemma lstrip_space s :
  Str.lstrip (s +:+ " ") = Str.lstrip s +:+ " " ∨ Str.lstrip (s +:+ " ") = ""%string.
Proof.
  induction s as [| c s IH]; [by right |]. rewrite append_cons. cbn [Str.lstrip].
  destruct (Str.is_space c); [done |]. left. by rewrite append_cons.
Qed.

Lemma strip_space_length s :
  (String.length (Str.strip (s +:+ " ")) ≤ String.length s)%nat.
Proof.
  unfold Str.strip. destruct (lstrip_space s) as [-> | ->]; [| simpl; lia].
  rewrite rstrip_space. pose proof (rstrip_length (Str.lstrip s)).
  pose proof (lstrip_length s). lia.
Qed.

(** The summary under construction is empty, or ends in a space that
    follows at most [max_length] characters. *)
Lemma add_sentences_shape max_length sentences : ∀ summary,
  (summary = ""%string ∨
   ∃ t, summary = t +:+ " " ∧ Z.of_nat (String.length t) <= max_length) →
  add_sentences max_length summary sentences = ""%string ∨
  ∃ t, add_sentences max_length summary sentences = t +:+ " "
       ∧ Z.of_nat (String.length t) <= max_length.
Proof.
  induction sentences as [| sentence rest IH]; intros summary Hs; [done |].
  cbn [add_sentences]. destruct (_ <? _) eqn:Hlt; [| done].
  apply Z.ltb_lt in Hlt. apply IH. right. exists ((summary +:+ sentence) +:+ ".").
  split.
  - by rewrite !append_assoc.
  - rewrite length_append. simpl. lia.
Qed.

(** X3. The fallback summary is never longer than [max_length]
    characters (and is empty when [max_length] is not positive). *)
Theorem fallback_summary_length (text : string) (max_length : Z) :
  Z.of_nat (String.length (_fallback_summarize text max_length)) <= Z.max max_length 0.
Proof.
  unfold _fallback_summarize.
  destruct (add_sentences_shape max_length (split_sentences text) ""%string)
    as [-> | (t & -> & Ht)]; [by left | simpl; lia |].
  pose proof (strip_space_length t). lia.
Qed.

Lemma split_from_nonempty text : ∀ current, split_from current text ≠ [].
Proof.
  induction text as [| c text IH]; intros current; [done |].
  destruct c as [[] [] [] [] [] [] [] []];
    try exact (IH (current +:+ String _ EmptyString)).
  destruct text as [| d text]; [done |].
  destruct d as [[] [] [] [] [] [] [] []];
    try exact (IH (current +:+ String _ EmptyString)).
  done.
Qed.

Lemma split_from_cons current text :
  ∃ rest, split_from current text = hd ""%string (split_from current text) :: rest.
Proof.
  pose proof (split_from_nonempty text current) as Hne.
  destruct (split_from current text) as [| s l]; [done | by exists l].
Qed.

Lemma add_sentences_extends max_length sentences : ∀ summary,
  ∃ t, add_sentences max_length summary sentences = summary +:+ t.
Proof.
  induction sentences as [| sentence rest IH]; intros summary.
  - exists ""%string. by rewrite append_empty_r.
  - cbn [add_sentences]. destruct (_ <? _).
    + destruct (IH (summary +:+ sentence +:+ ". ")) as [t ->].
      exists (sentence +:+ ". " +:+ t). by rewrite !append_assoc.
    + exists ""%string. by rewrite append_empty_r.
Qed.

Lemma all_space_app a b : all_space (a +:+ b) = all_space a && all_space b.
Proof.
  induction a as [| c a IH]; [done |]. rewrite append_cons. cbn [all_space].
  by rewrite IH, andb_assoc.
Qed.

Lemma rstrip_empty s : Str.rstrip s = ""%string → all_space s = true.
Proof.
  induction s as [| c s IH]; [done |]. cbn [Str.rstrip all_space].
  destruct (Str.rstrip s); [| done]. destruct (Str.is_space c); [| done].
  intros _. by rewrite IH.
Qed.

Lemma lstrip_all_space s : all_space (Str.lstrip s) = true → all_space s = true.
Proof.
  induction s as [| c s IH]; [done |]. cbn [Str.lstrip all_space].
  destruct (Str.is_space c) eqn:Hc; [done |]. cbn [all_space]. by rewrite Hc.
Qed.

Lemma strip_empty s : Str.strip s = ""%string → all_space s = true.
Proof. unfold Str.strip. intros H%rstrip_empty. by apply lstrip_all_space. Qed.

(** X4. The fallback summary is empty exactly when the first sentence of
    the text does not fit under [max_length]: a text with a long first
    sentence gets no summary at all, whatever follows. *)
Theorem fallback_summary_empty (text : string) (max_length : Z) :
  _fallback_summarize text max_length = ""%string
  ↔ max_length <= Z.of_nat (String.length (first_sentence text)).
Proof.
  unfold _fallback_summarize, first_sentence, split_sentences.
  destruct (split_from_cons ""%string text) as [rest Hsplit].
  set (first := hd ""%string (split_from ""%string text)) in *. rewrite Hsplit.
  cbn [add_sentences]. rewrite !append_empty_l.
  destruct (_ <? _) eqn:Hlt; [apply Z.ltb_lt in Hlt | apply Z.ltb_ge in Hlt].
  - split; [| lia]. intros Hempty%strip_empty. exfalso.
    destruct (add_sentences_extends max_length rest (first +:+ ". ")) as [t Ht].
    rewrite Ht, !all_space_app in Hempty.
    change (all_space ". ") with false in Hempty.
    by rewrite andb_false_r in Hempty.
  - done.
Qed.

End FallbackSummary.

(** ** What the feed scraper returns (rss_scraper.py) *)

Section FeedArticles.
Import Datetime Py Article Rss.
Variable source_name : string.
Variable category : string.
Variable max_articles : Z.
Variable date_parse : string → option datetime.
Variable fetch_full_content : string → option string.
Variable html_text : string → string.

Local Abbreviation parse_entry :=
  (_parse_entry source_name category date_parse fetch_full_content html_text).
Local Abbreviation scrape_from :=
  (scrape_loop source_name category date_parse fetch_full_content html_text).
Local Abbreviation scrape :=
  (scrape_articles source_name category max_articles date_parse fetch_full_content
     html_text).

Lemma validate_terms_inv (tags : list (option (option string))) terms :
  validate_terms (omap id tags) = Ok terms → Forall (λ t, t ≠ Some None) tags.
Proof.
  unfold validate_terms. revert terms.
  induction tags as [| t tags IH]; intros terms Hv; [constructor |].
  destruct t as [[term |] |]; cbn in Hv.
  - destruct (exn_mapM _ _) as [ts |] eqn:Hm; [| done]. constructor; [done | by eapply IH].
  - done.
  - constructor; [done | by eapply IH].
Qed.

(** X5. [_parse_entry] makes an article of an entry exactly when the entry
    has a title and a link that are not blank, a date of the calendar if it
    has one, and no tag whose term is [None]; any other entry is skipped or
    makes the call raise. *)
Theorem parse_entry_article_iff (now : datetime) (entry : Entry) :
  (∃ a, parse_entry now entry = Ok (Some a)) ↔ parsable entry.
Proof.
  split.
  - intros [a Ha]. unfold _parse_entry in Ha. unfold parsable.
    destruct (Str.truthy (Str.strip (default ""%string (e_title entry)))) eqn:Et; [| done].
    destruct (Str.truthy (Str.strip (default ""%string (e_link entry)))) eqn:Eu; [| done].
    cbn [negb] in Ha.
    assert (Hd : match e_published_parsed entry with
                 | Some (y, m, d, hh, mi, ss) => valid (mk_datetime y m d hh mi ss 0 None) = true
                 | None => True
                 end).
    { destruct (e_published_parsed entry) as [[[[[[y m] d] hh] mi] ss] |]; [| done].
      unfold datetime_of_tuple in Ha. by destruct (valid _). }
    match type of Ha with (?m ≫= _) = _ => destruct m as [p |]; [| done] end.
    cbn [mbind exn_mbind exn_bind] in Ha.
    match type of Ha with (?m ≫= _) = _ => destruct m as [tg |] eqn:Htg; [| done] end.
    split_and!; try done.
    + intros Heq. by rewrite Heq in Et.
    + intros Heq. by rewrite Heq in Eu.
    + destruct (e_tags entry) as [tags |]; [by eapply validate_terms_inv | done].
  - intros (Ht & Hu & Hd & Htags).
    by apply (parse_entry_valid source_name category date_parse fetch_full_content html_text).
Qed.

Lemma parse_entry_clock now entry a :
  parse_entry now entry = Ok (Some a) → scraped_at a = now ∧ summary a ≠ None.
Proof.
  unfold _parse_entry. intros Hp.
  destruct (Str.truthy (Str.strip (default ""%string (e_title entry)))); [| done].
  destruct (Str.truthy (Str.strip (default ""%string (e_link entry)))); [| done].
  cbn [negb] in Hp.
  match type of Hp with (?m ≫= _) = _ => destruct m as [p |]; [| done] end.
  cbn [mbind exn_mbind exn_bind] in Hp.
  match type of Hp with (?m ≫= _) = _ => destruct m as [tg |]; [| done] end.
  cbn [mbind exn_mbind exn_bind] in Hp. by injection Hp as <-.
Qed.

Lemma elem_of_scrape_loop clock entries : ∀ i a,
  a ∈ scrape_from clock i [] entries →
  ∃ j entry, entries !! j = Some entry ∧ parse_entry (clock (i + j)%nat) entry = Ok (Some a).
Proof.
  induction entries as [| e l IH]; intros i a Ha; [by apply elem_of_nil in Ha |].
  cbn [scrape_loop] in Ha. rewrite scrape_loop_acc in Ha.
  apply elem_of_app in Ha as [Ha | Ha].
  - exists 0%nat, e. split; [done |]. rewrite Nat.add_0_r. unfold scrape_entry in Ha.
    destruct (parse_entry (clock i) e) as [[a' |] |]; try by apply elem_of_nil in Ha.
    by apply list_elem_of_singleton in Ha as ->.
  - destruct (IH _ _ Ha) as (j & entry & Hj & Hp).
    exists (S j), entry. split; [done |]. by replace (i + S j)%nat with (S i + j)%nat by lia.
Qed.

(** X6. Every article that the feed scraper returns has the source name
    and the category of the scraper, a title and a link that are not
    empty, a summary text, and the clock reading of its entry as
    [scraped_at]. *)
Theorem scrape_articles_fields (feed : exn (list Entry)) (clock : nat → datetime)
    (a : Article) :
  a ∈ scrape feed clock →
  source a = source_name ∧ Article.category a = Some category ∧
  title a ≠ ""%string ∧ url a ≠ ""%string ∧ summary a ≠ None ∧
  ∃ i, scraped_at a = clock i.
Proof.
  unfold scrape_articles. destruct feed as [entries | e]; [| by intros ?%elem_of_nil].
  intros (j & entry & Hj & Hp)%elem_of_scrape_loop.
  destruct (article_of_fields source_name category date_parse fetch_full_content html_text
              entry a) as (_ & Ht & _ & Hu & Hs & Hc); [by eexists |].
  destruct (parse_entry_clock _ _ _ Hp) as [Hnow Hsum].
  split_and!; try done. by eexists.
Qed.

Lemma scrape_loop_length clock entries : ∀ i,
  (length (scrape_from clock i [] entries) ≤ length entries)%nat.
Proof.
  induction entries as [| e l IH]; intros i; [done |].
  cbn [scrape_loop]. rewrite scrape_loop_acc, length_app. specialize (IH (S i)).
  unfold scrape_entry. destruct (parse_entry (clock i) e) as [[a |] |]; simpl; lia.
Qed.

(** X7. With a cap [max_articles >= 0] the feed scraper returns at most
    [max_articles] articles, and never more than the feed has entries;
    when every entry of the feed is one it can make an article of, it
    returns exactly the smaller of the two numbers. *)
Theorem scrape_articles_count (entries : list Entry) (clock : nat → datetime) :
  0 <= max_articles →
  Z.of_nat (length (scrape (Ok entries) clock))
    <= Z.min max_articles (Z.of_nat (length entries)) ∧
  (Forall parsable entries →
   Z.of_nat (length (scrape (Ok entries) clock))
     = Z.min max_articles (Z.of_nat (length entries))).
Proof.
  intros Hmax. unfold scrape_articles, slice_to. rewrite (proj2 (Z.leb_le 0 _) Hmax).
  pose proof (scrape_loop_length clock (take (Z.to_nat max_articles) entries) 0) as Hlen.
  rewrite length_take in Hlen. split; [lia |].
  intros Hall.
  assert (Hv : Forall2 (article_of source_name category date_parse fetch_full_content html_text)
                 (take (Z.to_nat max_articles) entries)
                 (scrape_from clock 0%nat [] (take (Z.to_nat max_articles) entries))).
  { apply scrape_loop_valid. intros j entry Hj. apply parse_entry_article_iff.
    eapply Forall_forall; [exact Hall |].
    apply list_elem_of_lookup_2 in Hj. by apply (subseteq_take (Z.to_nat max_articles)). }
  apply Forall2_length in Hv. rewrite <- Hv, length_take. lia.
Qed.

(** X8. When the feed embeds the content of an entry, the linked page
    plays no part: the outcome of [_parse_entry] is the same whatever
    fetching the page would give. *)
Theorem parse_entry_embedded_content (fetch_other : string → option string)
    (now : datetime) (entry : Entry) (c : content) :
  e_content entry = Some c → c ≠ ContentList [] →
  parse_entry now entry
  = _parse_entry source_name category date_parse fetch_other html_text now entry.
Proof.
  intros Hc Hne. unfold _parse_entry. rewrite Hc.
  destruct c as [[| first values] | text]; done.
Qed.

End FeedArticles.

Lemma scrape_articles_fields_witness :
  Article.source (Article.mk_Article "First" "https://example.org/1" "A summary."
                    (Some "A summary."%string) (Some "finance"%string) "Example Feed" None
                    sample_time None [])
    = "Example Feed"%string ∧
  Article.category (Article.mk_Article "First" "https://example.org/1" "A summary."
                      (Some "A summary."%string) (Some "finance"%string) "Example Feed" None
                      sample_time None [])
    = Some "finance"%string ∧
  "First"%string ≠ ""%string ∧ "https://example.org/1"%string ≠ ""%string ∧
  Some "A summary."%string ≠ None ∧
  ∃ i : nat, sample_time = (λ _ : nat, sample_time) i.
Proof.
  apply (scrape_articles_fields "Example Feed" "finance" 10 (λ _, None) (λ _, None) (λ s, s)
           (Ok [good_entry_1; no_link_entry]) (λ _, sample_time)).
  vm_compute. left.
Defined.

Lemma scrape_articles_count_witness :
  Z.of_nat (length (Rss.scrape_articles "Example Feed" "finance" 2 (λ _, None) (λ _, None)
                      (λ s, s) (Ok [good_entry_1; good_entry_2; good_entry_1])
                      (λ _, sample_time)))
    <= Z.min 2 (Z.of_nat (length [good_entry_1; good_entry_2; good_entry_1])) ∧
  (Forall parsable [good_entry_1; good_entry_2; good_entry_1] →
   Z.of_nat (length (Rss.scrape_articles "Example Feed" "finance" 2 (λ _, None) (λ _, None)
                       (λ s, s) (Ok [good_entry_1; good_entry_2; good_entry_1])
                       (λ _, sample_time)))
     = Z.min 2 (Z.of_nat (length [good_entry_1; good_entry_2; good_entry_1]))).
Proof.
  apply (scrape_articles_count "Example Feed" "finance" 2 (λ _, None) (λ _, None) (λ s, s)
           [good_entry_1; good_entry_2; good_entry_1] (λ _, sample_time)).
  lia.
Defined.

(** Three entries and a cap of two: two articles. *)
Example scrape_three_entries_cap_two :
  Article.title <$> Rss.scrape_articles "Example Feed" "finance" 2 (λ _, None) (λ _, None)
                      (λ s, s) (Ok [good_entry_1; good_entry_2; good_entry_1])
                      (λ _, sample_time)
  = ["First"%string; "Second"%string].
Proof. reflexivity. Qed.

Lemma parse_entry_embedded_content_witness :
  Rss._parse_entry "Example Feed" "finance" (λ _, None) (λ _, None) (λ s, s)
    sample_time content_entry
  = Rss._parse_entry "Example Feed" "finance" (λ _, None) (λ _, Some "Page text"%string)
      (λ s, s) sample_time content_entry.
Proof.
  apply (parse_entry_embedded_content "Example Feed" "finance" (λ _, None) (λ _, None)
           (λ s, s) (λ _, Some "Page text"%string) sample_time content_entry
           (Rss.ContentList [Some "<p>The  whole text.</p>"%string])).
  - reflexivity.
  - discriminate.
Defined.

(** ** The order of timestamps is transitive *)

Section TimestampOrder.
Import Datetime DatetimeOrder.

Lemma lex_step (x y z : Z) (c1 c2 c3 : comparison) :
  (c1 ≠ Lt → c2 ≠ Lt → c3 ≠ Lt) →
  match x ?= y with Eq => c1 | c => c end ≠ Lt →
  match y ?= z with Eq => c2 | c => c end ≠ Lt →
  match x ?= z with Eq => c3 | c => c end ≠ Lt.
Proof.
  intros H.
  destruct (Z.compare_spec x y), (Z.compare_spec y z), (Z.compare_spec x z);
    try lia; try done; auto.
Qed.

Lemma fields_compare_trans a b c :
  fields_compare a b ≠ Lt → fields_compare b c ≠ Lt → fields_compare a c ≠ Lt.
Proof.
  unfold fields_compare. repeat apply lex_step.
  destruct (Z.compare_spec (microsecond a) (microsecond b)),
    (Z.compare_spec (microsecond b) (microsecond c)),
    (Z.compare_spec (microsecond a) (microsecond c)); try lia; done.
Qed.

Lemma ge_dt_spec a b : ge_dt a b ↔ ∃ c, compare a b = Some c ∧ c ≠ Lt.
Proof.
  unfold ge_dt. split.
  - intros [-> | ->]; eexists; split; done.
  - intros ([] & -> & Hc); auto. done.
Qed.

Lemma ge_dt_trans a b c : ge_dt a b → ge_dt b c → ge_dt a c.
Proof.
  rewrite !ge_dt_spec. unfold compare.
  destruct (utcoffset a) as [oa |], (utcoffset b) as [ob |], (utcoffset c) as [oc |];
    intros (c1 & [= <-] & H1) (c2 & [= <-] & H2); eexists; (split; [reflexivity |]).
  - destruct (Z.compare_spec (utc_micros a oa) (utc_micros b ob)),
      (Z.compare_spec (utc_micros b ob) (utc_micros c oc)),
      (Z.compare_spec (utc_micros a oa) (utc_micros c oc)); try lia; done.
  - by apply (fields_compare_trans a b c).
Qed.

Lemma ge_dt_refl a : ge_dt a a.
Proof.
  apply ge_dt_spec. unfold compare. destruct (utcoffset a).
  - eexists. split; [reflexivity |]. by rewrite Z.compare_refl.
  - eexists. split; [reflexivity |]. unfold fields_compare. by rewrite !Z.compare_refl.
Qed.

Context {A : Type} (key : A → datetime).

Lemma descending_app (l1 l2 : list A) :
  descending key (l1 ++ l2) →
  ∀ x y, x ∈ l1 → y ∈ l2 → ge_dt (key x) (key y).
Proof.
  intros Hs. apply Sorted_StronglySorted in Hs.
  2: { intros x y z. apply ge_dt_trans. }
  induction l1 as [| a l1 IH]; intros x y Hx Hy.
  - by apply elem_of_nil in Hx.
  - rewrite <- app_comm_cons in Hs. apply StronglySorted_inv in Hs as [Hs Hall].
    apply elem_of_cons in Hx as [-> | Hx]; [| by apply IH].
    rewrite Forall_forall in Hall. apply Hall, elem_of_app. by right.
Qed.

End TimestampOrder.

(** ** The newest articles (storage.py) *)

Section Newest.
Import Datetime DatetimeOrder Py Article Storage.
Variable storage_path : string.
Variable other_iso : string → option datetime.
Variable coerce_datetime : pyval → option datetime.

(** X9. For a limit [N >= 0] and stored articles whose timestamps can be
    compared, [get_latest_articles] returns the [N] newest of the candidates
    (all of them when there are fewer): the candidates are the articles
    returned and the articles left out, and every article returned is at
    least as recent as every article left out. *)
Theorem get_latest_articles_newest (fs : gmap string file) (limit : Z)
    (category : option string) (now : Z) :
  0 <= limit →
  comparable (scraped_at <$> load_articles storage_path other_iso coerce_datetime fs None None 7 now)
    = true →
  ∃ latest rest,
    get_latest_articles storage_path other_iso coerce_datetime fs limit category now = Ok latest ∧
    latest ++ rest ≡ₚ
      candidates category (load_articles storage_path other_iso coerce_datetime fs None None 7 now) ∧
    Z.of_nat (length latest)
      = Z.min limit (Z.of_nat (length (candidates category
          (load_articles storage_path other_iso coerce_datetime fs None None 7 now)))) ∧
    ∀ a b, a ∈ latest → b ∈ rest → ge_dt (scraped_at a) (scraped_at b).
Proof.
  intros Hlimit Hcmp. unfold get_latest_articles.
  set (loaded := load_articles storage_path other_iso coerce_datetime fs None None 7 now) in *.
  fold (candidates category loaded).
  set (chosen := candidates category loaded).
  assert (Hcmp' : comparable (scraped_at <$> chosen) = true).
  { eapply comparable_sublist; [| exact Hcmp].
    intros k (a & -> & Ha)%list_elem_of_fmap. apply list_elem_of_fmap_2.
    revert Ha. unfold chosen, candidates. destruct (Str.truthy_opt category); [| done].
    by intros [_ ?]%list_elem_of_filter. }
  rewrite (sort_desc_ok scraped_at chosen Hcmp'). cbn [mbind exn_mbind exn_bind].
  unfold slice_to. rewrite (proj2 (Z.leb_le 0 limit) Hlimit).
  exists (take (Z.to_nat limit) (isort_desc scraped_at chosen)),
    (drop (Z.to_nat limit) (isort_desc scraped_at chosen)).
  split; [done |]. split; [by rewrite take_drop, isort_desc_perm |]. split.
  - rewrite length_take, (Permutation_length (isort_desc_perm scraped_at chosen)). lia.
  - apply descending_app. rewrite take_drop. by apply isort_desc_descending.
Qed.

End Newest.

Lemma get_latest_articles_newest_witness :
  ∃ latest rest,
    Storage.get_latest_articles "data/articles" (λ _, None) (λ _, None) two_articles_fs 1 None 0
      = Ok latest ∧
    latest ++ rest ≡ₚ
      candidates None
        (Storage.load_articles "data/articles" (λ _, None) (λ _, None) two_articles_fs None None 7 0) ∧
    Z.of_nat (length latest)
      = Z.min 1 (Z.of_nat (length (candidates None
          (Storage.load_articles "data/articles" (λ _, None) (λ _, None) two_articles_fs None None 7 0)))) ∧
    ∀ a b, a ∈ latest → b ∈ rest → ge_dt (Article.scraped_at a) (Article.scraped_at b).
Proof.
  apply (get_latest_articles_newest "data/articles" (λ _, None) (λ _, None) two_articles_fs 1 None 0).
  - lia.
  - reflexivity.
Defined.

(** ** File names of the batches (storage.py) *)

Section BatchNames.
Import Datetime Py Article Storage.

Lemma drop_prefix_app p s : Str.drop_prefix p (p +:+ s) = Some s.
Proof.
  induction p as [| c p IH]; [done |].
  rewrite append_cons. cbn [Str.drop_prefix]. by rewrite Ascii.eqb_refl.
Qed.

Lemma startswith_prefix p s : Str.startswith p (p +:+ s) = true.
Proof.
  induction p as [| c p IH]; [done |].
  rewrite append_cons. cbn [Str.startswith]. by rewrite Ascii.eqb_refl.
Qed.

Lemma contains_unfold sub s :
  Str.contains sub s
  = Str.startswith sub s
    || match s with EmptyString => false | String _ s' => Str.contains sub s' end.
Proof. by destruct s. Qed.

Lemma contains_app_l sub a b : Str.contains sub a = true → Str.contains sub (a +:+ b) = true.
Proof.
  induction a as [| c a IH].
  - rewrite append_empty_l. destruct sub; [| done]. intros _. by destruct b.
  - rewrite append_cons, !(contains_unfold sub (String _ _)).
    intros [H | H]%orb_true_iff; apply orb_true_iff.
    + left. rewrite <- append_cons. by apply startswith_app.
    + right. by apply IH.
Qed.

Lemma contains_refl s : Str.contains s s = true.
Proof.
  rewrite contains_unfold. apply orb_true_iff. left.
  rewrite <- (append_empty_r s) at 2. apply startswith_prefix.
Qed.

Lemma contains_char_app c a b :
  Str.contains (String c "") (a +:+ b)
  = Str.contains (String c "") a || Str.contains (String c "") b.
Proof.
  induction a as [| x a IH].
  - by rewrite append_empty_l.
  - rewrite append_cons, !(contains_unfold _ (String _ _)), IH.
    cbn [Str.startswith]. destruct (Ascii.eqb c x); [done |]. by rewrite !orb_false_l.
Qed.

Lemma endswith_unfold p s :
  Str.endswith p s
  = String.eqb p s
    || match s with EmptyString => false | String _ s' => Str.endswith p s' end.
Proof. by destruct s. Qed.

Lemma endswith_app a p : Str.endswith p (a +:+ p) = true.
Proof.
  induction a as [| c a IH].
  - rewrite append_empty_l, endswith_unfold. by rewrite String.eqb_refl.
  - rewrite append_cons, endswith_unfold, IH. apply orb_true_r.
Qed.

Lemma digit_char_no_slash d : 0 <= d < 10 → Ascii.eqb "/" (Str.digit_char d) = false.
Proof.
  intros Hd.
  assert (d = 0 ∨ d = 1 ∨ d = 2 ∨ d = 3 ∨ d = 4 ∨ d = 5 ∨ d = 6 ∨ d = 7 ∨ d = 8 ∨ d = 9)
    as Hc by lia.
  destruct Hc as [-> | [-> | [-> | [-> | [-> | [-> | [-> | [-> | [-> | ->]]]]]]]]]; reflexivity.
Qed.

Lemma fmt_digits_no_slash w : ∀ n,
  0 <= n < 10 ^ Z.of_nat w → Str.contains "/" (Str.fmt_digits w n) = false.
Proof.
  induction w as [| w IH]; intros n Hn; [done |].
  cbn [Str.fmt_digits]. rewrite contains_unfold. cbn [Str.startswith].
  assert (Hp : 0 < 10 ^ Z.of_nat w) by (apply Z.pow_pos_nonneg; lia).
  rewrite digit_char_no_slash, IH; [done | |].
  - by apply Z.mod_pos_bound.
  - rewrite Nat2Z.inj_succ, Z.pow_succ_r in Hn by lia. split.
    + apply Z.div_pos; lia.
    + apply Z.div_lt_upper_bound; lia.
Qed.

Lemma strftime_stamp_no_slash d : valid d = true → Str.contains "/" (strftime_stamp d) = false.
Proof.
  intros (Hy & Hm & Hd & Hh & Hmi & Hs & _)%valid_fields.
  unfold strftime_stamp.
  rewrite !contains_char_app, !fmt_digits_no_slash; [done | simpl; lia ..].
Qed.

(** The name of a saved batch is the name [glob] yields for its path. *)
Lemma batch_name_join storage_path source_name stamp :
  valid stamp = true →
  Str.contains "/" (default ""%string source_name) = false →
  batch_name storage_path (join storage_path (batch_filename source_name stamp))
  = Some (batch_filename source_name stamp).
Proof.
  intros Hv Hn. unfold batch_name, join.
  rewrite <- append_assoc, drop_prefix_app. cbn [mbind option_bind].
  assert (Hs : Str.contains "/" (batch_filename source_name stamp) = false).
  { unfold batch_filename.
    rewrite !contains_char_app, strftime_stamp_no_slash by done.
    destruct (Str.truthy_opt source_name); [by rewrite Hn | done]. }
  rewrite Hs. cbn [negb andb].
  unfold batch_filename. by rewrite <- !append_assoc, endswith_app.
Qed.

Lemma length_fmt_digits w : ∀ n, String.length (Str.fmt_digits w n) = w.
Proof. induction w as [| w IH]; intros n; [done |]. cbn. by rewrite IH. Qed.

Lemma length_strftime_stamp d : String.length (strftime_stamp d) = 15%nat.
Proof. unfold strftime_stamp. by rewrite !length_append, !length_fmt_digits. Qed.

Lemma append_inj_l s a b : s +:+ a = s +:+ b → a = b.
Proof.
  induction s as [| c s IH]; [by rewrite !append_empty_l |].
  rewrite !append_cons. intros [= H]. by apply IH.
Qed.

Lemma append_inj_length (a1 b1 a2 b2 : string) :
  a1 +:+ b1 = a2 +:+ b2 → String.length b1 = String.length b2 → a1 = a2 ∧ b1 = b2.
Proof.
  revert a2. induction a1 as [| c a1 IH]; intros [| c2 a2] H Hl.
  - by rewrite !append_empty_l in H.
  - apply (f_equal String.length) in H. rewrite !length_append in H. simpl in H. lia.
  - apply (f_equal String.length) in H. rewrite !length_append in H. simpl in H. lia.
  - rewrite !append_cons in H. injection H as -> H.
    destruct (IH a2 H Hl) as [-> ->]. done.
Qed.

(** Two batches get the same file exactly when they are saved under the
    same name in the same second. *)
Lemma batch_filename_inj n1 n2 s1 s2 :
  Str.truthy n1 = true → Str.truthy n2 = true →
  batch_filename (Some n1) s1 = batch_filename (Some n2) s2
  ↔ n1 = n2 ∧ strftime_stamp s1 = strftime_stamp s2.
Proof.
  intros H1 H2. unfold batch_filename. cbn [Str.truthy_opt default]. rewrite H1, H2. unfold id.
  split; [| by intros [-> ->]].
  intros H. apply append_inj_length in H as [-> H].
  - split; [done |]. apply append_inj_l in H.
    apply append_inj_length in H as [H _]; done.
  - by rewrite !length_append, !length_strftime_stamp.
Qed.

End BatchNames.

(** ** Saving and scanning (storage.py) *)

Section SaveScan.
Import Datetime Py Article Storage.
Variable storage_path : string.
Variable can_write : string → bool.
Variable other_iso : string → option datetime.
Variable coerce_datetime : pyval → option datetime.

(** What a successful [save_articles] returns and writes. *)
Lemma save_articles_inv articles source_name stamp written mt fs path fs' :
  save_articles storage_path can_write articles source_name stamp written mt fs
    = Ok (path, fs') →
  path = join storage_path (batch_filename source_name stamp) ∧
  can_write path = true ∧
  ∃ doc, fs' = <[path := mk_file mt (Some doc)]> fs.
Proof.
  intros Hsave.
  destruct (can_write (join storage_path (batch_filename source_name stamp))) eqn:Hw.
  - destruct (save_articles_writes storage_path can_write articles source_name stamp
                written mt fs Hw) as [doc Hdoc].
    rewrite Hdoc in Hsave. injection Hsave as <- <-. eauto.
  - exfalso. revert Hsave. unfold save_articles.
    replace (match source_name with
             | Some name =>
                 if Str.truthy name then name +:+ "_" +:+ strftime_stamp stamp +:+ ".json"
                 else "articles_" +:+ strftime_stamp stamp +:+ ".json"
             | None => "articles_" +:+ strftime_stamp stamp +:+ ".json"
             end) with (batch_filename source_name stamp)
      by (unfold batch_filename; destruct source_name as [[| c n] |]; reflexivity).
    by rewrite Hw.
Qed.

(** The file of a saved batch reads back as the batch. *)
Lemma load_file_saved articles source_name stamp written mt fs path fs' :
  Forall (λ a, well_formed a = true) articles →
  save_articles storage_path can_write articles source_name stamp written mt fs
    = Ok (path, fs') →
  _load_file other_iso coerce_datetime fs' path = articles.
Proof.
  intros Hwf Hsave. unfold save_articles in Hsave.
  destruct (can_write _); [| done].
  unfold json_dump in Hsave. destruct (json_serializable _); [| done].
  cbn [mbind exn_mbind exn_bind] in Hsave. injection Hsave as <- <-.
  unfold _load_file, load_file_body, read_json.
  rewrite lookup_insert_eq.
  cbn [content of_option mbind exn_mbind exn_bind items_of dict_get String.eqb
       Ascii.eqb Bool.eqb iterate].
  by rewrite load_article_dicts.
Qed.

Lemma load_file_lookup (fs1 fs2 : gmap string file) path :
  fs1 !! path = fs2 !! path →
  _load_file other_iso coerce_datetime fs1 path = _load_file other_iso coerce_datetime fs2 path.
Proof. intros H. unfold _load_file, load_file_body, read_json. by rewrite H. Qed.

(** X10. A batch saved under a name is found again by the scan of
    [load_articles] for any source text that the name contains, the name
    itself included, as long as the file is within the window: the saved
    articles are a segment of the result. The name holds no separator (it
    names a file of the directory), and the articles are well formed. *)
Theorem saved_batch_loaded_by_source (articles : list Article) (name source : string)
    (stamp written : datetime) (mt : Z) (fs : gmap string file) path fs'
    (max_age_days now : Z) :
  Forall (λ a, well_formed a = true) articles →
  valid stamp = true →
  Str.truthy name = true →
  Str.contains "/" name = false →
  Str.contains source name = true →
  now - max_age_days * microseconds_per_day <= mt →
  save_articles storage_path can_write articles (Some name) stamp written mt fs
    = Ok (path, fs') →
  ∃ before after,
    load_articles storage_path other_iso coerce_datetime fs' None (Some source) max_age_days now
    = before ++ articles ++ after.
Proof.
  intros Hwf Hv Ht Hslash Hsrc Hmt Hsave.
  pose proof (load_file_saved _ _ _ _ _ _ _ _ Hwf Hsave) as Hload.
  destruct (save_articles_inv _ _ _ _ _ _ _ _ Hsave) as (Hpath & _ & doc & Hfs).
  assert (Hname : batch_name storage_path path = Some (batch_filename (Some name) stamp)).
  { rewrite Hpath. by apply batch_name_join. }
  set (f := mk_file mt (Some doc)).
  assert (Hin : (path, f) ∈ filter
            (λ pf, selected storage_path (Some source)
                     (now - max_age_days * microseconds_per_day) pf = true)
            (glob_json storage_path fs')).
  { apply list_elem_of_filter. split.
    - unfold selected. cbn [fst snd mtime f]. rewrite (proj2 (Z.ltb_ge _ _) Hmt), Hname.
      unfold batch_filename. cbn [Str.truthy_opt default]. rewrite Ht. unfold id.
      rewrite (contains_app_l source name _ Hsrc). by rewrite andb_false_r.
    - apply elem_of_glob_json. cbn [fst snd]. split; [by rewrite Hname |].
      rewrite Hfs. apply lookup_insert_eq. }
  apply list_elem_of_split in Hin as (l1 & l2 & Hl).
  unfold load_articles. cbn [Str.truthy_opt]. rewrite Hl, bind_app, bind_cons.
  cbn [fst]. rewrite Hload. eauto.
Qed.

(** X11. Asking [load_articles] for one source only leaves articles out:
    its result is a sublist of the result of the scan without a source. *)
Theorem load_articles_source_sublist (fs : gmap string file) (source : option string)
    (max_age_days now : Z) :
  load_articles storage_path other_iso coerce_datetime fs None source max_age_days now
  `sublist_of` load_articles storage_path other_iso coerce_datetime fs None None max_age_days now.
Proof.
  unfold load_articles. cbn [Str.truthy_opt]. apply bind_sublist.
  induction (glob_json storage_path fs) as [| pf l IH]; [done |].
  rewrite !filter_cons.
  destruct (decide (selected storage_path source _ pf = true)) as [Hs | Hs].
  - rewrite decide_True; [by constructor |].
    revert Hs. unfold selected. by destruct (mtime pf.2 <? _).
  - destruct (decide _); [by constructor | done].
Qed.

(** X12. Two batches saved one after the other under non-empty names that
    hold no path separator (each names a file of the storage directory)
    land in the same file exactly when the names are equal and the two
    saves fall in the same second; otherwise the first batch is still read
    back from its path after the second save. *)
Theorem save_articles_second_batch (articles1 articles2 : list Article) (name1 name2 : string)
    (stamp1 written1 stamp2 written2 : datetime) (mt1 mt2 : Z)
    (fs fs1 fs2 : gmap string file) path1 path2 source max_age_days now :
  Str.truthy name1 = true → Str.truthy name2 = true →
  Str.contains "/" name1 = false → Str.contains "/" name2 = false →
  Forall (λ a, well_formed a = true) articles1 →
  save_articles storage_path can_write articles1 (Some name1) stamp1 written1 mt1 fs
    = Ok (path1, fs1) →
  save_articles storage_path can_write articles2 (Some name2) stamp2 written2 mt2 fs1
    = Ok (path2, fs2) →
  (path1 = path2 ↔ name1 = name2 ∧ strftime_stamp stamp1 = strftime_stamp stamp2) ∧
  (path1 ≠ path2 →
   load_articles storage_path other_iso coerce_datetime fs2 (Some path1) source max_age_days now
   = articles1).
Proof.
  intros Ht1 Ht2 _ _ Hwf Hs1 Hs2.
  pose proof (load_file_saved _ _ _ _ _ _ _ _ Hwf Hs1) as Hload.
  destruct (save_articles_inv _ _ _ _ _ _ _ _ Hs1) as (Hp1 & _ & doc1 & Hfs1).
  destruct (save_articles_inv _ _ _ _ _ _ _ _ Hs2) as (Hp2 & _ & doc2 & Hfs2).
  split.
  - rewrite <- batch_filename_inj by done. rewrite Hp1, Hp2. unfold join. split.
    + intros H. by apply append_inj_l, append_inj_l in H.
    + by intros ->.
  - intros Hne. unfold load_articles. cbn [Str.truthy_opt default].
    rewrite Hp1 at 1. rewrite truthy_join, <- Hload.
    apply load_file_lookup. rewrite Hfs2. by apply lookup_insert_ne.
Qed.

End SaveScan.

(** ** Cleaning up and scanning (storage.py) *)

Section CleanupScan.
Import Datetime Py Article Storage.
Variable storage_path : string.
Variable can_unlink : string → bool.
Variable other_iso : string → option datetime.
Variable coerce_datetime : pyval → option datetime.

Lemma bind_ext_elem {A B} (f g : A → list B) (l : list A) :
  (∀ x, x ∈ l → f x = g x) → l ≫= f = l ≫= g.
Proof.
  induction l as [| x l IH]; intros H; [done |].
  rewrite !bind_cons, H, IH; [done | | left]. intros y Hy. apply H. by right.
Qed.

(** X13. A clean-up does not change what a scan loads, when its cutoff is
    not later than the cutoff of the scan: the scan after the clean-up
    returns the articles of the scan without it, up to the order in which
    the directory lists its files. *)
Theorem cleanup_keeps_loaded_articles (fs : gmap string file) (source : option string)
    (cleanup_days cleanup_now max_age_days now : Z) :
  cleanup_now - cleanup_days * microseconds_per_day
    <= now - max_age_days * microseconds_per_day →
  load_articles storage_path other_iso coerce_datetime
    (cleanup_old_articles storage_path can_unlink fs cleanup_days cleanup_now)
    None source max_age_days now
  ≡ₚ load_articles storage_path other_iso coerce_datetime fs None source max_age_days now.
Proof.
  intros Hcut. unfold load_articles. cbn [Str.truthy_opt].
  set (fs' := cleanup_old_articles storage_path can_unlink fs cleanup_days cleanup_now).
  set (cutoff := now - max_age_days * microseconds_per_day) in *.
  set (sel := λ pf : string * file, selected storage_path source cutoff pf = true).
  assert (Hkeep : ∀ pf, sel pf → fs' !! pf.1 = Some pf.2 ↔ fs !! pf.1 = Some pf.2).
  { intros [p f] Hsel. cbn [fst snd]. unfold fs'. rewrite cleanup_lookup.
    assert (Hm : cutoff <= mtime f).
    { revert Hsel. unfold sel, selected. cbn [snd].
      destruct (mtime f <? cutoff) eqn:E; [done |]. by apply Z.ltb_ge in E. }
    split.
    - destruct (fs !! p) as [f0 |]; [| done]. by destruct (removes _ _ _ _ _).
    - intros ->. unfold removes.
      rewrite (proj2 (Z.ltb_ge (mtime f) _)) by lia. by rewrite andb_false_r. }
  assert (Hperm : filter sel (glob_json storage_path fs')
                  ≡ₚ filter sel (glob_json storage_path fs)).
  { apply NoDup_Permutation.
    - apply NoDup_filter, NoDup_filter, NoDup_map_to_list.
    - apply NoDup_filter, NoDup_filter, NoDup_map_to_list.
    - intros pf. rewrite !list_elem_of_filter, !elem_of_glob_json.
      split; intros (Hsel & Hb & Hf); (split; [done |]); (split; [done |]);
        by apply (Hkeep pf Hsel). }
  rewrite <- Hperm.
  rewrite (bind_ext_elem (λ pf, _load_file other_iso coerce_datetime fs' pf.1)
             (λ pf, _load_file other_iso coerce_datetime fs pf.1)); [done |].
  intros pf [Hsel [_ Hf]%elem_of_glob_json]%list_elem_of_filter.
  unfold _load_file, load_file_body, read_json.
  by rewrite Hf, (proj1 (Hkeep pf Hsel) Hf).
Qed.

End CleanupScan.

(** ** Statistics of the store (storage.py) *)

Section Counting.
Import Datetime DatetimeOrder Py Article Storage StorageStats.

Lemma total_count_insert (d : gmap string nat) k n :
  d !! k = None → total_count (<[k := n]> d) = (n + total_count d)%nat.
Proof.
  intros Hk. unfold total_count. apply (map_fold_insert_L (M := gmap string)); [| done].
  intros. lia.
Qed.

Lemma total_count_count_one d k : total_count (count_one d k) = S (total_count d).
Proof.
  unfold count_one. destruct (d !! k) as [n |] eqn:E; cbn [default].
  - rewrite <- insert_delete_eq, total_count_insert by apply lookup_delete_eq.
    rewrite <- (insert_id d k n E) at 2.
    rewrite <- (insert_delete_eq d), total_count_insert by apply lookup_delete_eq.
    unfold id. lia.
  - rewrite total_count_insert by done. lia.
Qed.

Lemma count_in_count_one d k k' :
  count_in (count_one d k) k' = (count_in d k' + if decide (k = k') then 1 else 0)%nat.
Proof.
  unfold count_in, count_one. destruct (decide (k = k')) as [-> | Hne].
  - by rewrite lookup_insert_eq.
  - rewrite lookup_insert_ne by done. lia.
Qed.

Lemma count_of_cons {A} (P : A → Prop) `{∀ x, Decision (P x)} (x : A) (l : list A) :
  count_of P (x :: l) = ((if decide (P x) then 1 else 0) + count_of P l)%nat.
Proof. unfold count_of. rewrite filter_cons. by destruct (decide (P x)). Qed.

Lemma count_loop (l : list Article) : ∀ s c,
  (∀ k, count_in (foldl count_article (s, c) l).1 k
        = (count_in s k + count_of (λ a, source a = k) l)%nat) ∧
  (∀ k, count_in (foldl count_article (s, c) l).2 k
        = (count_in c k
           + count_of (λ a, category a = Some k ∧ Str.truthy k = true) l)%nat) ∧
  total_count (foldl count_article (s, c) l).1 = (total_count s + length l)%nat ∧
  total_count (foldl count_article (s, c) l).2
  = (total_count c + count_of (λ a, Str.truthy_opt (category a) = true) l)%nat.
Proof.
  induction l as [| a l IH]; intros s c.
  - cbn. split_and!; intros; lia.
  - cbn [foldl]. unfold count_article at 2 4 6 8. cbn [fst snd].
    destruct (IH (count_one s (source a))
                (if Str.truthy_opt (category a)
                 then count_one c (default ""%string (category a)) else c))
      as (H1 & H2 & H3 & H4).
    split_and!.
    + intros k. rewrite H1, count_in_count_one, count_of_cons.
      destruct (decide (source a = k)); lia.
    + intros k. rewrite H2, count_of_cons.
      destruct (category a) as [ca |] eqn:Hca; cbn [Str.truthy_opt default].
      * destruct (Str.truthy ca) eqn:Ht.
        -- rewrite count_in_count_one. unfold id.
           destruct (decide (ca = k)) as [-> | Hne].
           ++ rewrite decide_True by done. lia.
           ++ rewrite decide_False by (intros [[= ?] _]; done). lia.
        -- rewrite decide_False; [lia |]. intros [[= <-] Hk]. congruence.
      * rewrite decide_False by (by intros [? _]). lia.
    + rewrite H3, total_count_count_one. cbn [length]. lia.
    + rewrite H4, count_of_cons.
      destruct (Str.truthy_opt (category a)).
      * rewrite total_count_count_one, decide_True by done. lia.
      * rewrite decide_False by done. lia.
Qed.

Lemma compare_other_kind a b : naive a ≠ naive b → compare a b = None.
Proof. unfold naive, compare. by destruct (utcoffset a), (utcoffset b). Qed.

Lemma compare_gt_ge a b : compare a b = Some Lt → ge_dt b a.
Proof. intros H%compare_antisym. by right. Qed.

Lemma compare_lt_ge a b : compare a b = Some Gt → ge_dt a b.
Proof. by right. Qed.

Lemma min_date_from_ok (rest : list datetime) : ∀ best,
  Forall (λ d, naive d = naive best) rest →
  ∃ e, min_date_from best rest = Ok e ∧ e ∈ best :: rest ∧
       ge_dt best e ∧ ∀ d, d ∈ rest → ge_dt d e.
Proof.
  induction rest as [| d rest IH]; intros best Hk.
  - exists best. split_and!; [done | left | apply ge_dt_refl |].
    intros d Hd. by apply elem_of_nil in Hd.
  - apply Forall_cons in Hk as [Hd Hk]. cbn [min_date_from].
    destruct (compare_same_kind d best Hd) as [c Hc]. rewrite Hc.
    destruct c.
    + destruct (IH best Hk) as (e & He & Hin & Hbe & Hall).
      exists e. split_and!; [done | | done |].
      * apply elem_of_cons in Hin as [-> | Hin]; [left | right; by right].
      * intros x [-> | Hx]%elem_of_cons; [| by apply Hall].
        apply ge_dt_trans with best; [by left | done].
    + destruct (IH d) as (e & He & Hin & Hde & Hall).
      { eapply Forall_impl; [exact Hk |]. cbn. congruence. }
      exists e. split_and!; [done | by right | |].
      * apply ge_dt_trans with d; [by apply compare_gt_ge | done].
      * intros x [-> | Hx]%elem_of_cons; [done | by apply Hall].
    + destruct (IH best Hk) as (e & He & Hin & Hbe & Hall).
      exists e. split_and!; [done | | done |].
      * apply elem_of_cons in Hin as [-> | Hin]; [left | right; by right].
      * intros x [-> | Hx]%elem_of_cons; [| by apply Hall].
        apply ge_dt_trans with best; [by right | done].
Qed.

Lemma max_date_from_ok (rest : list datetime) : ∀ best,
  Forall (λ d, naive d = naive best) rest →
  ∃ e, max_date_from best rest = Ok e ∧ e ∈ best :: rest ∧
       ge_dt e best ∧ ∀ d, d ∈ rest → ge_dt e d.
Proof.
  induction rest as [| d rest IH]; intros best Hk.
  - exists best. split_and!; [done | left | apply ge_dt_refl |].
    intros d Hd. by apply elem_of_nil in Hd.
  - apply Forall_cons in Hk as [Hd Hk]. cbn [max_date_from].
    destruct (compare_same_kind d best Hd) as [c Hc]. rewrite Hc.
    destruct c.
    + destruct (IH best Hk) as (e & He & Hin & Hbe & Hall).
      exists e. split_and!; [done | | done |].
      * apply elem_of_cons in Hin as [-> | Hin]; [left | right; by right].
      * intros x [-> | Hx]%elem_of_cons; [| by apply Hall].
        apply ge_dt_trans with best; [done |]. apply compare_antisym in Hc. by left.
    + destruct (IH best Hk) as (e & He & Hin & Hbe & Hall).
      exists e. split_and!; [done | | done |].
      * apply elem_of_cons in Hin as [-> | Hin]; [left | right; by right].
      * intros x [-> | Hx]%elem_of_cons; [| by apply Hall].
        apply ge_dt_trans with best; [done | by apply compare_gt_ge].
    + destruct (IH d) as (e & He & Hin & Hde & Hall).
      { eapply Forall_impl; [exact Hk |]. cbn. congruence. }
      exists e. split_and!; [done | by right | |].
      * apply ge_dt_trans with d; [done | by right].
      * intros x [-> | Hx]%elem_of_cons; [done | by apply Hall].
Qed.

Lemma min_date_from_raise (rest : list datetime) : ∀ best,
  ¬ Forall (λ d, naive d = naive best) rest →
  min_date_from best rest = Raise "TypeError".
Proof.
  induction rest as [| d rest IH]; intros best Hk.
  - destruct Hk. constructor.
  - cbn [min_date_from].
    destruct (decide (naive d = naive best)) as [Hd | Hd].
    + assert (Hrest : ¬ Forall (λ x, naive x = naive best) rest).
      { intros H. apply Hk. by constructor. }
      destruct (compare_same_kind d best Hd) as [c Hc]. rewrite Hc.
      destruct c; try by apply IH.
      apply IH. intros H. apply Hrest. eapply Forall_impl; [exact H |]. cbn. congruence.
    + by rewrite compare_other_kind.
Qed.

Lemma comparable_cons d ds :
  comparable (d :: ds) = true ↔ Forall (λ x, naive x = naive d) ds.
Proof.
  split.
  - intros Hc. apply Forall_forall. intros x Hx.
    apply (comparable_same_kind _ Hc); [by right | left].
  - intros H. unfold comparable. cbn [forallb]. destruct (naive d) eqn:Hd.
    + cbn [andb negb orb]. rewrite orb_true_iff. left. apply forallb_forall.
      intros x Hx%list_elem_of_In. by apply (proj1 (Forall_forall _ _) H).
    + cbn [andb negb orb]. apply forallb_forall.
      intros x Hx%list_elem_of_In. by rewrite (proj1 (Forall_forall _ _) H x Hx).
Qed.

Variable storage_path : string.
Variable other_iso : string → option datetime.
Variable coerce_datetime : pyval → option datetime.

(** X14. The counts of [get_stats]: the total is the number of articles
    loaded, the count of a source is the number of articles of that source,
    the count of a category is the number of articles with that non-empty
    category, the counts of the sources add up to the total, and the
    counts of the categories to the number of articles that have a
    category. *)
Theorem get_stats_counts (fs : gmap string file) (now : Z) (st : stats) :
  get_stats storage_path other_iso coerce_datetime fs now = Ok st →
  total_articles st
    = length (load_articles storage_path other_iso coerce_datetime fs None None 7 now) ∧
  (∀ s, count_in (sources st) s
        = count_of (λ a, source a = s)
            (load_articles storage_path other_iso coerce_datetime fs None None 7 now)) ∧
  (∀ c, count_in (categories st) c
        = count_of (λ a, category a = Some c ∧ Str.truthy c = true)
            (load_articles storage_path other_iso coerce_datetime fs None None 7 now)) ∧
  total_count (sources st) = total_articles st ∧
  total_count (categories st)
    = count_of (λ a, Str.truthy_opt (category a) = true)
        (load_articles storage_path other_iso coerce_datetime fs None None 7 now).
Proof.
  unfold get_stats.
  set (loaded := load_articles storage_path other_iso coerce_datetime fs None None 7 now).
  destruct loaded as [| a l] eqn:Hl.
  - intros [= <-]. cbn. split_and!; done.
  - rewrite <- Hl. destruct (match scraped_at <$> loaded with [] => _ | _ => _ end);
      [| done].
    cbn [mbind exn_mbind exn_bind]. intros [= <-]. cbn [total_articles sources categories].
    destruct (count_loop loaded ∅ ∅) as (H1 & H2 & H3 & H4).
    split_and!; [done | intros s; by rewrite H1 | intros c; by rewrite H2 | by rewrite H3 |
                 by rewrite H4].
Qed.

(** X15. The date range of [get_stats]. When the timestamps of the stored
    articles can be compared, the call returns; the range is empty for an
    empty store, and else holds the ISO texts of an earliest and of a
    latest timestamp of the store. When a naive and an aware timestamp are
    stored, the call raises [TypeError]. *)
Theorem get_stats_date_range (fs : gmap string file) (now : Z) :
  (comparable
     (scraped_at <$> load_articles storage_path other_iso coerce_datetime fs None None 7 now) = true →
   ∃ st, get_stats storage_path other_iso coerce_datetime fs now = Ok st ∧
     (load_articles storage_path other_iso coerce_datetime fs None None 7 now = [] →
      date_range st = None) ∧
     (load_articles storage_path other_iso coerce_datetime fs None None 7 now ≠ [] →
      ∃ earliest latest,
        date_range st = Some (isoformat earliest, isoformat latest) ∧
        earliest ∈ scraped_at
                   <$> load_articles storage_path other_iso coerce_datetime fs None None 7 now ∧
        latest ∈ scraped_at
                 <$> load_articles storage_path other_iso coerce_datetime fs None None 7 now ∧
        ∀ a, a ∈ load_articles storage_path other_iso coerce_datetime fs None None 7 now →
             ge_dt (scraped_at a) earliest ∧ ge_dt latest (scraped_at a))) ∧
  (comparable
     (scraped_at <$> load_articles storage_path other_iso coerce_datetime fs None None 7 now) = false →
   get_stats storage_path other_iso coerce_datetime fs now = Raise "TypeError").
Proof.
  unfold get_stats.
  set (loaded := load_articles storage_path other_iso coerce_datetime fs None None 7 now).
  destruct loaded as [| a l] eqn:Hl.
  { split; [| done]. intros _. eexists. split_and!; [reflexivity | done | done]. }
  rewrite fmap_cons. split.
  - intros Hc. pose proof (proj1 (comparable_cons _ _) Hc) as Hk.
    destruct (min_date_from_ok _ _ Hk) as (e & He & Hein & Hae & Hmin).
    destruct (max_date_from_ok _ _ Hk) as (m & Hm & Hmin' & Hma & Hmax).
    rewrite He, Hm. cbn [mbind exn_mbind exn_bind]. eexists. split; [reflexivity |].
    split; [done |]. intros _. exists e, m. cbn [date_range].
    split_and!; [done .. |].
    intros x [-> | Hx]%elem_of_cons; [done |].
    split; [apply Hmin | apply Hmax]; by apply list_elem_of_fmap_2.
  - intros Hc. rewrite min_date_from_raise; [done |].
    intros H%comparable_cons. congruence.
Qed.

End Counting.

Lemma saved_batch_loaded_by_source_witness :
  ∃ before after,
    Storage.load_articles "data/articles" (λ _, None) (λ _, None)
      (<["data/articles/techcrunch_20240229_235958.json"%string :=
           Storage.mk_file 0 (Some (saved_batch "techcrunch" [later_article]))]> ∅)
      None (Some "tech"%string) 7 0
    = before ++ [later_article] ++ after.
Proof.
  apply (saved_batch_loaded_by_source "data/articles" (λ _, true) (λ _, None) (λ _, None)
           [later_article] "techcrunch" "tech" sample_time sample_time 0 ∅
           "data/articles/techcrunch_20240229_235958.json").
  - repeat constructor.
  - reflexivity.
  - reflexivity.
  - reflexivity.
  - reflexivity.
  - unfold Storage.microseconds_per_day. lia.
  - reflexivity.
Defined.

Lemma save_articles_second_batch_witness :
  ("data/articles/feed_20240229_235958.json"%string
   = "data/articles/wire_20240229_235958.json"%string
   ↔ "feed"%string = "wire"%string
     ∧ Datetime.strftime_stamp sample_time = Datetime.strftime_stamp sample_time) ∧
  ("data/articles/feed_20240229_235958.json"%string
   ≠ "data/articles/wire_20240229_235958.json"%string →
   Storage.load_articles "data/articles" (λ _, None) (λ _, None)
     (<["data/articles/wire_20240229_235958.json"%string :=
          Storage.mk_file 0 (Some (saved_batch "wire" [later_article]))]>
      (<["data/articles/feed_20240229_235958.json"%string :=
           Storage.mk_file 0 (Some (saved_batch "feed" [sample_article]))]> ∅))
     (Some "data/articles/feed_20240229_235958.json"%string) None 7 0
   = [sample_article]).
Proof.
  apply (save_articles_second_batch "data/articles" (λ _, true) (λ _, None) (λ _, None)
           [sample_article] [later_article] "feed" "wire"
           sample_time sample_time sample_time sample_time 0 0 ∅
           (<["data/articles/feed_20240229_235958.json"%string :=
                Storage.mk_file 0 (Some (saved_batch "feed" [sample_article]))]> ∅)).
  - reflexivity.
  - reflexivity.
  - reflexivity.
  - reflexivity.
  - repeat constructor.
  - reflexivity.
  - reflexivity.
Defined.

(** Saved twice under one name within one second, the first batch is
    lost: the second save writes the same file. So is a batch saved
    without a name when a batch named "articles" follows. *)
Example save_articles_same_second :
  (Storage.save_articles "data/articles" (λ _, true) [sample_article] (Some "feed"%string)
     sample_time sample_time 0 ∅
   ≫= λ r, Storage.save_articles "data/articles" (λ _, true) [later_article]
             (Some "feed"%string) sample_time sample_time 0 r.2
   ≫= λ r', Ok (r.1, r'.1,
                Storage.load_articles "data/articles" (λ _, None) (λ _, None) r'.2 (Some r.1) None 7 0))
  = Ok ("data/articles/feed_20240229_235958.json"%string,
        "data/articles/feed_20240229_235958.json"%string, [later_article]) ∧
  (Storage.save_articles "data/articles" (λ _, true) [sample_article] None
     sample_time sample_time 0 ∅
   ≫= λ r, Storage.save_articles "data/articles" (λ _, true) [later_article]
             (Some "articles"%string) sample_time sample_time 0 r.2
   ≫= λ r', Ok (Storage.load_articles "data/articles" (λ _, None) (λ _, None) r'.2 (Some r.1) None 7 0))
  = Ok [later_article].
Proof. split; reflexivity. Qed.

Lemma cleanup_keeps_loaded_articles_witness :
  Storage.load_articles "data/articles" (λ _, None) (λ _, None)
    (Storage.cleanup_old_articles "data/articles" (λ _, true) mixed_directory 7 0)
    None None 7 0
  ≡ₚ Storage.load_articles "data/articles" (λ _, None) (λ _, None) mixed_directory None None 7 0.
Proof.
  apply (cleanup_keeps_loaded_articles "data/articles" (λ _, true) (λ _, None) (λ _, None)
           mixed_directory None 7 0 7 0).
  lia.
Defined.

Lemma get_stats_counts_witness :
  StorageStats.total_articles sample_stats
    = length (Storage.load_articles "data/articles" (λ _, None) (λ _, None) two_articles_fs
                None None 7 0) ∧
  (∀ s, count_in (StorageStats.sources sample_stats) s
        = count_of (λ a, Article.source a = s)
            (Storage.load_articles "data/articles" (λ _, None) (λ _, None) two_articles_fs
               None None 7 0)) ∧
  (∀ c, count_in (StorageStats.categories sample_stats) c
        = count_of (λ a, Article.category a = Some c ∧ Str.truthy c = true)
            (Storage.load_articles "data/articles" (λ _, None) (λ _, None) two_articles_fs
               None None 7 0)) ∧
  total_count (StorageStats.sources sample_stats)
    = StorageStats.total_articles sample_stats ∧
  total_count (StorageStats.categories sample_stats)
    = count_of (λ a, Str.truthy_opt (Article.category a) = true)
        (Storage.load_articles "data/articles" (λ _, None) (λ _, None) two_articles_fs None None 7 0).
Proof.
  apply (get_stats_counts "data/articles" (λ _, None) (λ _, None) two_articles_fs 0 sample_stats).
  vm_compute. reflexivity.
Defined.

Example get_stats_mixed_kinds :
  StorageStats.get_stats "data/articles" (λ _, None) (λ _, None) mixed_kinds_fs 0 = Raise "TypeError".
Proof. reflexivity. Qed.

(** An article whose category is the empty text counts for its source, and
    for no category. *)
Example get_stats_blank_category :
  StorageStats.get_stats "data/articles" (λ _, None) (λ _, None)
    (one_file "data/articles/feed.json"
       (batch_doc [Storage.article_dict blank_category_article])) 0
  = Ok (StorageStats.mk_stats 1 {[ "Example Feed"%string := 1%nat ]} ∅
          (Some ("2024-02-29T23:59:58.250000", "2024-02-29T23:59:58.250000")%string)).
Proof. vm_compute. reflexivity. Qed.

(** ** Scraping all the sources (main.py) *)

Section ScrapeAll.
Import Datetime Py Article Storage News.
Variable storage_path : string.
Variable can_write : string → bool.
Variable clock : nat → datetime * datetime * Z.
Variable as_completed : list scraper → list scraper.

Local Abbreviation step := (scrape_step storage_path can_write clock).










Variable other_iso : string → option datetime.
Variable coerce_datetime : pyval → option datetime.


End ScrapeAll.

Example scrape_all_sources_example :
  (News.scrape_all_sources "data/articles" (λ _, true) sample_clock (λ l, l)
     sample_scrapers false ∅
   ≫= λ r, Ok (r.1, fst <$> map_to_list r.2))
  = Ok ([sample_article; later_article],
        fst <$> map_to_list
          (<["data/articles/all_sources_20240229_235958.json"%string := Storage.mk_file 0 None]>
           (<["data/articles/wire_20240229_235958.json"%string := Storage.mk_file 0 None]>
            (<["data/articles/feed_20240229_235958.json"%string := Storage.mk_file 0 None]>
             (∅ : gmap string Storage.file))))).
Proof. vm_compute. reflexivity. Qed.

(** With a directory in which only the file of all the sources can be
    written, the run returns the same articles. *)
Example scrape_all_sources_source_files_fail :
  (News.scrape_all_sources "data/articles"
     (λ p, String.eqb p "data/articles/all_sources_20240229_235958.json")
     sample_clock (λ l, l) sample_scrapers false ∅
   ≫= λ r, Ok (r.1, fst <$> map_to_list r.2))
  = Ok ([sample_article; later_article],
        ["data/articles/all_sources_20240229_235958.json"%string]).
Proof. vm_compute. reflexivity. Qed.


(** ** Processing a list of articles (processor.py) *)

Section ProcessArticles.
Import Datetime Processor ProcessorBatch.
Variable summarizer : option (string → Z → exn string).
Variable categorizer : option (string → exn string).

(** [process_article] on an article returns a new object, a copy of the
    article but for its summary and category, in a store that differs from
    the old one by this object only. *)
Lemma process_article_copy (h : gmap loc obj) (article : loc) (a : article_obj)
    (summarize categorize : bool) (max_summary_length : Z) :
  h !! article = Some (ObjArticle a) →
  ∃ h', process_article summarizer categorizer h article summarize categorize
          max_summary_length = Ok (h', fresh (dom h)) ∧
        enriched_copy h (fresh (dom h)) a h'.
Proof.
  intros Ha. unfold process_article, model_copy, read. rewrite Ha.
  cbn [mbind exn_mbind exn_bind].
  set (p := fresh (dom h)).
  assert (H0 : enriched_copy h p a (<[p := ObjArticle a]> h)).
  { split; [intros l Hl; by rewrite lookup_insert_ne |].
    exists a. rewrite lookup_insert_eq. by repeat split. }
  pose proof (enriched_copy_summarization summarizer h p a _ article summarize
                max_summary_length H0) as H1.
  destruct (summarization _ _ _ _ _ _) as [h1 raised]. cbn [fst] in H1.
  eexists. split; [reflexivity |].
  destruct raised; [done |]. by apply enriched_copy_categorization.
Qed.

(** The loop of [process_articles], from a store [hi] that extends [h] and
    a list [ps] of copies made so far. *)
Lemma process_loop (h : gmap loc obj) summarize categorize max_summary_length
    (articles : list loc) : ∀ (done : list loc) (hi : gmap loc obj) (ps : list loc),
  Forall (λ l, ∃ a, h !! l = Some (ObjArticle a)) articles →
  (∀ l, is_Some (h !! l) → hi !! l = h !! l) →
  NoDup ps →
  Forall (λ p, is_Some (hi !! p)) ps →
  Forall2 (fresh_copy h hi) done ps →
  ∃ h' ps',
    foldl (process_step summarizer categorizer summarize categorize max_summary_length)
      (hi, ps) articles = (h', ps') ∧
    (∀ l, is_Some (h !! l) → h' !! l = h !! l) ∧
    NoDup ps' ∧
    Forall2 (fresh_copy h h') (done ++ articles) ps'.
Proof.
  induction articles as [| l articles IH]; intros done hi ps Harts Hframe Hnd Hdom Hcopies.
  - exists hi, ps. rewrite app_nil_r. done.
  - apply Forall_cons in Harts as [[a Ha] Harts]. cbn [foldl].
    assert (Hl : hi !! l = Some (ObjArticle a)) by (rewrite Hframe; eauto).
    destruct (process_article_copy hi l a summarize categorize max_summary_length Hl)
      as (h1 & Hrun & Hsame & a' & Hp & Hfields).
    unfold process_step at 2. cbn [fst snd]. rewrite Hrun.
    set (p := fresh (dom hi)) in *.
    assert (Hfresh : hi !! p = None) by (apply not_elem_of_dom, is_fresh).
    assert (Hold : h !! p = None).
    { destruct (h !! p) eqn:E; [| done]. rewrite <- Hframe in E by eauto. congruence. }
    assert (Hnew : ∀ q, is_Some (hi !! q) → h1 !! q = hi !! q).
    { intros q [o Hq]. apply Hsame. intros ->. congruence. }
    destruct (IH (done ++ [l]) h1 (ps ++ [p])) as (h' & ps' & Hfold & Hframe' & Hnd' & Hall).
    + done.
    + intros q Hq. rewrite Hnew; [by apply Hframe |]. rewrite Hframe; done.
    + apply NoDup_app. split; [done |]. split; [| apply NoDup_singleton].
      intros q Hq ->%list_elem_of_singleton.
      rewrite Forall_forall in Hdom. destruct (Hdom p Hq) as [o Ho]. congruence.
    + apply Forall_app. split.
      * eapply Forall_impl; [exact Hdom |]. intros q Hq. cbn. by rewrite Hnew.
      * constructor; [| constructor]. rewrite Hp. eauto.
    + apply Forall2_app.
      * eapply Forall2_impl; [exact Hcopies |].
        intros l0 q (Hq & a0 & a0' & Hl0 & Hq' & Hf). split; [done |].
        exists a0, a0'. split; [done |]. split; [| done]. rewrite Hnew; [done |]. eauto.
      * constructor; [| constructor]. split; [done |]. exists a, a'. done.
    + exists h', ps'. rewrite <- app_assoc in Hall. done.
Qed.

(** X18. [process_articles] on a list of articles returns as many objects
    as it is given, in the same order; each is a new object, different
    from all the others even when the list names an article twice, and a
    copy of its article but for the summary and the category; every object
    of the store before the call is unchanged after it. *)
Theorem process_articles_copies (h : gmap loc obj) (articles : list loc)
    (summarize categorize : bool) (max_summary_length : Z) :
  Forall (λ l, ∃ a, h !! l = Some (ObjArticle a)) articles →
  ∃ h' processed,
    process_articles summarizer categorizer h articles summarize categorize
      max_summary_length = (h', processed) ∧
    length processed = length articles ∧
    NoDup processed ∧
    (∀ l, is_Some (h !! l) → h' !! l = h !! l) ∧
    Forall2 (fresh_copy h h') articles processed.
Proof.
  intros Harts.
  destruct (process_loop h summarize categorize max_summary_length articles [] h [])
    as (h' & ps & Hfold & Hframe & Hnd & Hall);
    [done | done | constructor | constructor | constructor |].
  exists h', ps. split; [done |]. split; [| done].
  symmetry. by eapply Forall2_length.
Qed.

End ProcessArticles.

Lemma process_articles_copies_witness :
  ∃ h' processed,
    ProcessorBatch.process_articles sample_summarizer sample_categorizer sample_store
      [2%positive; 2%positive] true true 200 = (h', processed) ∧
    length processed = length [2%positive; 2%positive] ∧
    NoDup processed ∧
    (∀ l, is_Some (sample_store !! l) → h' !! l = sample_store !! l) ∧
    Forall2 (fresh_copy sample_store h') [2%positive; 2%positive] processed.
Proof.
  apply (process_articles_copies sample_summarizer sample_categorizer sample_store
           [2%positive; 2%positive] true true 200).
  repeat constructor; by exists sample_obj.
Defined.

(** An element of the list that is no article is returned as it is. *)
Example process_articles_not_an_article :
  (ProcessorBatch.process_articles sample_summarizer sample_categorizer sample_store
     [1%positive; 2%positive] true true 200).2
  = [1%positive; 3%positive].
Proof. vm_compute. reflexivity. Qed.

(** ** Statistics of processed articles (processor.py) *)

Section ProcessingStatistics.
Import Article StorageStats ProcessingStats.

Lemma count_of_head {A} (P : A → Prop) `{∀ x, Decision (P x)} (x : A) (l : list A) :
  count_of P (x :: l) = (count_of P [x] + count_of P l)%nat.
Proof. rewrite !count_of_cons. unfold count_of at 2. cbn. lia. Qed.

Lemma summary_sizes_head (a : Article) (l : list Article) :
  summary_sizes (a :: l) = summary_sizes [a] ++ summary_sizes l.
Proof.
  unfold summary_sizes. rewrite !filter_cons, filter_nil.
  by destruct (decide (Str.truthy_opt (summary a) = true)).
Qed.

Lemma count_step_spec (st : counters) (a : Article) :
  c_with_summaries (count_step st a)
  = (c_with_summaries st + count_of (λ a, Str.truthy_opt (summary a) = true) [a])%nat ∧
  c_with_categories (count_step st a)
  = (c_with_categories st + count_of (λ a, Str.truthy_opt (category a) = true) [a])%nat ∧
  total_count (c_categories (count_step st a))
  = (total_count (c_categories st)
     + count_of (λ a, Str.truthy_opt (category a) = true) [a])%nat ∧
  total_count (c_sources (count_step st a)) = (total_count (c_sources st) + 1)%nat ∧
  summary_lengths (count_step st a) = summary_lengths st ++ summary_sizes [a] ∧
  (∀ c, count_in (c_categories (count_step st a)) c
        = (count_in (c_categories st) c
           + count_of (λ a, category a = Some c ∧ Str.truthy c = true) [a])%nat) ∧
  (∀ s, count_in (c_sources (count_step st a)) s
        = (count_in (c_sources st) s + count_of (λ a, source a = s) [a])%nat).
Proof.
  unfold count_step, count_of, summary_sizes. rewrite !filter_cons, !filter_nil.
  destruct (Str.truthy_opt (summary a)) eqn:Hs, (Str.truthy_opt (category a)) eqn:Hc;
    cbn [c_with_summaries c_with_categories c_categories c_sources summary_lengths];
    rewrite ?total_count_count_one; split_and!.
  all: try intros k; rewrite ?filter_cons, ?filter_nil, ?count_in_count_one.
  all: destruct (category a) as [ca |]; cbn [Str.truthy_opt default] in Hc; unfold id;
    try done.
  all: repeat case_decide; cbn [length fmap list_fmap]; rewrite ?app_nil_r;
    try done; try lia.
  all: exfalso; cbn [from_option] in *;
    match goal with
    | H : ¬ (_ ∧ _) |- _ => apply H; split; congruence
    | H : _ ∧ _ |- _ => destruct H as [[= ?] ?]; congruence
    end.
Qed.

Lemma count_steps (l : list Article) : ∀ st,
  c_with_summaries (foldl count_step st l)
  = (c_with_summaries st + count_of (λ a, Str.truthy_opt (summary a) = true) l)%nat ∧
  c_with_categories (foldl count_step st l)
  = (c_with_categories st + count_of (λ a, Str.truthy_opt (category a) = true) l)%nat ∧
  total_count (c_categories (foldl count_step st l))
  = (total_count (c_categories st)
     + count_of (λ a, Str.truthy_opt (category a) = true) l)%nat ∧
  total_count (c_sources (foldl count_step st l))
  = (total_count (c_sources st) + length l)%nat ∧
  summary_lengths (foldl count_step st l) = summary_lengths st ++ summary_sizes l ∧
  (∀ c, count_in (c_categories (foldl count_step st l)) c
        = (count_in (c_categories st) c
           + count_of (λ a, category a = Some c ∧ Str.truthy c = true) l)%nat) ∧
  (∀ s, count_in (c_sources (foldl count_step st l)) s
        = (count_in (c_sources st) s + count_of (λ a, source a = s) l)%nat).
Proof.
  induction l as [| a l IH]; intros st.
  - cbn. rewrite app_nil_r. split_and!; intros; lia || done.
  - cbn [foldl]. destruct (IH (count_step st a)) as (H1 & H2 & H3 & H4 & H5 & H6 & H7).
    destruct (count_step_spec st a) as (S1 & S2 & S3 & S4 & S5 & S6 & S7).
    rewrite H1, H2, H3, H4, H5, S1, S2, S3, S4, S5.
    rewrite (count_of_head _ a l), (count_of_head _ a l), (summary_sizes_head a l).
    split_and!; [lia | lia | lia | cbn [length]; lia | by rewrite app_assoc | |].
    + intros c. rewrite H6, S6, (count_of_head _ a l). lia.
    + intros s. rewrite H7, S7, (count_of_head _ a l). lia.
Qed.

(** X19. The counts of [get_processing_stats]: the total is the number of
    articles; the articles with a summary and those with a category are
    the ones whose summary, or category, is a non-empty text; the counts
    of the categories add up to the number of articles with a category,
    the counts of the sources to the total; the count of a source or of a
    category is the number of its articles. *)
Theorem get_processing_stats_counts (articles : list Article) :
  total_articles (get_processing_stats articles) = length articles ∧
  with_summaries (get_processing_stats articles)
    = count_of (λ a, Str.truthy_opt (summary a) = true) articles ∧
  with_categories (get_processing_stats articles)
    = count_of (λ a, Str.truthy_opt (category a) = true) articles ∧
  total_count (categories (get_processing_stats articles))
    = with_categories (get_processing_stats articles) ∧
  total_count (sources (get_processing_stats articles)) = length articles ∧
  (∀ c, count_in (categories (get_processing_stats articles)) c
        = count_of (λ a, category a = Some c ∧ Str.truthy c = true) articles) ∧
  (∀ s, count_in (sources (get_processing_stats articles)) s
        = count_of (λ a, source a = s) articles).
Proof.
  unfold get_processing_stats.
  cbn [total_articles with_summaries with_categories categories sources].
  destruct (count_steps articles (mk_counters 0 0 ∅ ∅ []))
    as (H1 & H2 & H3 & H4 & H5 & H6 & H7).
  rewrite H1, H2, H3, H4. cbn [c_with_summaries c_with_categories c_categories c_sources].
  split_and!; done.
Qed.

Lemma summary_sizes_positive (articles : list Article) :
  Forall (λ n, (1 ≤ n)%nat) (summary_sizes articles).
Proof.
  unfold summary_sizes. apply Forall_fmap, Forall_forall.
  intros a [Ha _]%list_elem_of_filter. cbn.
  destruct (summary a) as [[| c s] |]; cbn in *; try done. lia.
Qed.

Lemma sum_list_lower (l : list nat) : Forall (λ n, (1 ≤ n)%nat) l → (length l ≤ sum_list l)%nat.
Proof. induction 1 as [| n l Hn _ IH]; cbn; lia. Qed.

(** X20. The average of [get_processing_stats] is the sum of the lengths
    of the non-empty summaries over their number: it is 0 when no article
    has a summary, and at least 1 otherwise. *)
Theorem get_processing_stats_average (articles : list Article) :
  (avg_summary_length (get_processing_stats articles)
   * inject_Z (Z.of_nat (with_summaries (get_processing_stats articles)))
   == inject_Z (Z.of_nat (sum_list (summary_sizes articles))))%Q ∧
  (with_summaries (get_processing_stats articles) = 0%nat →
   avg_summary_length (get_processing_stats articles) = 0%Q) ∧
  ((0 < with_summaries (get_processing_stats articles))%nat →
   (1 <= avg_summary_length (get_processing_stats articles))%Q).
Proof.
  unfold get_processing_stats. cbn [avg_summary_length with_summaries].
  destruct (count_steps articles (mk_counters 0 0 ∅ ∅ []))
    as (H1 & _ & _ & _ & H5 & _).
  rewrite H1, H5. cbn [c_with_summaries summary_lengths app Nat.add].
  assert (Hlen : count_of (λ a, Str.truthy_opt (summary a) = true) articles
                 = length (summary_sizes articles)).
  { unfold count_of, summary_sizes. by rewrite length_fmap. }
  rewrite Hlen. pose proof (summary_sizes_positive articles) as Hpos.
  apply sum_list_lower in Hpos as Hsum.
  destruct (summary_sizes articles) as [| n l] eqn:E.
  - split_and!; [reflexivity | done | cbn; lia].
  - set (total := sum_list (n :: l)) in *. set (k := length (n :: l)) in *.
    assert (Hk : (0 < k)%nat) by (unfold k; cbn; lia).
    assert (Hq : ¬ (inject_Z (Z.of_nat k) == 0)%Q).
    { unfold Qeq. cbn. lia. }
    split_and!.
    + by field.
    + lia.
    + intros _. apply Qle_shift_div_l.
      * unfold Qlt. cbn. lia.
      * rewrite Qmult_1_l. rewrite <- Zle_Qle. lia.
Qed.

End ProcessingStatistics.

Example get_processing_stats_example :
  ProcessingStats.get_processing_stats [sample_article; later_article; blank_category_article]
  = ProcessingStats.mk_processing_stats 3 1 2
      (<["tech"%string := 1%nat]> {[ "finance"%string := 1%nat ]})
      (16 # 1) {[ "Example Feed"%string := 3%nat ]}.
Proof. vm_compute. reflexivity. Qed.

(** ** The OpenAI categorizer (categorizer.py) *)

Section OpenAICategorizer.
Import Categorizer OpenAI.
Local Open Scope Q_scope.

Lemma NoDup_first_occurrences (l : list string) : NoDup (first_occurrences l).
Proof.
  induction l as [| x l IH]; [constructor |]. cbn [first_occurrences]. constructor.
  - by intros [? _]%list_elem_of_filter.
  - by apply NoDup_filter.
Qed.

Lemma base_scores_items (categories : list string) :
  foldl (λ scores cat, dict_set cat (1 # 10) scores) [] categories
  = (λ c, (c, 1 # 10)) <$> first_occurrences categories.
Proof.
  pose proof (score_loop_items (λ _, 1 # 10) categories []) as Hloop.
  cbn [fmap list_fmap app] in Hloop. rewrite Hloop. clear Hloop. f_equal.
  induction (first_occurrences categories) as [| c l IH]; [done |].
  rewrite filter_cons, decide_True by apply not_elem_of_nil. by rewrite IH.
Qed.

Lemma dict_set_raise k v (keys : list string) :
  NoDup keys → k ∈ keys →
  dict_set k v ((λ c, (c, 1 # 10)) <$> keys) = (λ c, (c, raised_score k v c)) <$> keys.
Proof.
  induction 1 as [| x keys Hx Hnd IH]; intros Hin; [by apply elem_of_nil in Hin |].
  rewrite !fmap_cons. cbn [dict_set]. unfold raised_score at 1.
  destruct (String.eqb k x) eqn:Hk.
  - apply String.eqb_eq in Hk. subst x. rewrite decide_True by done. f_equal.
    apply list_fmap_ext. intros i c Hc. unfold raised_score.
    rewrite decide_False; [done |]. intros ->. apply Hx. by eapply list_elem_of_lookup_2.
  - apply String.eqb_neq in Hk. rewrite decide_False by done.
    apply elem_of_cons in Hin as [? | Hin]; [done |]. by rewrite IH.
Qed.

Lemma max_key_raised k v (categories : list string) :
  1 # 10 < v → k ∈ categories →
  max_key ((λ c, (c, raised_score k v c)) <$> first_occurrences categories) = Ok k.
Proof.
  intros Hv Hin.
  assert (Hne : categories ≠ []) by (intros ->; by apply elem_of_nil in Hin).
  destruct (max_key_first_greatest (raised_score k v) categories Hne)
    as (best & pre & post & -> & Hcats & _ & Hpre & Hpost).
  f_equal. destruct (decide (best = k)) as [| Hne']; [done |]. exfalso.
  assert (Hb : raised_score k v best = 1 # 10) by (unfold raised_score; by rewrite decide_False).
  assert (Hk : raised_score k v k = v) by (unfold raised_score; by rewrite decide_True).
  rewrite Hcats in Hin.
  apply elem_of_app in Hin as [Hin | [-> | Hin]%elem_of_cons]; [| done |].
  - specialize (Hpre k Hin). rewrite Hb, Hk in Hpre. lra.
  - specialize (Hpost k Hin). rewrite Hb, Hk in Hpost. lra.
Qed.

Lemma find_match_elem predicted categories cat :
  find_match predicted categories = Some cat → cat ∈ categories.
Proof.
  induction categories as [| c l IH]; [done |]. cbn [find_match].
  destruct (matches predicted c); [intros [= ->]; left | intros H; right; auto].
Qed.

Lemma answered_elem content categories :
  categories ≠ [] → answered content categories ∈ categories.
Proof.
  intros Hne. unfold answered.
  assert (Hhd : hd ""%string categories ∈ categories) by (destruct categories; [done | left]).
  destruct (find_match _ _) as [cat |] eqn:Hm; [| done].
  destruct (Str.truthy cat); [by eapply find_match_elem | done].
Qed.

(** The scores of the [try] block for an answer of the model. *)
Lemma categorize_body_scores create text categories content :
  categories ≠ [] →
  create (prompt text categories) = Ok content →
  ∃ v, 1 # 10 < v ∧
    categorize_body (5 # 10) (9 # 10) create text categories
    = Ok ((λ c, (c, raised_score (answered content categories) v c))
          <$> first_occurrences categories).
Proof.
  intros Hne Hc. unfold categorize_body. rewrite Hc. cbn [mbind exn_mbind exn_bind].
  cbn [f0_1 rational]. rewrite base_scores_items.
  pose proof (answered_elem content categories Hne) as Hin. unfold answered in *.
  destruct (find_match _ _) as [cat |] eqn:Hm; cbn [Str.truthy_opt default].
  - destruct (Str.truthy cat) eqn:Ht.
    + exists (9 # 10). split; [done |]. unfold id. rewrite dict_set_raise; [done | |].
      * apply NoDup_first_occurrences.
      * by apply elem_of_first_occurrences.
    + destruct categories as [| c0 cs]; [done |]. cbn [head of_option hd] in *.
      cbn [mbind exn_mbind exn_bind].
      exists (5 # 10). split; [done |]. rewrite dict_set_raise; [done | |].
      * apply NoDup_first_occurrences.
      * by apply elem_of_first_occurrences.
  - destruct categories as [| c0 cs]; [done |]. cbn [head of_option hd] in *.
    cbn [mbind exn_mbind exn_bind].
    exists (5 # 10). split; [done |]. rewrite dict_set_raise; [done | |].
    + apply NoDup_first_occurrences.
    + by apply elem_of_first_occurrences.
Qed.


(** X22. With the OpenAI backend, whatever the client does (there is
    none, the request raises, the model answers anything),
    [categorize_article] returns one of the candidates when there is a
    candidate, and raises [ValueError] when there is none. *)
Theorem openai_categorize_article_candidate (client : option (string → exn string))
    (self_categories : list string) (text : string) (categories : option (list string)) :
  match categorize_article (categorize (5 # 10) (9 # 10) client) self_categories
          text categories with
  | Ok best => best ∈ or_else categories self_categories
  | Raise e => or_else categories self_categories = [] ∧ e = "ValueError"%string
  end.
Proof.
  unfold categorize_article.
  set (cats := or_else categories self_categories).
  assert (Hfallback :
    match max_key (_fallback_categorize text cats) with
    | Ok best => best ∈ cats
    | Raise e => cats = [] ∧ e = "ValueError"%string
    end).
  { destruct cats as [| c0 cs] eqn:E; [done |].
    rewrite fallback_items by done.
    destruct (max_key_first_greatest
                (λ c, capped_score (Str.lower text) c
                      / sum_values (capped_scores text (c0 :: cs))) (c0 :: cs))
      as (best & pre & post & -> & -> & _); [done |].
    apply elem_of_app. right. left. }
  unfold categorize. destruct client as [create |]; [| done].
  destruct cats as [| c0 cs] eqn:E.
  - unfold categorize_body. destruct (create _); [| done].
    cbn [mbind exn_mbind exn_bind find_match Str.truthy_opt head of_option catch]. done.
  - destruct (create (prompt text (c0 :: cs))) as [content | e] eqn:Hc.
    + destruct (categorize_body_scores create text (c0 :: cs) content) as (v & Hv & ->);
        [done | done |].
      cbn [catch]. rewrite max_key_raised; [| done | by apply answered_elem].
      by apply answered_elem.
    + unfold categorize_body. rewrite Hc. cbn [mbind exn_mbind exn_bind catch]. done.
Qed.

End OpenAICategorizer.


(** The answers "Finance", "sports" (no candidate) and "" (which every
    candidate matches), and a client that raises. *)
Example openai_categorize_article_examples :
  let run client :=
    Categorizer.categorize_article (OpenAI.categorize (5 # 10)%Q (9 # 10)%Q client)
      ["tech"; "finance"]%string "The bank held rates." None in
  run (Some (λ _, Ok "Finance"%string)) = Ok "finance"%string ∧
  run (Some (λ _, Ok "sports"%string)) = Ok "tech"%string ∧
  run (Some (λ _, Ok ""%string)) = Ok "tech"%string ∧
  run (Some (λ _, Raise "APIError")) = Ok "finance"%string ∧
  run None = Ok "finance"%string.
Proof. vm_compute. done. Qed.

(** An answer in accented capitals matches its candidate. *)
Example openai_categorize_accented_answer :
  Categorizer.categorize_article
    (OpenAI.categorize (5 # 10)%Q (9 # 10)%Q (Some (λ _, Ok upper_economie)))
    ["sport"%string; economie] "Le match." None
  = Ok economie
  ∧ answered upper_economie ["sport"%string; economie] = economie.
Proof. split; vm_compute; reflexivity. Qed.

(** The prompt for two candidates. *)
Example openai_prompt :
  OpenAI.prompt "The bank held rates." ["tech"; "finance"]%string
  = ("Classify the following article into ONE of these categories: tech, finance"
     +:+ OpenAI.nl +:+ OpenAI.nl +:+ "Article: The bank held rates."
     +:+ OpenAI.nl +:+ OpenAI.nl +:+ "Instructions:" +:+ OpenAI.nl
     +:+ "1. Choose the MOST appropriate category from the list above" +:+ OpenAI.nl
     +:+ "2. Return only the category name, nothing else" +:+ OpenAI.nl
     +:+ "3. If unsure, choose the closest match" +:+ OpenAI.nl +:+ OpenAI.nl
     +:+ "Category:")%string.
Proof. reflexivity. Qed.

(** ** White space (rss_scraper.py, summarizer.py) *)

Section WhiteSpace.
Import Rss.

Lemma spaced_word c s : Str.is_space c = false → ∀ b, spaced b (String c s) = spaced false s.
Proof. intros Hc b. cbn [spaced]. by rewrite Hc. Qed.

Lemma spaced_space s : spaced false (String " " s) = spaced true s.
Proof. reflexivity. Qed.

(** The three states of [collapse]: before the first word, within the
    text, and after white space that follows a word. *)
Lemma collapse_spaced (s : string) :
  single_spaced (collapse false false s) = true ∧
  spaced false (collapse false true s) = true ∧
  (collapse true true s = EmptyString ∨
   ∃ rest, collapse true true s = String " " rest ∧ spaced true rest = true).
Proof.
  induction s as [| c s (IHa & IHb & IHc)]; [by auto |].
  cbn [collapse]. destruct (Str.is_space c) eqn:Hc.
  - split_and!; [done | | done].
    destruct IHc as [-> | (rest & -> & Hrest)]; [done | by rewrite spaced_space].
  - split_and!.
    + cbn [single_spaced]. by rewrite spaced_word.
    + by rewrite spaced_word.
    + right. eexists. split; [reflexivity |]. by rewrite spaced_word.
Qed.

Lemma collapse_fixed (s : string) :
  (spaced false s = true → collapse false true s = s) ∧
  (spaced true s = true → collapse false true s = s ∧ collapse false false s = s
                           ∧ collapse true true s = String " " s).
Proof.
  induction s as [| c s [IHa IHb]]; [done |].
  cbn [spaced collapse]. destruct (Str.is_space c) eqn:Hc.
  - split.
    + intros [[Heq _]%andb_true_iff Hs]%andb_true_iff.
      apply Ascii.eqb_eq in Heq. subst c. by destruct (IHb Hs) as (_ & _ & ->).
    + intros [[_ ?]%andb_true_iff _]%andb_true_iff. done.
  - split.
    + intros Hs. by rewrite (IHa Hs).
    + intros Hs. by rewrite (IHa Hs).
Qed.

Lemma normalize_single_spaced s : single_spaced (normalize_whitespace s) = true.
Proof. apply collapse_spaced. Qed.

Lemma normalize_fixed s : single_spaced s = true → normalize_whitespace s = s.
Proof.
  destruct s as [| c s]; [done |]. cbn [single_spaced]. intros Hs.
  unfold normalize_whitespace.
  by destruct (proj2 (collapse_fixed (String c s)) Hs) as (_ & -> & _).
Qed.

Lemma spaced_ends (s : string) : ∀ b,
  spaced b s = true → Str.rstrip s = s ∧ (b = true → Str.lstrip s = s).
Proof.
  induction s as [| c s IH]; intros b; [done |].
  cbn [spaced Str.rstrip Str.lstrip]. destruct (Str.is_space c) eqn:Hc.
  - intros [[_ Hb%negb_true_iff]%andb_true_iff Hs]%andb_true_iff. subst b.
    destruct (IH true Hs) as [-> _]. split; [| done].
    destruct s; [done | done].
  - intros Hs. destruct (IH false Hs) as [-> _]. split; [| done]. by destruct s.
Qed.

Lemma single_spaced_strip s : single_spaced s = true → Str.strip s = s.
Proof.
  destruct s as [| c s]; [done |]. cbn [single_spaced]. intros Hs.
  destruct (spaced_ends _ _ Hs) as [Hr Hl]. unfold Str.strip. by rewrite Hl, Hr.
Qed.

(** X23. The text that [_clean_html] returns has no white space at its
    ends and no white space within but single spaces between words,
    whatever the HTML parser makes of the markup; cleaning it again
    changes nothing as long as it holds no markup. *)
Theorem clean_html_single_spaced (html_text : string → string) (text : string) :
  single_spaced (_clean_html html_text text) = true ∧
  Str.strip (_clean_html html_text text) = _clean_html html_text text ∧
  normalize_whitespace (_clean_html html_text text) = _clean_html html_text text.
Proof.
  assert (H : single_spaced (_clean_html html_text text) = true).
  { unfold _clean_html. apply normalize_single_spaced. }
  split_and!; [done | by apply single_spaced_strip | by apply normalize_fixed].
Qed.

Variable source_name : string.
Variable category : string.
Variable max_articles : Z.
Variable date_parse : string → option Datetime.datetime.
Variable fetch_full_content : string → option string.
Variable html_text : string → string.

(** X24. The body of every article that [scrape_articles] returns is
    such a text: the words of the content of the entry, of the linked page
    or of the summary, separated by single spaces. *)
Theorem scrape_articles_body_single_spaced (feed : exn (list Entry))
    (clock : nat → Datetime.datetime) (a : Article.Article) :
  a ∈ scrape_articles source_name category max_articles date_parse fetch_full_content
        html_text feed clock →
  single_spaced (Article.body a) = true.
Proof.
  unfold scrape_articles. destruct feed as [entries |]; [| by intros ?%elem_of_nil].
  intros Ha. apply elem_of_scrape_loop in Ha as (j & entry & _ & Hp).
  revert Hp. unfold _parse_entry.
  destruct (negb (Str.truthy (Str.strip _))); [done |].
  destruct (negb (Str.truthy (Str.strip (default ""%string (e_link entry))))); [done |].
  destruct (match e_published_parsed entry with Some _ => _ | None => _ end); [| done].
  cbn [mbind exn_mbind exn_bind].
  destruct (validate_terms _); [| done]. cbn [mbind exn_mbind exn_bind].
  intros [= <-]. cbn [Article.body]. apply normalize_single_spaced.
Qed.

End WhiteSpace.

Lemma scrape_articles_body_single_spaced_witness :
  single_spaced
    (Article.body
       (Article.mk_Article "Full" "https://example.org/full" "The whole text."
          (Some "A summary."%string) (Some "finance"%string) "Example Feed" None sample_time
          None []))
  = true.
Proof.
  apply (scrape_articles_body_single_spaced "Example Feed" "finance" 10 (λ _, None)
           (λ _, None) (λ _, "The  whole text. "%string) (Ok [content_entry])
           (λ _, sample_time)).
  vm_compute. left.
Defined.

Example clean_html_examples :
  Rss._clean_html (λ _, "The  whole text. "%string) "<p>The  whole text.</p>"
  = "The whole text."%string ∧
  Rss._clean_html (λ s, s) "  a <  b   c  " = "a < b c"%string ∧
  single_spaced "a < b c" = true ∧ single_spaced "a  b" = false ∧
  single_spaced " a" = false.
Proof. vm_compute. done. Qed.

(** ** The OpenAI summarizer (summarizer.py) *)

Section OpenAISummary.
Import Summarizer OpenAISummarizer.

Lemma rstrip_word c s : Str.is_space c = false → Str.rstrip (String c s) = String c (Str.rstrip s).
Proof. intros Hc. cbn [Str.rstrip]. rewrite Hc. by destruct (Str.rstrip s). Qed.

Lemma rstrip_idemp s : Str.rstrip (Str.rstrip s) = Str.rstrip s.
Proof.
  induction s as [| c s IH]; [done |]. cbn [Str.rstrip].
  destruct (Str.rstrip s) as [| c' r] eqn:Hr.
  - destruct (Str.is_space c) eqn:Hc; [done |]. cbn [Str.rstrip]. by rewrite Hc.
  - cbn [Str.rstrip] in *. by rewrite IH.
Qed.

Lemma lstrip_head s :
  Str.lstrip s = EmptyString ∨
  ∃ c r, Str.lstrip s = String c r ∧ Str.is_space c = false.
Proof.
  induction s as [| c s IH]; [by left |]. cbn [Str.lstrip].
  destruct (Str.is_space c) eqn:Hc; [done |]. right. eauto.
Qed.

Lemma strip_idemp s : Str.strip (Str.strip s) = Str.strip s.
Proof.
  unfold Str.strip. destruct (lstrip_head s) as [-> | (c & r & -> & Hc)]; [done |].
  rewrite rstrip_word by done. cbn [Str.lstrip]. rewrite Hc.
  rewrite <- rstrip_word by done. apply rstrip_idemp.
Qed.

(** X25. A summary of [OpenAISummarizer.summarize] has no white space at
    its ends, whether it is the answer of the model or, without a client
    or after an exception, the leading sentences of the text. *)
Theorem openai_summarize_stripped (client : option (string → Z → exn string))
    (text : string) (max_length : Z) :
  Str.strip (summarize client text max_length) = summarize client text max_length.
Proof.
  unfold summarize.
  assert (Hf : Str.strip (_fallback_summarize text max_length)
               = _fallback_summarize text max_length)
    by apply strip_idemp.
  destruct client as [create |]; [| done].
  destruct (create _ _) as [content |]; cbn [mbind exn_mbind exn_bind catch]; [| done].
  apply strip_idemp.
Qed.

End OpenAISummary.

Example openai_summarize_examples :
  OpenAISummarizer.summarize (Some (λ _ _, Ok "  Rates were held.  "%string))
    "The bank held rates. Markets were calm." 200
  = "Rates were held."%string ∧
  OpenAISummarizer.summarize (Some (λ _ _, Raise "APIError"))
    "The bank held rates. Markets were calm." 30
  = "The bank held rates."%string ∧
  OpenAISummarizer.prompt "Text." 200
  = ("Please provide a concise summary of the following article in about 200 characters. "
     +:+ OpenAI.nl +:+ "            Focus on the key points and main takeaways:"
     +:+ OpenAI.nl +:+ OpenAI.nl +:+ "            Text.  # Limit input to stay within token limits"
     +:+ OpenAI.nl +:+ "            " +:+ OpenAI.nl +:+ "            Summary:")%string.
Proof. vm_compute. done. Qed.
